(** * Restaurant analytics core: a shallow embedding and its properties

    The development embeds the analytical engines of the repository
    (decision tracker, outcome evaluator, the two revenue decomposition
    engines, the decision and menu-engineering routes, and the two baseline
    engines) as executable Rocq functions and states the properties of the
    specification over them.

    Modelling conventions, used throughout:
    - a JavaScript number is a value of [num]: an exact rational, or one of
      the three non-finite values [PInf], [NInf], [NaN].  Arithmetic follows
      the IEEE rules for the non-finite values and for division by zero;
      rounding of binary64, overflow and the sign of zero are not modelled.
      What is stated over [num] is therefore stated of the formulas of the
      code, and is claimed of its results only where rounding cannot change
      it; where rounding or overflow does change the result, the arithmetic
      of the revenue decomposition is embedded a second time over the
      kernel's binary64 numbers (module [Binary64]);
    - a point in time is a number of milliseconds since the epoch ([Z]); the
      date-fns helpers and [toISOString] are read in UTC;
    - an SQL table or a Prisma model is the list of its rows, oldest first;
      the numeric columns read here are never NULL: a quantity is an integer
      and a price or an amount a rational;
    - a JSON text stored in a column is kept as the value it denotes, and
      an impact object is a dictionary of numbers;
    - a call reads the clock once: [now] (or [today]) is an argument;
    - a JavaScript [Map] is an association list in insertion order, a plain
      object used as a dictionary ([Record<string, any>]) is a [gmap]. *)

From Stdlib Require Import ZArith QArith Qround Qabs Qminmax Lia Lqa List Bool
  Sorted.
From Stdlib Require PrimFloat.
From stdpp Require Import gmap strings pretty.
Import ListNotations.
Set Warnings "-inexact-float".

Set Default Proof Using "Type".

(** ** JavaScript numbers *)

Inductive num : Type :=
| Fin (q : Q)
| PInf
| NInf
| NaN.

Declare Scope num_scope.
Delimit Scope num_scope with num.
Bind Scope num_scope with num.

Definition Qltb (x y : Q) : bool := negb (Qle_bool y x).

(** [sgnQ q] is the sign of [q] as a comparison with zero. *)
Definition sgnQ (q : Q) : comparison := (q ?= 0)%Q.

Definition of_Z (z : Z) : num := Fin (inject_Z z).
Definition of_nat (n : nat) : num := of_Z (Z.of_nat n).

Definition num_opp (x : num) : num :=
  match x with
  | Fin a => Fin (- a)
  | PInf => NInf
  | NInf => PInf
  | NaN => NaN
  end.

Definition num_add (x y : num) : num :=
  match x, y with
  | Fin a, Fin b => Fin (a + b)
  | NaN, _ | _, NaN => NaN
  | PInf, NInf | NInf, PInf => NaN
  | PInf, _ | _, PInf => PInf
  | NInf, _ | _, NInf => NInf
  end.

Definition num_sub (x y : num) : num := num_add x (num_opp y).

(** An infinity of sign [pos] scaled by a factor of sign [c]. *)
Definition inf_signed (pos : bool) (c : comparison) : num :=
  match c with
  | Eq => NaN
  | Gt => if pos then PInf else NInf
  | Lt => if pos then NInf else PInf
  end.

Definition num_mul (x y : num) : num :=
  match x, y with
  | Fin a, Fin b => Fin (a * b)
  | NaN, _ | _, NaN => NaN
  | PInf, Fin b => inf_signed true (sgnQ b)
  | NInf, Fin b => inf_signed false (sgnQ b)
  | Fin a, PInf => inf_signed true (sgnQ a)
  | Fin a, NInf => inf_signed false (sgnQ a)
  | PInf, PInf | NInf, NInf => PInf
  | PInf, NInf | NInf, PInf => NInf
  end.

(** Division: a finite value divided by zero is an infinity of the sign of
    the numerator, and [0 / 0] is [NaN]. *)
Definition num_div (x y : num) : num :=
  match x, y with
  | Fin a, Fin b =>
      if Qeq_bool b 0 then inf_signed true (sgnQ a) else Fin (a / b)
  | NaN, _ | _, NaN => NaN
  | Fin _, (PInf | NInf) => Fin 0
  | PInf, Fin b => if Qltb b 0 then NInf else PInf
  | NInf, Fin b => if Qltb b 0 then PInf else NInf
  | (PInf | NInf), (PInf | NInf) => NaN
  end.

Definition num_abs (x : num) : num :=
  match x with
  | Fin a => Fin (Qabs a)
  | PInf | NInf => PInf
  | NaN => NaN
  end.

(** The relational operators; every comparison with [NaN] is false. *)
Definition num_lt (x y : num) : bool :=
  match x, y with
  | Fin a, Fin b => Qltb a b
  | NaN, _ | _, NaN => false
  | _, NInf => false
  | PInf, _ => false
  | _, PInf => true
  | NInf, _ => true
  end.

Definition num_le (x y : num) : bool :=
  match x, y with
  | Fin a, Fin b => Qle_bool a b
  | NaN, _ | _, NaN => false
  | NInf, _ => true
  | _, PInf => true
  | _, NInf => false
  | PInf, _ => false
  end.

Definition num_gt (x y : num) : bool := num_lt y x.
Definition num_ge (x y : num) : bool := num_le y x.

(** [===] on numbers, and its negation [!==]. *)
Definition num_eqb (x y : num) : bool :=
  match x, y with
  | Fin a, Fin b => Qeq_bool a b
  | PInf, PInf | NInf, NInf => true
  | _, _ => false
  end.

Definition num_neqb (x y : num) : bool := negb (num_eqb x y).

(** [Math.max] and [Math.min] of two arguments. *)
Definition Math_max (x y : num) : num :=
  match x, y with
  | NaN, _ | _, NaN => NaN
  | _, _ => if num_le x y then y else x
  end.

Definition Math_min (x y : num) : num :=
  match x, y with
  | NaN, _ | _, NaN => NaN
  | _, _ => if num_le x y then x else y
  end.

(** [Math.round]: the nearest integer, halves going up. *)
Definition Math_round (x : num) : num :=
  match x with
  | Fin a => of_Z (Qfloor (a + (1 # 2)))
  | _ => x
  end.

(** Truthiness of a number: [0] and [NaN] are falsy. *)
Definition truthy (x : num) : bool :=
  match x with
  | Fin a => negb (Qeq_bool a 0)
  | PInf | NInf => true
  | NaN => false
  end.

(** [x || d] on numbers. *)
Definition num_or (x d : num) : num := if truthy x then x else d.

Definition is_finite (x : num) : bool :=
  match x with Fin _ => true | _ => false end.

(** A number is finite when it is neither an infinity nor [NaN]. *)
Definition finite (x : num) : Prop := is_finite x = true.

(** The rational a finite number stands for. *)
Definition qval (x : num) : Q :=
  match x with
  | Fin q => q
  | _ => 0%Q
  end.

Infix "+" := num_add : num_scope.
Infix "-" := num_sub : num_scope.
Infix "*" := num_mul : num_scope.
Infix "/" := num_div : num_scope.
Infix "<?" := num_lt : num_scope.
Infix "<=?" := num_le : num_scope.
Infix ">?" := num_gt : num_scope.
Infix ">=?" := num_ge : num_scope.
Infix "=?" := num_eqb : num_scope.
Infix "!=?" := num_neqb (at level 70) : num_scope.

(** Numeric literals of the sources. *)
Definition n0 : num := Fin 0.
Definition n1 : num := Fin 1.
Definition n100 : num := Fin 100.

(** ** Time and dates *)

Definition msPerDay : Z := 86400000.
Definition msPerHour : Z := 3600000.

(** date-fns [subDays(date, amount)]. *)
Definition subDays (date amount : Z) : Z := date - amount * msPerDay.

(** date-fns [differenceInDays(later, earlier)]: the number of full days
    between the two instants, truncated towards zero. *)
Definition differenceInDays (later earlier : Z) : Z :=
  Z.quot (later - earlier) msPerDay.

(** The calendar day of an instant, as a day number.  It stands for
    [toISOString().split('T')[0]], for [format(d, 'yyyy-MM-dd')] and for the
    SQL [DATE(timestamp)]: the three render the same day, and the rendered
    strings are ordered as the day numbers are. *)
Definition isoDate (t : Z) : Z := t / msPerDay.

(** [new Date(t).getHours()]. *)
Definition getHours (t : Z) : Z := (t / msPerHour) mod 24.

(** date-fns [startOfDay] and [endOfDay]. *)
Definition startOfDay (t : Z) : Z := isoDate t * msPerDay.
Definition endOfDay (t : Z) : Z := startOfDay t + msPerDay - 1.

(** [date.getDay()]: 0 is Sunday; the epoch fell on a Thursday. *)
Definition getDay (t : Z) : Z := (isoDate t + 4) mod 7.

(** SQL [CURRENT_TIMESTAMP], read back with [new Date(text)]: the text has
    whole seconds, so the instant read back is the start of the second in
    which the statement ran. *)
Definition currentTimestamp (now : Z) : Z := now / 1000 * 1000.

(** ** Number formatting *)

Fixpoint zeros (n : nat) : string :=
  match n with
  | O => ""
  | S k => "0" +:+ zeros k
  end.

Definition pad_zeros (width : nat) (s : string) : string :=
  zeros (width - String.length s) +:+ s.

(** [x.toFixed(digits)] for [x] below [10^21] in magnitude. *)
Definition toFixed (x : num) (digits : nat) : string :=
  match x with
  | NaN => "NaN"
  | PInf => "Infinity"
  | NInf => "-Infinity"
  | Fin q =>
      let sign := if Qltb q 0 then "-" else "" in
      let scale := (10 ^ Z.of_nat digits)%Z in
      let n := Qfloor (Qabs q * inject_Z scale + (1 # 2)) in
      let whole := pretty (Z.to_N (n / scale)) in
      match digits with
      | O => sign +:+ whole
      | _ => sign +:+ whole +:+ "." +:+
             pad_zeros digits (pretty (Z.to_N (n mod scale)))
      end
  end.

(** ** Decision tracker (server/src/engines/decisionTracker.ts) *)

Module DecisionTracker.

(** The status type of the tracker:
    ['pending' | 'accepted' | 'rejected' | 'implemented']. *)
Inductive Status : Type := pending | accepted | rejected | implemented.

Definition Status_eqb (a b : Status) : bool :=
  match a, b with
  | pending, pending | accepted, accepted
  | rejected, rejected | implemented, implemented => true
  | _, _ => false
  end.

(** A row of the [decisions] table.  The JSON text of [predicted_impact]
    is kept as the object it denotes: [JSON.parse] gives back the object
    that [JSON.stringify] was given when its numbers are finite (a [NaN]
    or an infinity is written as [null]). *)
Record DecisionRow : Type := {
  id : Z;
  decision_type : string;
  entity_id : Z;
  entity_type : string;
  recommendation_text : string;
  rationale_text : string;
  predicted_impact : gmap string num;
  status : Status;
  implemented_at : option Z;
  created_at : Z
}.

(** A row of the [decision_outcomes] table. *)
Record OutcomeRow : Type := {
  outcome_id : Z;
  decision_id : Z;
  actual_impact : gmap string num;
  evaluation_date : Z;
  accuracy_score : num;
  notes : option string
}.

(** The two tables, each with its AUTOINCREMENT counter. *)
Record Db : Type := {
  decisions : list DecisionRow;
  decisions_seq : Z;
  decision_outcomes : list OutcomeRow;
  outcomes_seq : Z
}.

(** The [Decision] interface. *)
Record Decision : Type := {
  decisionId : option Z;
  decisionType : string;
  entityId : Z;
  entityType : string;
  recommendation : string;
  rationale : string;
  predictedImpact : gmap string num;
  decisionStatus : option Status;
  implementedAt : option Z;
  createdAt : option Z
}.

(** The [DecisionOutcome] interface. *)
Record DecisionOutcome : Type := {
  outcomeDecisionId : Z;
  actualImpact : gmap string num;
  evaluationDate : Z;
  accuracyScore : num;
  outcomeNotes : option string
}.

Definition initTables : Db :=
  {| decisions := []; decisions_seq := 0;
     decision_outcomes := []; outcomes_seq := 0 |}.

(** [INSERT INTO decisions (...)]: status defaults to ['pending'],
    [implemented_at] to NULL and [created_at] to the current time. *)
Definition logRecommendation (now : Z) (db : Db) (decision : Decision)
  : Z * Db :=
  let rowid := (decisions_seq db + 1)%Z in
  (rowid,
   {| decisions := decisions db ++
        [{| id := rowid;
            decision_type := decisionType decision;
            entity_id := entityId decision;
            entity_type := entityType decision;
            recommendation_text := recommendation decision;
            rationale_text := rationale decision;
            predicted_impact := predictedImpact decision;
            status := pending;
            implemented_at := None;
            created_at := currentTimestamp now |}];
      decisions_seq := rowid;
      decision_outcomes := decision_outcomes db;
      outcomes_seq := outcomes_seq db |}).

Definition set_status (st : Status) (r : DecisionRow) : DecisionRow :=
  {| id := id r; decision_type := decision_type r;
     entity_id := entity_id r; entity_type := entity_type r;
     recommendation_text := recommendation_text r;
     rationale_text := rationale_text r;
     predicted_impact := predicted_impact r;
     status := st;
     implemented_at := implemented_at r;
     created_at := created_at r |}.

Definition set_status_implemented_at (st : Status) (t : Z) (r : DecisionRow)
  : DecisionRow :=
  {| id := id r; decision_type := decision_type r;
     entity_id := entity_id r; entity_type := entity_type r;
     recommendation_text := recommendation_text r;
     rationale_text := rationale_text r;
     predicted_impact := predicted_impact r;
     status := st;
     implemented_at := Some t;
     created_at := created_at r |}.

(** [UPDATE decisions SET ... WHERE id = ?]. *)
Definition update_where_id (f : DecisionRow -> DecisionRow) (rowid : Z)
    (rows : list DecisionRow) : list DecisionRow :=
  map (fun r => if (id r =? rowid)%Z then f r else r) rows.

Definition with_decisions (db : Db) (rows : list DecisionRow) : Db :=
  {| decisions := rows; decisions_seq := decisions_seq db;
     decision_outcomes := decision_outcomes db;
     outcomes_seq := outcomes_seq db |}.

Definition updateDecisionStatus (now : Z) (db : Db) (decisionId : Z)
    (st : Status) : Db :=
  match st with
  | implemented =>
      with_decisions db
        (update_where_id (set_status_implemented_at st now) decisionId
           (decisions db))
  | _ =>
      with_decisions db
        (update_where_id (set_status st) decisionId (decisions db))
  end.

(** [INSERT INTO decision_outcomes (...)]. *)
Definition logOutcome (db : Db) (outcome : DecisionOutcome) : Db :=
  let rowid := (outcomes_seq db + 1)%Z in
  {| decisions := decisions db;
     decisions_seq := decisions_seq db;
     decision_outcomes := decision_outcomes db ++
       [{| outcome_id := rowid;
           decision_id := outcomeDecisionId outcome;
           actual_impact := actualImpact outcome;
           evaluation_date := evaluationDate outcome;
           accuracy_score := accuracyScore outcome;
           notes := outcomeNotes outcome |}];
     outcomes_seq := rowid |}.

(** [SELECT ... WHERE entity_id = ? AND status = 'pending'
     ORDER BY created_at DESC]: rows of equal [created_at] (the same
    second) stay in the order of the table. *)
Fixpoint insert_by_created_desc (r : DecisionRow) (l : list DecisionRow)
  : list DecisionRow :=
  match l with
  | [] => [r]
  | x :: l' =>
      if (created_at x <=? created_at r)%Z then r :: l
      else x :: insert_by_created_desc r l'
  end.

Definition getPendingDecisions (db : Db) (restaurantId : Z)
  : list Decision :=
  let rows :=
    List.filter (fun r => (entity_id r =? restaurantId)%Z
                     && Status_eqb (status r) pending)
           (decisions db) in
  map (fun row =>
         {| decisionId := Some (id row);
            decisionType := decision_type row;
            entityId := restaurantId;
            entityType := "restaurant";
            recommendation := recommendation_text row;
            rationale := rationale_text row;
            predictedImpact := predicted_impact row;
            decisionStatus := Some pending;
            implementedAt := None;
            createdAt := Some (created_at row) |})
      (fold_right insert_by_created_desc [] rows).

(** [SELECT * FROM decisions WHERE id = ?]. *)
Definition getDecisionById (db : Db) (decisionId : Z) : option Decision :=
  match find (fun r => (id r =? decisionId)%Z) (decisions db) with
  | None => None
  | Some row =>
      Some {| DecisionTracker.decisionId := Some (id row);
              decisionType := decision_type row;
              entityId := entity_id row;
              entityType := entity_type row;
              recommendation := recommendation_text row;
              rationale := rationale_text row;
              predictedImpact := predicted_impact row;
              decisionStatus := Some (status row);
              implementedAt := implemented_at row;
              createdAt := Some (created_at row) |}
  end.

End DecisionTracker.

(** ** The [transactions] table of the SQLite store

    A row with every column set, as the upload route writes it from a
    record whose quantity and price are numbers.  The schema allows [NULL]
    in each column, and the aggregates of SQLite skip a [NULL]; such rows
    are outside this model. *)

Record Transaction : Type := {
  pos_order_id : string;
  timestamp : Z;
  channel : string;
  menu_item : string;
  category : string;
  quantity : Z;
  price : Q;
  total_amount : Q;
  restaurant_id : Z;
  item_id : Z
}.

Definition sumQ (vals : list Q) : Q := fold_left Qplus vals 0%Q.

(** SQL [SUM]: NULL over no rows. *)
Definition SUM (vals : list Q) : option Q :=
  match vals with
  | [] => None
  | _ => Some (sumQ vals)
  end.

(** The distinct values of a [GROUP BY] column, in increasing order. *)
Fixpoint insert_key (k : Z) (ks : list Z) : list Z :=
  match ks with
  | [] => [k]
  | x :: ks' =>
      if (k <? x)%Z then k :: ks
      else if (k =? x)%Z then ks
      else x :: insert_key k ks'
  end.

Definition group_keys (ks : list Z) : list Z := fold_right insert_key [] ks.

(** [DATE(timestamp) BETWEEN lo AND hi]. *)
Definition date_between (t lo hi : Z) : bool :=
  (lo <=? isoDate t)%Z && (isoDate t <=? hi)%Z.

(** [v || 0] for a nullable SQL number [v]. *)
Definition or0 (v : option Q) : num :=
  match v with
  | None => n0
  | Some q => num_or (Fin q) n0
  end.

(** [m.k || 0] for a property of a dictionary of numbers. *)
Definition prop_or0 (v : option num) : num :=
  match v with
  | None => n0
  | Some x => num_or x n0
  end.

(** ** Outcome evaluator (server/src/engines/outcomeEvaluator.ts) *)

Module OutcomeEvaluator.
Import DecisionTracker.

Record EvaluationResult : Type := {
  predicted : gmap string num;
  actual : gmap string num;
  accuracy : num;
  evaluation : string
}.

Definition impact_record (revenueChange beforeRev afterRev : num)
  : gmap string num :=
  <["revenue_change_pct" := revenueChange]>
    (<["before_revenue" := beforeRev]>
       (<["after_revenue" := afterRev]> ∅)).

Definition revenue_change_pct (beforeRev afterRev : num) : num :=
  if (beforeRev >? n0)%num
  then (((afterRev - beforeRev) / beforeRev) * n100)%num
  else n0.

Definition measureItemImpact (now : Z) (txs : list Transaction)
    (itemId : Z) (implementationDate : Z) : gmap string num :=
  let beforeStart := subDays implementationDate 14 in
  let beforeEnd := implementationDate in
  let afterStart := implementationDate in
  let afterEnd := subDays now (-7) in
  let query (lo hi : Z) : option Q :=
    SUM (map (fun r => (inject_Z (quantity r) * price r)%Q)
           (List.filter (fun r => (item_id r =? itemId)%Z
                             && date_between (timestamp r) lo hi) txs)) in
  let before := query (isoDate beforeStart) (isoDate beforeEnd) in
  let after := query (isoDate afterStart) (isoDate afterEnd) in
  let beforeRev := or0 before in
  let afterRev := or0 after in
  let revenueChange := revenue_change_pct beforeRev afterRev in
  impact_record revenueChange beforeRev afterRev.

Definition measureRestaurantImpact (now : Z) (txs : list Transaction)
    (restaurantId : Z) (implementationDate : Z) : gmap string num :=
  let beforeStart := subDays implementationDate 14 in
  let beforeEnd := implementationDate in
  let afterStart := implementationDate in
  let afterEnd := subDays now (-7) in
  let query (lo hi : Z) : option Q :=
    SUM (map total_amount
           (List.filter (fun r => (restaurant_id r =? restaurantId)%Z
                             && date_between (timestamp r) lo hi) txs)) in
  let before := query (isoDate beforeStart) (isoDate beforeEnd) in
  let after := query (isoDate afterStart) (isoDate afterEnd) in
  let beforeRev := or0 before in
  let afterRev := or0 after in
  let revenueChange := revenue_change_pct beforeRev afterRev in
  impact_record revenueChange beforeRev afterRev.

Definition calculateAccuracy (predicted actual : gmap string num) : num :=
  match predicted !! "revenue_change_pct", actual !! "revenue_change_pct" with
  | Some predVal, Some actualVal =>
      if (predVal =? n0)%num && (actualVal =? n0)%num then Fin 1
      else
        let error :=
          (num_abs (predVal - actualVal)
           / Math_max (num_abs predVal) (num_abs actualVal))%num in
        Math_max n0 (n1 - error)%num
  | _, _ => Fin (1 # 2)
  end.

Definition generateEvaluationText (predicted actual : gmap string num)
    (accuracy : num) : string :=
  let predChange := prop_or0 (predicted !! "revenue_change_pct") in
  let actualChange := prop_or0 (actual !! "revenue_change_pct") in
  if (accuracy >? Fin (8 # 10))%num then
    "Prediction was highly accurate. Expected " +:+ toFixed predChange 1
    +:+ "% change, actual was " +:+ toFixed actualChange 1 +:+ "%."
  else if (accuracy >? Fin (5 # 10))%num then
    "Prediction was moderately accurate. Expected " +:+ toFixed predChange 1
    +:+ "% change, actual was " +:+ toFixed actualChange 1 +:+ "%."
  else
    "Prediction was off. Expected " +:+ toFixed predChange 1
    +:+ "% change, actual was " +:+ toFixed actualChange 1
    +:+ "%. Adjusting models.".

(** [evaluateDecision]: the result ([None] is [null]) and the tracker's
    store after the call.  [now] is the clock, [txs] the transactions. *)
Definition evaluateDecision (now : Z) (txs : list Transaction)
    (tracker : Db) (decisionId : Z) : option EvaluationResult * Db :=
  match getDecisionById tracker decisionId with
  | None => (None, tracker)
  | Some decision =>
      match decisionStatus decision, implementedAt decision with
      | Some implemented, Some implementedAt =>
          let daysSinceImplementation :=
            differenceInDays now implementedAt in
          if (daysSinceImplementation <? 7)%Z then (None, tracker)
          else
            let measured :=
              if String.eqb (entityType decision) "item" then
                Some (measureItemImpact now txs (entityId decision)
                        implementedAt)
              else if String.eqb (entityType decision) "restaurant" then
                Some (measureRestaurantImpact now txs (entityId decision)
                        implementedAt)
              else None in
            match measured with
            | None => (None, tracker)
            | Some actualImpact =>
                let accuracy :=
                  calculateAccuracy (predictedImpact decision)
                    actualImpact in
                let tracker' :=
                  logOutcome tracker
                    {| outcomeDecisionId := decisionId;
                       actualImpact := actualImpact;
                       evaluationDate := now;
                       accuracyScore := accuracy;
                       outcomeNotes := None |} in
                (Some {| predicted := predictedImpact decision;
                         actual := actualImpact;
                         accuracy := accuracy;
                         evaluation :=
                           generateEvaluationText
                             (predictedImpact decision) actualImpact
                             accuracy |},
                 tracker')
            end
      | _, _ => (None, tracker)
      end
  end.

End OutcomeEvaluator.

(** ** JavaScript [Map] and [Set] in insertion order *)

Section JsMap.
Context {K V : Type} (eqb : K -> K -> bool).

Fixpoint Map_get (m : list (K * V)) (k : K) : option V :=
  match m with
  | [] => None
  | (k', v) :: m' => if eqb k' k then Some v else Map_get m' k
  end.

(** [m.set(k, v)]: an existing key keeps its place. *)
Fixpoint Map_set (m : list (K * V)) (k : K) (v : V) : list (K * V) :=
  match m with
  | [] => [(k, v)]
  | (k', v') :: m' =>
      if eqb k' k then (k, v) :: m' else (k', v') :: Map_set m' k v
  end.

(** [new Map(entries)]. *)
Definition Map_of (entries : list (K * V)) : list (K * V) :=
  fold_left (fun m kv => Map_set m (fst kv) (snd kv)) entries [].

Definition Map_keys (m : list (K * V)) : list K := map fst m.

(** [s.add(k)]. *)
Definition Set_add (s : list K) (k : K) : list K :=
  if existsb (eqb k) s then s else s ++ [k].

(** [new Set(keys)]. *)
Definition Set_of (keys : list K) : list K := fold_left Set_add keys [].
End JsMap.

(** The line feed of a template literal that spans several lines. *)
Definition newline : string := String (Ascii.ascii_of_nat 10) EmptyString.

(** [s.toLowerCase()] on ASCII letters. *)
Definition lower_char (c : Ascii.ascii) : Ascii.ascii :=
  let n := Ascii.nat_of_ascii c in
  if ((65 <=? n) && (n <=? 90))%nat then Ascii.ascii_of_nat (n + 32) else c.

Fixpoint toLowerCase (s : string) : string :=
  match s with
  | EmptyString => EmptyString
  | String c s' => String (lower_char c) (toLowerCase s')
  end.

(** [s.includes(sub)]. *)
Fixpoint includes (s sub : string) : bool :=
  String.prefix sub s ||
  match s with
  | EmptyString => false
  | String _ s' => includes s' sub
  end.

(** [xs.join(sep)] on strings. *)
Fixpoint join (sep : string) (xs : list string) : string :=
  match xs with
  | [] => ""
  | [x] => x
  | x :: xs' => x +:+ sep +:+ join sep xs'
  end.

(** [xs.reduce((sum, x) => sum + f(x), 0)]. *)
Definition sum_by {A : Type} (f : A -> num) (xs : list A) : num :=
  fold_left (fun sum x => (sum + f x)%num) xs n0.

(** ** Revenue decomposition over the SQLite store
       (server/src/engines/insightEngine.ts) *)

Module InsightEngine.

Record Decomposition : Type := {
  volumeEffect : num;
  volumeEffectPct : num;
  priceEffect : num;
  priceEffectPct : num;
  mixEffect : num;
  mixEffectPct : num
}.

Record RevenueDecomposition : Type := {
  revenueChange : num;
  revenueChangePct : num;
  decomposition : Decomposition;
  explanation : string
}.

(** A row of the [insights] table; [causal_factors] is kept as the object
    its JSON text denotes. *)
Record InsightRow : Type := {
  insight_type : string;
  entity_id : Z;
  entity_type : string;
  title : string;
  explanation_text : string;
  causal_factors : Decomposition
}.

(** A row of the grouped query. *)
Record ItemRow : Type := {
  row_item_id : Z;
  qty : num;
  avg_price : num;
  revenue : num
}.

(** [SELECT item_id, SUM(quantity) as qty, AVG(price) as avg_price,
            SUM(quantity * price) as revenue
     FROM transactions
     WHERE restaurant_id = ? AND DATE(timestamp) BETWEEN ? AND ?
     GROUP BY item_id]. *)
Definition currentQuery (txs : list Transaction) (restaurantId lo hi : Z)
  : list ItemRow :=
  let selected :=
    List.filter (fun r => (restaurant_id r =? restaurantId)%Z
                     && date_between (timestamp r) lo hi) txs in
  map (fun k =>
         let group := List.filter (fun r => (item_id r =? k)%Z) selected in
         {| row_item_id := k;
            qty := of_Z (fold_left Z.add (map quantity group) 0%Z);
            avg_price :=
              Fin (sumQ (map price group)
                   / inject_Z (Z.of_nat (length group)));
            revenue :=
              Fin (sumQ (map (fun r => inject_Z (quantity r) * price r)%Q
                           group)) |})
      (group_keys (map item_id selected)).

Definition generateExplanation (volume price mix total : num) : string :=
  if (total =? n0)%num then "No significant revenue change detected."
  else
    let threshold := (num_abs total * Fin (3 # 10))%num in
    let factors :=
      (if (num_abs volume >? threshold)%num
       then ["customer demand " +:+
             (if (volume >? n0)%num then "increased" else "decreased")]
       else [])
      ++ (if (num_abs price >? threshold)%num
          then ["prices were " +:+
                (if (price >? n0)%num then "raised" else "lowered")]
          else [])
      ++ (if (num_abs mix >? threshold)%num
          then ["product mix changed"] else []) in
    match factors with
    | [] =>
        "Revenue change was due to minor fluctuations across multiple factors."
    | _ =>
        let changeDirection :=
          if (total >? n0)%num then "increased" else "decreased" in
        "Revenue " +:+ changeDirection +:+ " primarily because "
        +:+ join " and " factors +:+ "."
    end.

Definition storeInsight (insights : list InsightRow) (i : InsightRow)
  : list InsightRow := insights ++ [i].

(** The decomposition, as computed from the two grouped result sets. *)
Definition decompose (currentData comparisonData : list ItemRow)
  : RevenueDecomposition :=
  let currentMap :=
    Map_of Z.eqb (map (fun item => (row_item_id item, item)) currentData) in
  let comparisonMap :=
    Map_of Z.eqb
      (map (fun item => (row_item_id item, item)) comparisonData) in
  let totalCurrentRev := sum_by revenue currentData in
  let totalComparisonRev := sum_by revenue comparisonData in
  let revenueChange := (totalCurrentRev - totalComparisonRev)%num in
  let volumeEffect :=
    fold_left
      (fun volumeEffect entry =>
         let comp := snd entry in
         let current := Map_get Z.eqb currentMap (fst entry) in
         let qtyChange := (prop_or0 (option_map qty current) - qty comp)%num in
         (volumeEffect + qtyChange * avg_price comp)%num)
      comparisonMap n0 in
  let priceEffect :=
    fold_left
      (fun priceEffect entry =>
         let current := snd entry in
         match Map_get Z.eqb comparisonMap (fst entry) with
         | Some comp =>
             let priceChange := (avg_price current - avg_price comp)%num in
             (priceEffect + priceChange * qty current)%num
         | None => priceEffect
         end)
      currentMap n0 in
  let mixEffect := (revenueChange - volumeEffect - priceEffect)%num in
  let pct (effect : num) : num :=
    if (revenueChange !=? n0)%num
    then ((effect / num_abs revenueChange) * n100)%num else n0 in
  {| revenueChange := revenueChange;
     revenueChangePct :=
       if (totalComparisonRev >? n0)%num
       then ((revenueChange / totalComparisonRev) * n100)%num else n0;
     decomposition :=
       {| volumeEffect := volumeEffect;
          volumeEffectPct := pct volumeEffect;
          priceEffect := priceEffect;
          priceEffectPct := pct priceEffect;
          mixEffect := mixEffect;
          mixEffectPct := pct mixEffect |};
     explanation :=
       generateExplanation volumeEffect priceEffect mixEffect
         revenueChange |}.

(** [analyzeRevenueChange]: the value returned and the [insights] table
    after the call. *)
Definition analyzeRevenueChange (today : Z) (txs : list Transaction)
    (insights : list InsightRow)
    (restaurantId currentPeriodDays comparisonPeriodDays : Z)
  : RevenueDecomposition * list InsightRow :=
  let currentStart := subDays today currentPeriodDays in
  let comparisonStart := subDays currentStart comparisonPeriodDays in
  let comparisonEnd := currentStart in
  let currentData :=
    currentQuery txs restaurantId (isoDate currentStart) (isoDate today) in
  let comparisonData :=
    currentQuery txs restaurantId (isoDate comparisonStart)
      (isoDate comparisonEnd) in
  let decomposition := decompose currentData comparisonData in
  (decomposition,
   storeInsight insights
     {| insight_type := "revenue_decomposition";
        entity_id := restaurantId;
        entity_type := "restaurant";
        title := "Revenue Change Analysis";
        explanation_text := explanation decomposition;
        causal_factors := InsightEngine.decomposition decomposition |}).

(** A row of the daily query of [calculatePriceElasticity]. *)
Record PriceRow : Type := {
  price_date : Z;
  day_avg_price : num;
  total_qty : num
}.

(** [SELECT DATE(timestamp) as sale_date, AVG(price) as avg_price,
            SUM(quantity) as total_qty
     FROM transactions WHERE item_id = ? AND restaurant_id = ?
     GROUP BY DATE(timestamp) ORDER BY sale_date]. *)
Definition priceQuery (txs : list Transaction) (itemId restaurantId : Z)
  : list PriceRow :=
  let selected :=
    List.filter (fun r => (item_id r =? itemId)%Z
                          && (restaurant_id r =? restaurantId)%Z) txs in
  map (fun d =>
         let group :=
           List.filter (fun r => (isoDate (timestamp r) =? d)%Z) selected in
         {| price_date := d;
            day_avg_price :=
              Fin (sumQ (map price group)
                   / inject_Z (Z.of_nat (length group)));
            total_qty := of_Z (fold_left Z.add (map quantity group) 0%Z) |})
      (group_keys (map (fun r => isoDate (timestamp r)) selected)).

(** The loop over consecutive days: the pairs of relative changes of price
    and quantity pushed on [priceChanges] and [qtyChanges]. *)
Fixpoint changes_loop (prev : PriceRow) (rest : list PriceRow)
  : list (num * num) :=
  match rest with
  | [] => []
  | curr :: rest' =>
      (if (day_avg_price prev >? n0)%num && (total_qty prev >? n0)%num then
         let pricePctChange :=
           ((day_avg_price curr - day_avg_price prev)
            / day_avg_price prev)%num in
         let qtyPctChange :=
           ((total_qty curr - total_qty prev) / total_qty prev)%num in
         if (num_abs pricePctChange >? Fin (1 # 100))%num
         then [(pricePctChange, qtyPctChange)] else []
       else [])
      ++ changes_loop curr rest'
  end.

(** The part of [calculatePriceElasticity] after the query. *)
Definition elasticityOf (data : list PriceRow) : option num :=
  if (length data <? 10)%nat then None
  else
    let changes :=
      match data with
      | [] => []
      | first :: rest => changes_loop first rest
      end in
    if (length changes =? 0)%nat then None
    else
      let elasticities :=
        List.filter (fun e => (e !=? n0)%num)
          (map (fun pq =>
                  if (fst pq !=? n0)%num then (snd pq / fst pq)%num else n0)
             changes) in
      if (0 <? length elasticities)%nat
      then Some (fold_left (fun sum e => (sum + e)%num) elasticities n0
                 / of_nat (length elasticities))%num
      else None.

Definition calculatePriceElasticity (txs : list Transaction)
    (itemId restaurantId : Z) : option num :=
  elasticityOf (priceQuery txs itemId restaurantId).

End InsightEngine.

(** ** The revenue decomposition in binary64

    The arithmetic of [InsightEngine.analyzeRevenueChange] after its two
    queries, over the binary64 numbers of the kernel: the same statements
    as [InsightEngine.decompose], each operation rounding as JavaScript
    does.  The rows of the grouped query are the input, with [qty],
    [avg_price] and [revenue] as SQLite hands them over. *)

Module Binary64.
Import PrimFloat.

Record Decomposition : Type := {
  volumeEffect : float;
  volumeEffectPct : float;
  priceEffect : float;
  priceEffectPct : float;
  mixEffect : float;
  mixEffectPct : float
}.

Record RevenueDecomposition : Type := {
  revenueChange : float;
  revenueChangePct : float;
  decomposition : Decomposition;
  explanation : string
}.

Record ItemRow : Type := {
  row_item_id : Z;
  qty : float;
  avg_price : float;
  revenue : float
}.

(** [x > y], [x === y] and [x !== y]; every comparison with [NaN] is
    false, so [NaN !== y] is true. *)
Definition gt (x y : float) : bool := (y <? x)%float.
Definition neqb (x y : float) : bool := negb (x =? y)%float.

(** [v || 0] for a property that may be missing: [0] and [NaN] are falsy. *)
Definition prop_or0 (v : option float) : float :=
  match v with
  | None => 0%float
  | Some x => if (x =? 0)%float || is_nan x then 0%float else x
  end.

(** [xs.reduce((sum, x) => sum + f(x), 0)]. *)
Definition sum_by {A : Type} (f : A -> float) (xs : list A) : float :=
  fold_left (fun sum x => (sum + f x)%float) xs 0%float.

Definition generateExplanation (volume price mix total : float) : string :=
  if (total =? 0)%float then "No significant revenue change detected."
  else
    let threshold := (abs total * 0.3)%float in
    let factors :=
      (if gt (abs volume) threshold
       then ["customer demand " +:+
             (if gt volume 0 then "increased" else "decreased")]
       else [])
      ++ (if gt (abs price) threshold
          then ["prices were " +:+
                (if gt price 0 then "raised" else "lowered")]
          else [])
      ++ (if gt (abs mix) threshold
          then ["product mix changed"] else []) in
    match factors with
    | [] =>
        "Revenue change was due to minor fluctuations across multiple factors."
    | _ =>
        let changeDirection :=
          if gt total 0 then "increased" else "decreased" in
        "Revenue " +:+ changeDirection +:+ " primarily because "
        +:+ join " and " factors +:+ "."
    end.

Definition decompose (currentData comparisonData : list ItemRow)
  : RevenueDecomposition :=
  let currentMap :=
    Map_of Z.eqb (map (fun item => (row_item_id item, item)) currentData) in
  let comparisonMap :=
    Map_of Z.eqb
      (map (fun item => (row_item_id item, item)) comparisonData) in
  let totalCurrentRev := sum_by revenue currentData in
  let totalComparisonRev := sum_by revenue comparisonData in
  let revenueChange := (totalCurrentRev - totalComparisonRev)%float in
  let volumeEffect :=
    fold_left
      (fun volumeEffect entry =>
         let comp := snd entry in
         let current := Map_get Z.eqb currentMap (fst entry) in
         let qtyChange :=
           (prop_or0 (option_map qty current) - qty comp)%float in
         (volumeEffect + qtyChange * avg_price comp)%float)
      comparisonMap 0%float in
  let priceEffect :=
    fold_left
      (fun priceEffect entry =>
         let current := snd entry in
         match Map_get Z.eqb comparisonMap (fst entry) with
         | Some comp =>
             let priceChange := (avg_price current - avg_price comp)%float in
             (priceEffect + priceChange * qty current)%float
         | None => priceEffect
         end)
      currentMap 0%float in
  let mixEffect := (revenueChange - volumeEffect - priceEffect)%float in
  let pct (effect : float) : float :=
    if neqb revenueChange 0
    then ((effect / abs revenueChange) * 100)%float else 0%float in
  {| revenueChange := revenueChange;
     revenueChangePct :=
       if gt totalComparisonRev 0
       then ((revenueChange / totalComparisonRev) * 100)%float else 0%float;
     decomposition :=
       {| volumeEffect := volumeEffect;
          volumeEffectPct := pct volumeEffect;
          priceEffect := priceEffect;
          priceEffectPct := pct priceEffect;
          mixEffect := mixEffect;
          mixEffectPct := pct mixEffect |};
     explanation :=
       generateExplanation volumeEffect priceEffect mixEffect
         revenueChange |}.



(** Two items that took 1e308 each in the current period, one of them
    sold in the comparison period. *)
Definition comparison_small : list ItemRow :=
  [{| row_item_id := 1; qty := 1; avg_price := 1; revenue := 1 |}].

Definition current_huge : list ItemRow :=
  [{| row_item_id := 1; qty := 1; avg_price := 1e308; revenue := 1e308 |};
   {| row_item_id := 2; qty := 1; avg_price := 1e308; revenue := 1e308 |}].

End Binary64.

(** ** The Prisma data model *)

Module Prisma.

Record MenuItem : Type := {
  id : string;
  name : string;
  category : string;
  costPrice : Q;
  sellingPrice : Q;
  prepTime : option Z
}.

(** An order line; [price] is the price at the time of sale (read as
    [priceAtTime] by the engines and as [price] by the routes). *)
Record OrderItem : Type := {
  menuItemId : string;
  quantity : Z;
  price : Q
}.

Record Order : Type := {
  orderId : string;
  restaurantId : Z;
  timestamp : Z;
  channel : string;
  totalAmount : Q;
  status : string;
  orderItems : list OrderItem
}.

End Prisma.

(** ** Explainable revenue decomposition over the Prisma store
       (the [ExplainableInsightEngine] class) *)

Module ExplainableInsightEngine.
Import Prisma.

Inductive Direction : Type := positive_dir | negative_dir.

Record CausalFactor : Type := {
  factor : string;
  contribution : num;
  contributionPct : num;
  direction : Direction
}.

Record Metadata : Type := {
  currentValue : num;
  previousValue : num;
  absoluteChange : num;
  percentChange : num
}.

Record DecomposedInsight : Type := {
  observation : string;
  explanation : string;
  causalFactors : list CausalFactor;
  formula : string;
  assumptions : list string;
  sampleSize : num;
  confidenceScore : num;
  recommendation : option string;
  metadata : option Metadata
}.

(** A row of the [Insight] model; the JSON texts are kept as the values
    they denote. *)
Record InsightRow : Type := {
  insightRestaurantId : Z;
  insightType : string;
  severity : string;
  rowObservation : string;
  rowExplanation : string;
  rowCausalFactors : list CausalFactor;
  rowFormula : string;
  rowAssumptions : list string;
  rowSampleSize : num;
  rowConfidenceScore : num;
  rowRecommendation : option string;
  expiresAt : Z
}.

Record ItemData : Type := {
  qty : num;
  revenue : num;
  avgPrice : num
}.

(** The inner loop of [aggregateItemData], over the lines of one order. *)
Definition add_item (itemMap : list (string * ItemData)) (item : OrderItem)
  : list (string * ItemData) :=
  let existing :=
    match Map_get String.eqb itemMap (menuItemId item) with
    | Some e => e
    | None => {| qty := n0; revenue := n0; avgPrice := n0 |}
    end in
  Map_set String.eqb itemMap (menuItemId item)
    {| qty := (qty existing + of_Z (quantity item))%num;
       revenue :=
         (revenue existing + of_Z (quantity item) * Fin (price item))%num;
       avgPrice := avgPrice existing |}.

Definition aggregateItemData (orders : list Order)
  : list (string * ItemData) :=
  let itemMap :=
    fold_left (fun m order => fold_left add_item (orderItems order) m)
      orders [] in
  map (fun entry =>
         let data := snd entry in
         (fst entry,
          {| qty := qty data;
             revenue := revenue data;
             avgPrice :=
               if (qty data >? n0)%num
               then (revenue data / qty data)%num else n0 |}))
      itemMap.

Definition direction_of (effect : num) : Direction :=
  if (effect >=? n0)%num then positive_dir else negative_dir.

Definition formula_text (volumeEffect priceEffect mixEffect total : num)
  : string :=
  "ΔRevenue = Volume Effect + Price Effect + Mix Effect" +:+ newline
  +:+ "  = (ΔQuantity × P̄ₒₗₐ) + (Q̄ₙₑw × ΔPrice) + ΔMix" +:+ newline
  +:+ "  = ₹" +:+ toFixed volumeEffect 0 +:+ " + ₹" +:+ toFixed priceEffect 0
  +:+ " + ₹" +:+ toFixed mixEffect 0 +:+ newline
  +:+ "  = ₹" +:+ toFixed total 0.

Record DecompositionResult : Type := {
  factors : list CausalFactor;
  resultFormula : string;
  resultAssumptions : list string
}.

Definition decomposeRevenueChange (currentOrders comparisonOrders : list Order)
    (totalRevenueChange : num) : DecompositionResult :=
  let currentItems := aggregateItemData currentOrders in
  let comparisonItems := aggregateItemData comparisonOrders in
  let allItemIds :=
    Set_of String.eqb (Map_keys currentItems ++ Map_keys comparisonItems) in
  let volumeEffect :=
    fold_left
      (fun volumeEffect itemId =>
         let curr := Map_get String.eqb currentItems itemId in
         match Map_get String.eqb comparisonItems itemId with
         | Some comp =>
             let qtyChange :=
               (prop_or0 (option_map qty curr) - qty comp)%num in
             (volumeEffect + qtyChange * avgPrice comp)%num
         | None => volumeEffect
         end)
      allItemIds n0 in
  let priceEffect :=
    fold_left
      (fun priceEffect itemId =>
         match Map_get String.eqb currentItems itemId,
               Map_get String.eqb comparisonItems itemId with
         | Some curr, Some comp =>
             let priceChange := (avgPrice curr - avgPrice comp)%num in
             (priceEffect + qty curr * priceChange)%num
         | _, _ => priceEffect
         end)
      allItemIds n0 in
  let mixEffect := (totalRevenueChange - volumeEffect - priceEffect)%num in
  let absTotal := num_abs totalRevenueChange in
  let pct (effect : num) : num :=
    if (absTotal >? n0)%num then ((effect / absTotal) * n100)%num else n0 in
  {| factors :=
       [ {| factor := "Volume (Customer Demand)";
            contribution := volumeEffect;
            contributionPct := pct volumeEffect;
            direction := direction_of volumeEffect |};
         {| factor := "Price Changes";
            contribution := priceEffect;
            contributionPct := pct priceEffect;
            direction := direction_of priceEffect |};
         {| factor := "Product Mix Shift";
            contribution := mixEffect;
            contributionPct := pct mixEffect;
            direction := direction_of mixEffect |} ];
     resultFormula :=
       formula_text volumeEffect priceEffect mixEffect totalRevenueChange;
     resultAssumptions :=
       [ "Linear decomposition assumes no interaction between price and quantity effects";
         "Average prices weighted by quantity sold in each period";
         "Analysis based on " +:+ pretty (length currentOrders)
           +:+ " current and " +:+ pretty (length comparisonOrders)
           +:+ " comparison orders";
         "Mix effect includes new items, discontinued items, and cross-effects";
         "Does not account for external factors (seasonality, competition, weather, events)" ] |}.

Definition calculateConfidenceScore
    (totalSamples currentSamples comparisonSamples : num) : num :=
  let sampleConfidence := Math_min n1 (totalSamples / Fin 200)%num in
  let balance :=
    (Math_min currentSamples comparisonSamples
     / Math_max currentSamples comparisonSamples)%num in
  let balancePenalty :=
    if (balance <? Fin (5 # 10))%num then Fin (8 # 10) else Fin 1 in
  Math_min (Fin (85 # 100)) (sampleConfidence * balancePenalty)%num.

(** [factors.sort((a, b) => Math.abs(b.contribution) - Math.abs(a.contribution))],
    as a stable insertion sort. *)
Definition compareFn (a b : CausalFactor) : num :=
  (num_abs (contribution b) - num_abs (contribution a))%num.

Fixpoint insert_factor (x : CausalFactor) (l : list CausalFactor)
  : list CausalFactor :=
  match l with
  | [] => [x]
  | y :: l' =>
      if (compareFn x y <? n0)%num then x :: l else y :: insert_factor x l'
  end.

Definition sort_factors (l : list CausalFactor) : list CausalFactor :=
  fold_left (fun acc x => insert_factor x acc) l [].

(** The two leading factors always exist: the list has three entries. *)
Definition generateRevenueExplanation (causalFactors : list CausalFactor)
    (revenueChangePct currentRevenue comparisonRevenue : num) : string :=
  match causalFactors with
  | primaryFactor :: secondaryFactor :: _ =>
      let overallDirection :=
        if (revenueChangePct >? n0)%num then "increased" else "decreased" in
      let magnitude :=
        if (num_abs revenueChangePct >? Fin 20)%num
        then "significantly" else "moderately" in
      "Revenue " +:+ magnitude +:+ " " +:+ overallDirection +:+ " by "
      +:+ toFixed (num_abs revenueChangePct) 1 +:+ "% "
      +:+ "(from ₹" +:+ toFixed comparisonRevenue 0 +:+ " to ₹"
      +:+ toFixed currentRevenue 0 +:+ "). "
      +:+ "This change was primarily driven by "
      +:+ toLowerCase (factor primaryFactor) +:+ ", "
      +:+ "which contributed "
      +:+ (match direction primaryFactor with
           | positive_dir => "+" | negative_dir => "" end)
      +:+ "₹" +:+ toFixed (num_abs (contribution primaryFactor)) 0 +:+ " "
      +:+ "(" +:+ toFixed (num_abs (contributionPct primaryFactor)) 1
      +:+ "% of the change). "
      +:+ (if (num_abs (contributionPct secondaryFactor) >? Fin 25)%num
           then factor secondaryFactor +:+ " was a secondary contributor."
           else "")
  | _ => ""
  end.

Definition generateRecommendation (causalFactors : list CausalFactor)
    (revenueChangePct : num) : option string :=
  let isDecline := (revenueChangePct <? n0)%num in
  let isSignificant := (num_abs revenueChangePct >? Fin 5)%num in
  if negb isSignificant
  then Some "Revenue is stable. Continue monitoring trends."
  else
    match causalFactors with
    | primary :: _ =>
        let primaryFactor := factor primary in
        if isDecline then
          if includes primaryFactor "Volume" then
            Some "Customer traffic has declined. Consider running targeted promotions to drive footfall."
          else if includes primaryFactor "Price" then
            Some "Recent price increases may have negatively impacted demand. Consider testing smaller price increments."
          else None
        else None
    | [] => None
    end.

Definition storeInsight (now : Z) (insights : list InsightRow)
    (restaurantId : Z) (insight : DecomposedInsight) : list InsightRow :=
  let changeMagnitude :=
    num_abs (prop_or0 (option_map percentChange (metadata insight))) in
  let severity :=
    if (changeMagnitude >? Fin 20)%num then "critical"
    else if (changeMagnitude >? Fin 10)%num then "warning"
    else "info" in
  let expiresAt := subDays now (-7) in
  insights ++
    [{| insightRestaurantId := restaurantId;
        insightType := "revenue_decomposition";
        ExplainableInsightEngine.severity := severity;
        rowObservation := observation insight;
        rowExplanation := explanation insight;
        rowCausalFactors := causalFactors insight;
        rowFormula := formula insight;
        rowAssumptions := assumptions insight;
        rowSampleSize := sampleSize insight;
        rowConfidenceScore := confidenceScore insight;
        rowRecommendation := recommendation insight;
        ExplainableInsightEngine.expiresAt := expiresAt |}].

(** [analyzeRevenueChange]: the insight returned ([None] is [null]) and
    the [Insight] rows after the call. *)
Definition analyzeRevenueChange (today : Z) (orders : list Order)
    (insights : list InsightRow) (restaurantId currentPeriodDays : Z)
  : option DecomposedInsight * list InsightRow :=
  let currentStart := subDays today currentPeriodDays in
  let comparisonStart := subDays currentStart currentPeriodDays in
  let currentOrders :=
    List.filter (fun o => (Prisma.restaurantId o =? restaurantId)%Z
                     && (currentStart <=? timestamp o)%Z
                     && (timestamp o <=? today)%Z) orders in
  let comparisonOrders :=
    List.filter (fun o => (Prisma.restaurantId o =? restaurantId)%Z
                     && (comparisonStart <=? timestamp o)%Z
                     && (timestamp o <? currentStart)%Z) orders in
  if (length currentOrders =? 0)%nat || (length comparisonOrders =? 0)%nat
  then (None, insights)
  else
    let currentRevenue := sum_by (fun o => Fin (totalAmount o)) currentOrders in
    let comparisonRevenue :=
      sum_by (fun o => Fin (totalAmount o)) comparisonOrders in
    let revenueChange := (currentRevenue - comparisonRevenue)%num in
    let revenueChangePct :=
      if (comparisonRevenue !=? n0)%num
      then ((revenueChange / comparisonRevenue) * n100)%num else n0 in
    let decomposition :=
      decomposeRevenueChange currentOrders comparisonOrders revenueChange in
    let causalFactors := sort_factors (factors decomposition) in
    let explanation :=
      generateRevenueExplanation causalFactors revenueChangePct
        currentRevenue comparisonRevenue in
    let sampleSize :=
      (of_nat (length currentOrders) + of_nat (length comparisonOrders))%num in
    let confidenceScore :=
      calculateConfidenceScore sampleSize (of_nat (length currentOrders))
        (of_nat (length comparisonOrders)) in
    let recommendation :=
      generateRecommendation causalFactors revenueChangePct in
    let insight :=
      {| observation :=
           "Revenue "
           +:+ (if (revenueChangePct >? n0)%num
                then "increased" else "decreased")
           +:+ " by " +:+ toFixed (num_abs revenueChangePct) 1 +:+ "% (₹"
           +:+ toFixed (num_abs revenueChange) 0
           +:+ ") compared to the previous " +:+ pretty currentPeriodDays
           +:+ " days.";
         ExplainableInsightEngine.explanation := explanation;
         ExplainableInsightEngine.causalFactors := causalFactors;
         formula := resultFormula decomposition;
         assumptions := resultAssumptions decomposition;
         ExplainableInsightEngine.sampleSize := sampleSize;
         ExplainableInsightEngine.confidenceScore := confidenceScore;
         ExplainableInsightEngine.recommendation := recommendation;
         metadata :=
           Some {| currentValue := currentRevenue;
                   previousValue := comparisonRevenue;
                   absoluteChange := revenueChange;
                   percentChange := revenueChangePct |} |} in
    (Some insight, storeInsight today insights restaurantId insight).

End ExplainableInsightEngine.

(** ** The decisions route (GET of the [Decision] list) *)

Module DecisionsRoute.
Import Prisma.

Inductive Action : Type := Promote | Reprice | Remove | Optimize | Redesign.
Inductive Category : Type := Menu | Channel | Operations | Capacity.
Inductive Priority : Type := high | medium | low.
Inductive Status : Type := pending | implementing | completed | dismissed.

Record Impact : Type := {
  min : num;
  max : num;
  confidence : num
}.

(** The [Decision] interface of lib/types.ts.  The free-text fields
    [reason] and [recommendation] and the creation time are left out: they
    only render the numbers computed here. *)
Record Decision : Type := {
  decisionId : string;
  action : Action;
  item : string;
  category : Category;
  priority : Priority;
  impact : Impact;
  risks : list string;
  status : Status
}.

Record MenuEntry : Type := {
  entryId : string;
  entryName : string;
  popularity : num;
  margin : num;
  revenue : num;
  orders : num;
  entryPrice : num;
  cost : num;
  entryPrepTime : num
}.

Record ChannelEntry : Type := {
  channelName : string;
  totalOrders : num;
  totalRevenue : num;
  netMargin : num;
  netMarginPercent : num
}.

Record CapacityEntry : Type := {
  hour : Z;
  hourOrders : num;
  hourRevenue : num
}.

(** [item.orderItems] with [include: { order: true }]: the lines of the
    menu item, each with its order. *)
Definition orderItemsOf (orders : list Order) (itemId : string)
  : list (OrderItem * Order) :=
  flat_map
    (fun o =>
       map (fun oi => (oi, o))
         (List.filter (fun oi => String.eqb (menuItemId oi) itemId)
            (orderItems o)))
    orders.

Definition completedOrderItems (orders : list Order) (m : MenuItem)
  : list (OrderItem * Order) :=
  List.filter (fun oio => String.eqb (Prisma.status (snd oio)) "COMPLETED")
    (orderItemsOf orders (id m)).

Definition getMenuEngineering (menuItems : list MenuItem)
    (allOrders : list Order) : list MenuEntry :=
  let quantityOf (m : MenuItem) : num :=
    sum_by (fun oio => of_Z (quantity (fst oio)))
      (completedOrderItems allOrders m) in
  let totalOrders :=
    fold_left (fun sum m => (sum + quantityOf m)%num) menuItems n0 in
  let avgOrdersPerItem :=
    (totalOrders / num_or (of_nat (length menuItems)) n1)%num in
  map (fun m =>
         let orders := quantityOf m in
         let popularity :=
           if (avgOrdersPerItem >? n0)%num
           then Math_min n100 ((orders / avgOrdersPerItem) * Fin 50)%num
           else n0 in
         let margin := (Fin (sellingPrice m) - Fin (costPrice m))%num in
         let revenue :=
           sum_by (fun oio =>
                     (Fin (price (fst oio)) * of_Z (quantity (fst oio)))%num)
             (completedOrderItems allOrders m) in
         {| entryId := id m;
            entryName := name m;
            popularity := popularity;
            margin := margin;
            revenue := revenue;
            orders := orders;
            entryPrice := Fin (sellingPrice m);
            cost := Fin (costPrice m);
            entryPrepTime :=
              match prepTime m with
              | Some t => num_or (of_Z t) (Fin 10)
              | None => Fin 10
              end |})
      menuItems.

Record ChannelData : Type := {
  channelOrders : list Order;
  channelRevenue : num;
  grossMargin : num
}.

(** [item.menuItem.costPrice]; the foreign key makes the menu item exist. *)
Definition costPriceOf (menuItems : list MenuItem) (oi : OrderItem) : num :=
  match find (fun m => String.eqb (id m) (menuItemId oi)) menuItems with
  | Some m => Fin (costPrice m)
  | None => n0
  end.

Definition is_aggregator (channel : string) : bool :=
  includes channel "zomato"
  || includes channel "swiggy".

Definition getChannelMetrics (menuItems : list MenuItem)
    (allOrders : list Order) : list ChannelEntry :=
  let orders :=
    List.filter (fun o => String.eqb (Prisma.status o) "COMPLETED") allOrders in
  let channelMap :=
    fold_left
      (fun channelMap order =>
         let data :=
           match Map_get String.eqb channelMap (channel order) with
           | Some d => d
           | None =>
               {| channelOrders := []; channelRevenue := n0;
                  grossMargin := n0 |}
           end in
         Map_set String.eqb channelMap (channel order)
           {| channelOrders := channelOrders data ++ [order];
              channelRevenue :=
                (channelRevenue data + Fin (totalAmount order))%num;
              grossMargin :=
                (grossMargin data
                 + fold_left
                     (fun sum item =>
                        (sum + (Fin (price item) * of_Z (quantity item)
                                - costPriceOf menuItems item
                                  * of_Z (quantity item)))%num)
                     (orderItems order) n0)%num |})
      orders [] in
  map (fun entry =>
         let channel := fst entry in
         let data := snd entry in
         let platformFeePercent :=
           if is_aggregator channel then Fin (25 # 100)
           else if String.eqb channel "booking" then Fin (5 # 100)
           else n0 in
         let platformFees := (channelRevenue data * platformFeePercent)%num in
         let netMargin := (grossMargin data - platformFees)%num in
         {| channelName := channel;
            totalOrders := of_nat (length (channelOrders data));
            totalRevenue := channelRevenue data;
            netMargin := netMargin;
            netMarginPercent :=
              if (channelRevenue data >? n0)%num
              then ((netMargin / channelRevenue data) * n100)%num
              else n0 |})
      channelMap.

Definition getCapacityMetrics (allOrders : list Order) : list CapacityEntry :=
  let orders :=
    List.filter (fun o => String.eqb (Prisma.status o) "COMPLETED") allOrders in
  let hourMap :=
    fold_left
      (fun hourMap order =>
         let hour := getHours (timestamp order) in
         let existing :=
           match Map_get Z.eqb hourMap hour with
           | Some l => l
           | None => []
           end in
         Map_set Z.eqb hourMap hour (existing ++ [order]))
      orders [] in
  map (fun entry =>
         {| hour := fst entry;
            hourOrders := of_nat (length (snd entry));
            hourRevenue :=
              sum_by (fun o => Fin (totalAmount o)) (snd entry) |})
      hourMap.

Definition range (impact lo hi conf : num) : Impact :=
  {| min := Math_round (impact * lo)%num;
     max := Math_round (impact * hi)%num;
     confidence := conf |}.

(** The decisions pushed for one menu entry, in the order of the three
    tests of the loop body. *)
Definition menuDecisions (item : MenuEntry) : list Decision :=
  (if (popularity item <? Fin 50)%num && (margin item >=? Fin 680)%num then
     let projectedIncrease := (orders item * Fin (45 # 100))%num in
     let impact := (projectedIncrease * margin item)%num in
     [{| decisionId := "DEC-MENU-" +:+ entryId item;
         action := Promote;
         item := entryName item;
         category := Menu;
         priority := if (margin item >? Fin 1000)%num then high else medium;
         impact := range impact (Fin (7 # 10)) (Fin (12 # 10)) (Fin 75);
         risks := ["May cannibalize similar items by 8-12%"];
         status := pending |}]
   else [])
  ++
  (if (popularity item >=? Fin 50)%num && (margin item <? Fin 680)%num
      && (margin item >? n0)%num then
     let priceIncrease := Math_round (entryPrice item * Fin (15 # 100))%num in
     let volumeLoss := Fin (25 # 100) in
     let newOrders := (orders item * (n1 - volumeLoss))%num in
     let newMargin := ((entryPrice item + priceIncrease) - cost item)%num in
     let impact :=
       ((newOrders * newMargin) - (orders item * margin item))%num in
     [{| decisionId := "DEC-PRICE-" +:+ entryId item;
         action := Reprice;
         item := entryName item;
         category := Menu;
         priority := if (orders item >? Fin 200)%num then high else medium;
         impact := range impact (Fin (8 # 10)) (Fin (11 # 10)) (Fin 70);
         risks := ["Could reduce orders by 25-30%";
                   "Competition pricing may be lower"];
         status := pending |}]
   else [])
  ++
  (if (popularity item <? Fin 50)%num && (margin item <? Fin 680)%num
      && (entryPrepTime item >? Fin 15)%num then
     let opportunityCost :=
       (entryPrepTime item * orders item * Fin (23 # 10))%num in
     let impact := (opportunityCost - (orders item * margin item))%num in
     if (impact >? n0)%num then
       [{| decisionId := "DEC-REMOVE-" +:+ entryId item;
           action := Remove;
           item := entryName item;
           category := Menu;
           priority := medium;
           impact := range impact (Fin (6 # 10)) (Fin (14 # 10)) (Fin 65);
           risks := ["May disappoint regular customers"];
           status := pending |}]
     else []
   else []).

Definition channelDecisions (channelData : list ChannelEntry)
  : list Decision :=
  let directChannel :=
    find (fun c => String.eqb (channelName c) "delivery-direct")
      channelData in
  let aggregatorChannels :=
    List.filter (fun c => is_aggregator (channelName c)) channelData in
  match directChannel with
  | Some directChannel =>
      if (0 <? length aggregatorChannels)%nat then
        let aggregatorTotal := sum_by totalRevenue aggregatorChannels in
        let aggregatorMargin := sum_by netMargin aggregatorChannels in
        let directMargin := netMargin directChannel in
        if (directMargin
            >? aggregatorMargin / of_nat (length aggregatorChannels))%num
        then
          let currentSplit :=
            (aggregatorTotal
             / (aggregatorTotal + totalRevenue directChannel))%num in
          let targetSplit := Fin (3 # 10) in
          let impact :=
            ((currentSplit - targetSplit) * aggregatorTotal
             * Fin (5 # 10))%num in
          [{| decisionId := "DEC-CHANNEL-001";
              action := Optimize;
              item := "Delivery Channel Mix";
              category := Channel;
              priority := high;
              impact := range impact (Fin (7 # 10)) (Fin (13 # 10)) (Fin 75);
              risks := ["May reduce total order volume by 15%";
                        "Requires marketing spend"];
              status := pending |}]
        else []
      else []
  | None => []
  end.

Definition capacityDecisions (capacityData : list CapacityEntry)
  : list Decision :=
  let peakHours :=
    List.filter (fun c => (18 <=? hour c)%Z && (hour c <=? 21)%Z) capacityData in
  let offPeakHours :=
    List.filter (fun c => (14 <=? hour c)%Z && (hour c <? 18)%Z) capacityData in
  if (0 <? length peakHours)%nat && (0 <? length offPeakHours)%nat then
    let peakRevPASH :=
      (sum_by hourRevenue peakHours
       / (of_nat (length peakHours) * Fin 104))%num in
    let offPeakRevPASH :=
      (sum_by hourRevenue offPeakHours
       / (of_nat (length offPeakHours) * Fin 104))%num in
    if (peakRevPASH >? offPeakRevPASH * Fin 2)%num then
      let improvement :=
        ((peakRevPASH - offPeakRevPASH) * Fin (11 # 100) * Fin 104
         * Fin 3)%num in
      [{| decisionId := "DEC-CAPACITY-001";
          action := Optimize;
          item := "Peak Hour Capacity";
          category := Operations;
          priority := medium;
          impact := range improvement (Fin (8 # 10)) (Fin (12 # 10)) (Fin 65);
          risks := ["May require staffing adjustments"];
          status := pending |}]
    else []
  else [].

(** The handler: the list sent back as [data]. *)
Definition GET (menuItems : list MenuItem) (allOrders : list Order)
  : list Decision :=
  let orderCount := length allOrders in
  if (orderCount =? 0)%nat then []
  else
    let menuData := getMenuEngineering menuItems allOrders in
    let channelData := getChannelMetrics menuItems allOrders in
    let capacityData := getCapacityMetrics allOrders in
    flat_map menuDecisions menuData
    ++ channelDecisions channelData
    ++ capacityDecisions capacityData.

End DecisionsRoute.

(** ** The menu-engineering route
       (GET of the [MenuEngineering] list) *)

Module MenuEngineeringRoute.
Import Prisma.

Inductive EngineeringCategory : Type := Stars | Plowhorses | Puzzles | Dogs.

Record MenuEngineering : Type := {
  entryId : string;
  entryName : string;
  entryCategory : string;
  entryPrice : num;
  cost : num;
  entryPrepTime : num;
  popularity : num;
  orders : num;
  active : bool;
  engineeringCategory : EngineeringCategory;
  margin : num;
  revenue : num;
  cannibalization : num;
  revenuePerMinute : num
}.

(** The quadrant rule: 50 for popularity and 680 for margin. *)
Definition categorize (popularity margin : num) : EngineeringCategory :=
  if (popularity >=? Fin 50)%num && (margin >=? Fin 680)%num then Stars
  else if (popularity >=? Fin 50)%num && (margin <? Fin 680)%num
  then Plowhorses
  else if (popularity <? Fin 50)%num && (margin >=? Fin 680)%num then Puzzles
  else Dogs.

(** [item.orderItems]: every line of the menu item (the [where] of the
    nested [order] include does not drop lines). *)
Definition linesOf (orders : list Order) (itemId : string) : list OrderItem :=
  flat_map
    (fun o => List.filter (fun oi => String.eqb (menuItemId oi) itemId)
                (orderItems o))
    orders.

Definition GET (menuItems : list MenuItem) (allOrders : list Order)
  : list MenuEngineering :=
  let allOrderItems := flat_map orderItems allOrders in
  let totalOrders := sum_by (fun oi => of_Z (quantity oi)) allOrderItems in
  let avgOrdersPerItem :=
    (totalOrders / num_or (of_nat (length menuItems)) n1)%num in
  map (fun m =>
         let itemLines := linesOf allOrders (id m) in
         let itemOrders := sum_by (fun oi => of_Z (quantity oi)) itemLines in
         let revenue :=
           sum_by (fun oi => (Fin (price oi) * of_Z (quantity oi))%num)
             itemLines in
         let margin := (Fin (sellingPrice m) - Fin (costPrice m))%num in
         let popularity :=
           if (avgOrdersPerItem >? n0)%num
           then Math_min n100 ((itemOrders / avgOrdersPerItem) * Fin 50)%num
           else n0 in
         let prepTime := Fin 10 in
         let revenuePerMinute :=
           if (prepTime >? n0)%num then (margin / prepTime)%num else n0 in
         {| entryId := id m;
            entryName := name m;
            entryCategory := category m;
            entryPrice := Fin (sellingPrice m);
            cost := Fin (costPrice m);
            entryPrepTime := prepTime;
            popularity := Math_round popularity;
            orders := itemOrders;
            active := true;
            engineeringCategory := categorize popularity margin;
            margin := margin;
            revenue := revenue;
            cannibalization := n0;
            revenuePerMinute := revenuePerMinute |})
      menuItems.

End MenuEngineeringRoute.

(** ** Baselines over the SQLite store (the [AnalyticsEngine] class) *)

Module AnalyticsEngine.

(** A row of [item_baselines]; [(item_id, baseline_period_end)] is
    UNIQUE. *)
Record BaselineRow : Type := {
  row_id : Z;
  base_item_id : Z;
  base_restaurant_id : Z;
  baseline_period_start : Z;
  baseline_period_end : Z;
  avg_daily_quantity : num;
  avg_daily_revenue : num;
  std_dev_quantity : num;
  price_elasticity : option num;
  computed_at : Z
}.

Record Store : Type := {
  item_baselines : list BaselineRow;
  item_baselines_seq : Z
}.

Record ItemBaseline : Type := {
  itemId : Z;
  restaurantId : Z;
  avgDailyQuantity : num;
  avgDailyRevenue : num;
  stdDevQuantity : num;
  baselinePeriodStart : Z;
  baselinePeriodEnd : Z
}.

Record DailyRow : Type := {
  sale_date : Z;
  daily_qty : num;
  daily_rev : num
}.

Definition mean (numbers : list num) : num :=
  (fold_left (fun sum n => (sum + n)%num) numbers n0
   / of_nat (length numbers))%num.

Definition standardDeviation (sqrt : num -> num) (numbers : list num) : num :=
  let avg := mean numbers in
  let squareDiffs := map (fun n => ((n - avg) * (n - avg))%num) numbers in
  let avgSquareDiff := mean squareDiffs in
  sqrt avgSquareDiff.

(** [SELECT DATE(timestamp) as sale_date, SUM(quantity) as daily_qty,
            SUM(quantity * price) as daily_rev
     FROM transactions
     WHERE item_id = ? AND restaurant_id = ?
       AND DATE(timestamp) BETWEEN ? AND ?
     GROUP BY DATE(timestamp)]. *)
Definition dailyQuery (txs : list Transaction) (itemId restaurantId lo hi : Z)
  : list DailyRow :=
  let selected :=
    List.filter (fun r => (item_id r =? itemId)%Z
                     && (restaurant_id r =? restaurantId)%Z
                     && date_between (timestamp r) lo hi) txs in
  map (fun d =>
         let group :=
           List.filter (fun r => (isoDate (timestamp r) =? d)%Z) selected in
         {| sale_date := d;
            daily_qty := of_Z (fold_left Z.add (map quantity group) 0%Z);
            daily_rev :=
              Fin (sumQ (map (fun r => inject_Z (quantity r) * price r)%Q
                           group)) |})
      (group_keys (map (fun r => isoDate (timestamp r)) selected)).

(** [INSERT OR REPLACE INTO item_baselines]: a row with the same
    [(item_id, baseline_period_end)] is deleted before the insertion. *)
Definition insertOrReplace (st : Store) (now : Z)
    (itemId restaurantId periodStart periodEnd : Z)
    (avgQty avgRev stdQty : num) : Store :=
  let rowid := (item_baselines_seq st + 1)%Z in
  {| item_baselines :=
       List.filter (fun r => negb ((base_item_id r =? itemId)%Z
                              && (baseline_period_end r =? periodEnd)%Z))
         (item_baselines st)
       ++ [{| row_id := rowid;
              base_item_id := itemId;
              base_restaurant_id := restaurantId;
              baseline_period_start := periodStart;
              baseline_period_end := periodEnd;
              avg_daily_quantity := avgQty;
              avg_daily_revenue := avgRev;
              std_dev_quantity := stdQty;
              price_elasticity := None;
              computed_at := now |}];
     item_baselines_seq := rowid |}.

(** [computeItemBaseline]; [sqrt] stands for [Math.sqrt]. *)
Definition computeItemBaseline (sqrt : num -> num) (now : Z)
    (txs : list Transaction) (st : Store)
    (itemId restaurantId lookbackDays : Z) : option ItemBaseline * Store :=
  let endDate := now in
  let startDate := subDays endDate lookbackDays in
  let dailyData :=
    dailyQuery txs itemId restaurantId (isoDate startDate) (isoDate endDate) in
  if (length dailyData <? 7)%nat then (None, st)
  else
    let quantities := map daily_qty dailyData in
    let revenues := map daily_rev dailyData in
    let avgQty := mean quantities in
    let avgRev := mean revenues in
    let stdQty := standardDeviation sqrt quantities in
    (Some {| itemId := itemId;
             restaurantId := restaurantId;
             avgDailyQuantity := avgQty;
             avgDailyRevenue := avgRev;
             stdDevQuantity := stdQty;
             baselinePeriodStart := isoDate startDate;
             baselinePeriodEnd := isoDate endDate |},
     insertOrReplace st now itemId restaurantId (isoDate startDate)
       (isoDate endDate) avgQty avgRev stdQty).

(** A row of [daily_aggregates]; [(date, restaurant_id)] is UNIQUE. *)
Record AggregateRow : Type := {
  agg_id : Z;
  agg_date : Z;
  agg_restaurant_id : Z;
  total_revenue : num;
  total_orders : num;
  avg_order_value : num;
  unique_items_sold : num;
  agg_computed_at : Z
}.

Record AggregateStore : Type := {
  daily_aggregates : list AggregateRow;
  daily_aggregates_seq : Z
}.

Record DailyAggregate : Type := {
  date : Z;
  aggRestaurantId : Z;
  totalRevenue : num;
  totalOrders : num;
  avgOrderValue : num;
  uniqueItemsSold : num
}.

(** [computeDailyAggregates]: one aggregate row of the query, stored with
    INSERT OR REPLACE, or [null] when no transaction matches.  [AVG] is
    the sum over the number of rows, every amount being set. *)
Definition computeDailyAggregates (now : Z) (txs : list Transaction)
    (st : AggregateStore) (restaurantId date : Z)
  : option DailyAggregate * AggregateStore :=
  let rows :=
    List.filter (fun r => (isoDate (timestamp r) =? date)%Z
                          && (restaurant_id r =? restaurantId)%Z) txs in
  let total_orders := of_nat (length rows) in
  if (total_orders =? n0)%num then (None, st)
  else
    let total_revenue := Fin (sumQ (map total_amount rows)) in
    let avg_order_value :=
      Fin (sumQ (map total_amount rows)
           / inject_Z (Z.of_nat (length rows))) in
    let unique_items := of_nat (length (group_keys (map item_id rows))) in
    let rowid := (daily_aggregates_seq st + 1)%Z in
    (Some {| date := date;
             aggRestaurantId := restaurantId;
             totalRevenue := total_revenue;
             totalOrders := total_orders;
             avgOrderValue := avg_order_value;
             uniqueItemsSold := unique_items |},
     {| daily_aggregates :=
          List.filter
            (fun r => negb ((agg_date r =? date)%Z
                            && (agg_restaurant_id r =? restaurantId)%Z))
            (daily_aggregates st)
          ++ [{| agg_id := rowid;
                 agg_date := date;
                 agg_restaurant_id := restaurantId;
                 AnalyticsEngine.total_revenue := total_revenue;
                 AnalyticsEngine.total_orders := total_orders;
                 AnalyticsEngine.avg_order_value := avg_order_value;
                 unique_items_sold := unique_items;
                 agg_computed_at := now |}];
        daily_aggregates_seq := rowid |}).

Inductive Performance : Type := above | below | normal.

Record BaselineComparison : Type := {
  baselineAvg : num;
  currentValue : num;
  deviationSigma : num;
  performance : Performance
}.

(** [ORDER BY computed_at DESC LIMIT 1] over the rows of the item: the row
    computed last (the earliest stored one among equal times). *)
Definition latestBaseline (rows : list BaselineRow) (itemId : Z)
  : option BaselineRow :=
  fold_left
    (fun best r =>
       if (base_item_id r =? itemId)%Z then
         match best with
         | Some b => if (computed_at b <? computed_at r)%Z then Some r else best
         | None => Some r
         end
       else best)
    rows None.

Definition getBaselineComparison (st : Store) (itemId : Z)
    (currentValue : num) : option BaselineComparison :=
  match latestBaseline (item_baselines st) itemId with
  | None => None
  | Some baseline =>
      let avg := avg_daily_quantity baseline in
      let std := std_dev_quantity baseline in
      let deviation :=
        if (std >? n0)%num then ((currentValue - avg) / std)%num else n0 in
      let performance :=
        if (deviation >? Fin (5 # 10))%num then above
        else if (deviation <? Fin (- (5 # 10)))%num then below
        else normal in
      Some {| baselineAvg := avg;
              AnalyticsEngine.currentValue := currentValue;
              deviationSigma := deviation;
              AnalyticsEngine.performance := performance |}
  end.

End AnalyticsEngine.

(** ** Baselines over the Prisma store (the [ComputationEngine] class) *)

Module ComputationEngine.
Import Prisma.

(** A row of the [ItemBaseline] model. *)
Record ItemBaseline : Type := {
  menuItemId : string;
  periodStart : Z;
  periodEnd : Z;
  avgDailyQuantity : num;
  stdDevQuantity : num;
  avgDailyRevenue : num;
  stdDevRevenue : num;
  priceElasticity : option num;
  seasonalityIndex : num;
  sampleSize : num;
  confidenceScore : num;
  version : Z
}.

Record DailyRow : Type := {
  sale_date : Z;
  daily_qty : num;
  daily_rev : num;
  avg_price : num
}.

Record CleanRow : Type := {
  qty : num;
  rev : num;
  price : num
}.

Definition mean (arr : list num) : num :=
  if (0 <? length arr)%nat
  then (fold_left (fun a b => (a + b)%num) arr n0 / of_nat (length arr))%num
  else n0.

Definition stdDev (sqrt : num -> num) (arr : list num) : num :=
  if (length arr <? 2)%nat then n0
  else
    let avg := mean arr in
    let sumSqDiff :=
      fold_left (fun sum val => (sum + (val - avg) * (val - avg))%num)
        arr n0 in
    sqrt (sumSqDiff / of_nat (length arr))%num.

(** One step of the loop of [estimatePriceElasticity] on the pair
    [(data[i-1], data[i])]. *)
Definition elasticity_step (acc : num * nat) (prev curr : CleanRow)
  : num * nat :=
  if (price prev =? n0)%num || (qty prev =? n0)%num then acc
  else
    let pctChangePrice := ((price curr - price prev) / price prev)%num in
    let pctChangeQty := ((qty curr - qty prev) / qty prev)%num in
    if (num_abs pctChangePrice >? Fin (2 # 100))%num then
      let e := (pctChangeQty / pctChangePrice)%num in
      if (e >? Fin (-10))%num && (e <? Fin 10)%num
      then ((fst acc + e)%num, S (snd acc))
      else acc
    else acc.

Fixpoint elasticity_loop (acc : num * nat) (prev : CleanRow)
    (rest : list CleanRow) : num * nat :=
  match rest with
  | [] => acc
  | curr :: rest' => elasticity_loop (elasticity_step acc prev curr) curr rest'
  end.

Definition estimatePriceElasticity (data : list CleanRow) : option num :=
  let '(sumElasticity, count) :=
    match data with
    | [] => (n0, O)
    | first :: rest => elasticity_loop (n0, O) first rest
    end in
  if (0 <? count)%nat then Some (sumElasticity / of_nat count)%num else None.

Definition estimateSeasonality (data : list CleanRow) : num := Fin 1.

(** The raw query: the lines of the menu item in orders from [startDate]
    on, grouped by day, in increasing order of the day. *)
Definition dailyQuery (orders : list Order) (menuItemId : string)
    (startDate : Z) : list DailyRow :=
  let lines :=
    flat_map
      (fun o =>
         if (startDate <=? timestamp o)%Z then
           map (fun oi => (isoDate (timestamp o), oi))
             (List.filter (fun oi => String.eqb (Prisma.menuItemId oi) menuItemId)
                (orderItems o))
         else [])
      orders in
  map (fun d =>
         let group :=
           map snd (List.filter (fun l => (fst l =? d)%Z) lines) in
         {| sale_date := d;
            daily_qty := of_Z (fold_left Z.add (map quantity group) 0%Z);
            daily_rev :=
              Fin (sumQ (map (fun oi =>
                                (inject_Z (quantity oi) * Prisma.price oi)%Q)
                           group));
            avg_price :=
              Fin (sumQ (map Prisma.price group)
                   / inject_Z (Z.of_nat (length group))) |})
      (group_keys (map fst lines)).

(** [findFirst({ where: { menuItemId, periodEnd }, orderBy: { version: 'desc' } })]. *)
Definition findFirst (rows : list ItemBaseline) (itemId : string)
    (periodEnd : Z) : option ItemBaseline :=
  fold_left
    (fun best r =>
       if String.eqb (menuItemId r) itemId
          && (ComputationEngine.periodEnd r =? periodEnd)%Z then
         match best with
         | Some b => if (version b <? version r)%Z then Some r else best
         | None => Some r
         end
       else best)
    rows None.

(** [(existing?.version || 0) + 1]. *)
Definition nextVersion (existing : option ItemBaseline) : Z :=
  (match existing with
   | Some e => if (version e =? 0)%Z then 0 else version e
   | None => 0
   end + 1)%Z.

(** [computeItemBaseline]: the [ItemBaseline] rows after the call;
    [sqrt] stands for [Math.sqrt]. *)
Definition computeItemBaseline (sqrt : num -> num) (now : Z)
    (orders : list Order) (baselines : list ItemBaseline)
    (menuItemId : string) (lookbackDays : Z) : list ItemBaseline :=
  let endDate := now in
  let startDate := subDays endDate lookbackDays in
  let dailyData := dailyQuery orders menuItemId startDate in
  if (length dailyData <? 5)%nat then baselines
  else
    let cleanData :=
      map (fun d => {| qty := daily_qty d; rev := daily_rev d;
                       price := avg_price d |}) dailyData in
    let quantities := map qty cleanData in
    let revenues := map rev cleanData in
    let avgQty := mean quantities in
    let stdQty := stdDev sqrt quantities in
    let avgRev := mean revenues in
    let stdRev := stdDev sqrt revenues in
    let elasticity := estimatePriceElasticity cleanData in
    let seasonality := estimateSeasonality cleanData in
    let cv := if (avgQty >? n0)%num then (stdQty / avgQty)%num else n1 in
    let confidence :=
      Math_max n0
        ((n1 - cv)
         * Math_min n1 (of_nat (length cleanData) / Fin 30))%num in
    let existing := findFirst baselines menuItemId endDate in
    let version := nextVersion existing in
    baselines ++
      [{| ComputationEngine.menuItemId := menuItemId;
          periodStart := startDate;
          periodEnd := endDate;
          avgDailyQuantity := avgQty;
          stdDevQuantity := stdQty;
          avgDailyRevenue := avgRev;
          stdDevRevenue := stdRev;
          priceElasticity := elasticity;
          seasonalityIndex := seasonality;
          sampleSize := of_nat (length cleanData);
          confidenceScore := confidence;
          ComputationEngine.version := version |}].

(** A row of the [TimeAggregate] model. *)
Record TimeAggregate : Type := {
  aggRestaurantId : Z;
  periodType : string;
  aggPeriodStart : Z;
  aggPeriodEnd : Z;
  totalRevenue : num;
  totalOrders : num;
  avgOrderValue : num;
  totalItems : num;
  uniqueItems : num;
  hourOfDay : option Z;
  dayOfWeek : option Z;
  aggVersion : Z
}.

(** [findFirst({ where: { restaurantId, periodType, periodStart },
                 orderBy: { version: 'desc' } })]. *)
Definition findFirstAggregate (rows : list TimeAggregate) (restaurantId : Z)
    (type : string) (periodStart : Z) : option TimeAggregate :=
  fold_left
    (fun best r =>
       if (aggRestaurantId r =? restaurantId)%Z
          && String.eqb (periodType r) type
          && (aggPeriodStart r =? periodStart)%Z then
         match best with
         | Some b => if (aggVersion b <? aggVersion r)%Z then Some r else best
         | None => Some r
         end
       else best)
    rows None.

(** [computeDailyAggregate]: the [TimeAggregate] rows after the call. *)
Definition computeDailyAggregate (allOrders : list Order)
    (aggregates : list TimeAggregate) (restaurantId date : Z)
  : list TimeAggregate :=
  let periodStart := startOfDay date in
  let periodEnd := endOfDay date in
  let orders :=
    List.filter (fun o => (Prisma.restaurantId o =? restaurantId)%Z
                          && (periodStart <=? timestamp o)%Z
                          && (timestamp o <=? periodEnd)%Z) allOrders in
  if (length orders =? 0)%nat then aggregates
  else
    let totalRevenue := sum_by (fun o => Fin (totalAmount o)) orders in
    let totalOrders := of_nat (length orders) in
    let avgOrderValue :=
      if (totalOrders >? n0)%num then (totalRevenue / totalOrders)%num
      else n0 in
    let totalItems :=
      sum_by (fun o => of_nat (length (orderItems o))) orders in
    let uniqueItemIds :=
      fold_left
        (fun ids o =>
           fold_left (fun ids i => Set_add String.eqb ids (Prisma.menuItemId i))
             (orderItems o) ids)
        orders [] in
    let uniqueItems := of_nat (length uniqueItemIds) in
    let existing :=
      findFirstAggregate aggregates restaurantId "day" periodStart in
    let version :=
      (match existing with
       | Some e => if (aggVersion e =? 0)%Z then 0 else aggVersion e
       | None => 0
       end + 1)%Z in
    aggregates ++
      [{| aggRestaurantId := restaurantId;
          periodType := "day";
          aggPeriodStart := periodStart;
          aggPeriodEnd := periodEnd;
          ComputationEngine.totalRevenue := totalRevenue;
          ComputationEngine.totalOrders := totalOrders;
          ComputationEngine.avgOrderValue := avgOrderValue;
          ComputationEngine.totalItems := totalItems;
          ComputationEngine.uniqueItems := uniqueItems;
          hourOfDay := None;
          dayOfWeek := Some (getDay date);
          aggVersion := version |}].

End ComputationEngine.

(** ** The transitions the specification calls legal

    The legal transitions of the decision state machine, as the
    specification lists them, over the status type of the tracker (which
    has no ['dismissed'] value). *)
Definition spec_legal_transition (from to : DecisionTracker.Status) : bool :=
  match from, to with
  | DecisionTracker.pending, DecisionTracker.accepted
  | DecisionTracker.pending, DecisionTracker.rejected
  | DecisionTracker.pending, DecisionTracker.implemented
  | DecisionTracker.accepted, DecisionTracker.implemented => true
  | _, _ => false
  end.

(** The status stored for a decision id, if the id exists. *)
Definition stored_status (db : DecisionTracker.Db) (decisionId : Z)
  : option DecisionTracker.Status :=
  option_map DecisionTracker.status
    (find (fun r => (DecisionTracker.id r =? decisionId)%Z)
       (DecisionTracker.decisions db)).

(** ** Finite results

    The numbers a result carries are all finite: none is [NaN] or an
    infinity. *)

Definition item_row_finite (r : InsightEngine.ItemRow) : Prop :=
  finite (InsightEngine.qty r) /\ finite (InsightEngine.avg_price r)
  /\ finite (InsightEngine.revenue r).

Definition decomposition_finite (d : InsightEngine.Decomposition) : Prop :=
  finite (InsightEngine.volumeEffect d)
  /\ finite (InsightEngine.volumeEffectPct d)
  /\ finite (InsightEngine.priceEffect d)
  /\ finite (InsightEngine.priceEffectPct d)
  /\ finite (InsightEngine.mixEffect d)
  /\ finite (InsightEngine.mixEffectPct d).

Definition revenue_decomposition_finite
    (r : InsightEngine.RevenueDecomposition) : Prop :=
  finite (InsightEngine.revenueChange r)
  /\ finite (InsightEngine.revenueChangePct r)
  /\ decomposition_finite (InsightEngine.decomposition r).

Definition item_data_finite (d : ExplainableInsightEngine.ItemData) : Prop :=
  finite (ExplainableInsightEngine.qty d)
  /\ finite (ExplainableInsightEngine.revenue d)
  /\ finite (ExplainableInsightEngine.avgPrice d).

Definition factor_finite (f : ExplainableInsightEngine.CausalFactor) : Prop :=
  finite (ExplainableInsightEngine.contribution f)
  /\ finite (ExplainableInsightEngine.contributionPct f).

Definition metadata_finite (m : ExplainableInsightEngine.Metadata) : Prop :=
  finite (ExplainableInsightEngine.currentValue m)
  /\ finite (ExplainableInsightEngine.previousValue m)
  /\ finite (ExplainableInsightEngine.absoluteChange m)
  /\ finite (ExplainableInsightEngine.percentChange m).

(** ** The two periods of the explainable analysis

    An order of the restaurant falls in the current period when its time is
    between [today - days] and [today], and in the comparison period when
    it is in the [days] days before that. *)

Definition in_current_period (today days rid : Z) (o : Prisma.Order) : Prop :=
  Prisma.restaurantId o = rid
  /\ (subDays today days <= Prisma.timestamp o <= today)%Z.

Definition in_comparison_period (today days rid : Z) (o : Prisma.Order)
  : Prop :=
  Prisma.restaurantId o = rid
  /\ (subDays (subDays today days) days <= Prisma.timestamp o
      < subDays today days)%Z.

(** ** Well-formed tracker stores

    No stored decision has an id above the AUTOINCREMENT counter. *)
Definition ids_bounded (db : DecisionTracker.Db) : Prop :=
  Forall (fun r => (DecisionTracker.id r <= DecisionTracker.decisions_seq db)%Z)
    (DecisionTracker.decisions db).

(** The quantities are small enough for SQLite's [SUM] over an INTEGER
    column, which raises an error when a sum leaves the 64-bit range: the
    absolute quantities together stay below 2^63. *)
Definition quantities_fit_int64 (txs : list Transaction) : Prop :=
  (fold_right (fun r a => Z.abs (quantity r) + a) 0 txs < 2 ^ 63)%Z.

(** An impact object whose numbers are all finite: the objects that
    [JSON.stringify] and [JSON.parse] give back unchanged. *)
Definition impact_finite (m : gmap string num) : Prop :=
  map_Forall (fun _ x => finite x) m.

(** The decision [getPendingDecisions] builds from a row. *)
Definition pending_view (restaurantId : Z) (row : DecisionTracker.DecisionRow)
  : DecisionTracker.Decision :=
  {| DecisionTracker.decisionId := Some (DecisionTracker.id row);
     DecisionTracker.decisionType := DecisionTracker.decision_type row;
     DecisionTracker.entityId := restaurantId;
     DecisionTracker.entityType := "restaurant";
     DecisionTracker.recommendation := DecisionTracker.recommendation_text row;
     DecisionTracker.rationale := DecisionTracker.rationale_text row;
     DecisionTracker.predictedImpact := DecisionTracker.predicted_impact row;
     DecisionTracker.decisionStatus := Some DecisionTracker.pending;
     DecisionTracker.implementedAt := None;
     DecisionTracker.createdAt := Some (DecisionTracker.created_at row) |}.

(** A row is pending for an entity id. *)
Definition is_pending_for (restaurantId : Z)
    (row : DecisionTracker.DecisionRow) : bool :=
  (DecisionTracker.entity_id row =? restaurantId)%Z
  && DecisionTracker.Status_eqb (DecisionTracker.status row)
       DecisionTracker.pending.

(** The order of [getPendingDecisions]: a decision is not older than the
    ones after it. *)
Definition not_older (a b : DecisionTracker.Decision) : Prop :=
  match DecisionTracker.createdAt a, DecisionTracker.createdAt b with
  | Some x, Some y => (y <= x)%Z
  | _, _ => False
  end.

(** The effect of [updateDecisionStatus] on the decision it names. *)
Definition with_status (now : Z) (st : DecisionTracker.Status)
    (d : DecisionTracker.Decision) : DecisionTracker.Decision :=
  {| DecisionTracker.decisionId := DecisionTracker.decisionId d;
     DecisionTracker.decisionType := DecisionTracker.decisionType d;
     DecisionTracker.entityId := DecisionTracker.entityId d;
     DecisionTracker.entityType := DecisionTracker.entityType d;
     DecisionTracker.recommendation := DecisionTracker.recommendation d;
     DecisionTracker.rationale := DecisionTracker.rationale d;
     DecisionTracker.predictedImpact := DecisionTracker.predictedImpact d;
     DecisionTracker.decisionStatus := Some st;
     DecisionTracker.implementedAt :=
       match st with
       | DecisionTracker.implemented => Some now
       | _ => DecisionTracker.implementedAt d
       end;
     DecisionTracker.createdAt := DecisionTracker.createdAt d |}.

(** The shape of a measured impact: the revenue before and after the
    implementation and the percent change, which is the formula of the code
    on the two revenues when the revenue before is above 0 and is 0
    otherwise. *)
Definition measured_impact (m : gmap string num) : Prop :=
  exists b a : num,
    m !! "before_revenue" = Some b
    /\ m !! "after_revenue" = Some a
    /\ m !! "revenue_change_pct"
       = Some (if (b >? n0)%num then (((a - b) / b) * n100)%num else n0).

(** [a] contributes at least as much as [b], in absolute value. *)
Definition contributes_no_less (a b : ExplainableInsightEngine.CausalFactor)
  : Prop :=
  (num_abs (ExplainableInsightEngine.contribution b)
   <=? num_abs (ExplainableInsightEngine.contribution a))%num = true.

(** The order lines of a menu item, in the order of the orders. *)
Definition lines_of (orders : list Prisma.Order) (itemId : string)
  : list Prisma.OrderItem :=
  List.filter (fun l => String.eqb (Prisma.menuItemId l) itemId)
    (flat_map Prisma.orderItems orders).

(** The units sold and the money taken over a list of order lines. *)
Definition quantity_sold (ls : list Prisma.OrderItem) : Q :=
  fold_left (fun a l => (a + inject_Z (Prisma.quantity l))%Q) ls 0%Q.

Definition line_revenue (ls : list Prisma.OrderItem) : Q :=
  fold_left
    (fun a l => (a + inject_Z (Prisma.quantity l) * Prisma.price l)%Q) ls 0%Q.

(** The gross margin of the lines of an order, and the share of the
    revenue a channel's platform keeps. *)
Definition order_margin (menuItems : list Prisma.MenuItem) (o : Prisma.Order)
  : num :=
  fold_left
    (fun sum item =>
       (sum + (Fin (Prisma.price item) * of_Z (Prisma.quantity item)
               - DecisionsRoute.costPriceOf menuItems item
                 * of_Z (Prisma.quantity item)))%num)
    (Prisma.orderItems o) n0.

Definition platform_fee_percent (channel : string) : num :=
  if DecisionsRoute.is_aggregator channel then Fin (25 # 100)
  else if String.eqb channel "booking" then Fin (5 # 100)
  else n0.

(** The UNIQUE constraint of [item_baselines]. *)
Definition baseline_key (r : AnalyticsEngine.BaselineRow) : Z * Z :=
  (AnalyticsEngine.base_item_id r, AnalyticsEngine.baseline_period_end r).

Definition baseline_keys_unique (st : AnalyticsEngine.Store) : Prop :=
  List.NoDup (map baseline_key (AnalyticsEngine.item_baselines st)).

(** Every baseline was computed at [now] or before, for the period that
    ends on the day it was computed. *)
Definition baselines_dated (now : Z) (st : AnalyticsEngine.Store) : Prop :=
  Forall (fun r => (AnalyticsEngine.computed_at r <= now)%Z
                   /\ AnalyticsEngine.baseline_period_end r
                      = isoDate (AnalyticsEngine.computed_at r))
    (AnalyticsEngine.item_baselines st).

(** ** Sample data *)

Module Samples.

Definition day (n : Z) : Z := n * msPerDay.

Definition impact_pct (p : Q) : gmap string num :=
  <["revenue_change_pct" := Fin p]> ∅.

Definition decisionFor (entityType : string) : DecisionTracker.Decision :=
  {| DecisionTracker.decisionId := None;
     DecisionTracker.decisionType := "reprice";
     DecisionTracker.entityId := 1;
     DecisionTracker.entityType := entityType;
     DecisionTracker.recommendation := "Increase price";
     DecisionTracker.rationale := "Low margin";
     DecisionTracker.predictedImpact := impact_pct 10;
     DecisionTracker.decisionStatus := None;
     DecisionTracker.implementedAt := None;
     DecisionTracker.createdAt := None |}.

(** One pending decision on item 1, logged on day 10. *)
Definition db_pending : DecisionTracker.Db :=
  snd (DecisionTracker.logRecommendation (day 10) DecisionTracker.initTables
         (decisionFor "item")).

Definition db_rejected : DecisionTracker.Db :=
  DecisionTracker.updateDecisionStatus (day 11) db_pending 1
    DecisionTracker.rejected.

(** The decision implemented on day 20. *)
Definition db_implemented : DecisionTracker.Db :=
  DecisionTracker.updateDecisionStatus (day 20) db_pending 1
    DecisionTracker.implemented.

(** A channel decision implemented on day 20. *)
Definition db_channel : DecisionTracker.Db :=
  DecisionTracker.updateDecisionStatus (day 20)
    (snd (DecisionTracker.logRecommendation (day 10)
            DecisionTracker.initTables (decisionFor "channel")))
    1 DecisionTracker.implemented.

Definition tx (t : Z) (itemId qty : Z) (p : Q) : Transaction :=
  {| pos_order_id := "P";
     timestamp := t;
     channel := "walk-in";
     menu_item := "Dish";
     category := "main";
     quantity := qty;
     price := p;
     total_amount := inject_Z qty * p;
     restaurant_id := 1;
     item_id := itemId |}.

(** Sales of item 1 before and after day 20. *)
Definition txs_item1 : list Transaction :=
  [ tx (day 15) 1 10 100; tx (day 25) 1 12 100 ].

(** Transactions in the current week only (today is day 100). *)
Definition txs_current_only : list Transaction :=
  [ tx (day 95) 1 2 100 ].

(** Transactions in both weeks. *)
Definition txs_both : list Transaction :=
  [ tx (day 90) 1 50 100; tx (day 95) 1 70 100; tx (day 96) 2 3 40 ].

Definition line (itemId : string) (qty : Z) (p : Q) : Prisma.OrderItem :=
  {| Prisma.menuItemId := itemId; Prisma.quantity := qty; Prisma.price := p |}.

Definition order (oid : string) (t : Z) (chan : string) (total : Q)
    (lines : list Prisma.OrderItem) : Prisma.Order :=
  {| Prisma.orderId := oid;
     Prisma.restaurantId := 1;
     Prisma.timestamp := t;
     Prisma.channel := chan;
     Prisma.totalAmount := total;
     Prisma.status := "COMPLETED";
     Prisma.orderItems := lines |}.

(** One order in the comparison week, one in the current week. *)
Definition orders_both : list Prisma.Order :=
  [ order "o1" (day 90) "walk-in" 5000 [line "m1" 50 100];
    order "o2" (day 95) "walk-in" 7000 [line "m1" 70 100] ].

Definition orders_current_only : list Prisma.Order :=
  [ order "o2" (day 95) "walk-in" 7000 [line "m1" 70 100] ].

(** A popular dish sold at 100 that costs 10. *)
Definition plowhorse : Prisma.MenuItem :=
  {| Prisma.id := "m1";
     Prisma.name := "Dal";
     Prisma.category := "main";
     Prisma.costPrice := 10;
     Prisma.sellingPrice := 100;
     Prisma.prepTime := Some 10%Z |}.

Definition orders_plowhorse : list Prisma.Order :=
  [ order "o1" (day 90) "walk-in" 800 [line "m1" 8 100] ].

(** Five days of sales of one menu item. *)
Definition orders_five_days : list Prisma.Order :=
  [ order "o1" (day 91) "walk-in" 200 [line "m1" 2 100];
    order "o2" (day 92) "walk-in" 300 [line "m1" 3 100];
    order "o3" (day 93) "walk-in" 200 [line "m1" 2 100];
    order "o4" (day 94) "walk-in" 400 [line "m1" 4 100];
    order "o5" (day 95) "walk-in" 200 [line "m1" 2 100] ].

(** Seven days of sales of item 1. *)
Definition txs_seven_days : list Transaction :=
  map (fun d => tx (day d) 1 2 100) [91; 92; 93; 94; 95; 96; 97]%Z.

(** A dish of high margin, and orders in which it sells little next to the
    popular dish. *)
Definition puzzle : Prisma.MenuItem :=
  {| Prisma.id := "m2";
     Prisma.name := "Biryani";
     Prisma.category := "main";
     Prisma.costPrice := 100;
     Prisma.sellingPrice := 1000;
     Prisma.prepTime := Some 20%Z |}.

Definition orders_puzzle : list Prisma.Order :=
  [ order "o1" (day 90) "walk-in" 3000 [line "m1" 30 100];
    order "o2" (day 91) "walk-in" 2000 [line "m2" 2 1000] ].

(** Ten days of sales of item 1: the price goes from 100 to 110 on day 86
    and the daily quantity from 10 to 8. *)
Definition txs_ten_days : list Transaction :=
  map (fun d => tx (day d) 1 10 100) [81; 82; 83; 84; 85]%Z
  ++ map (fun d => tx (day d) 1 8 110) [86; 87; 88; 89; 90]%Z.


End Samples.

(** * Properties *)

(** ** Numbers *)

Lemma Qltb_lt (x y : Q) : Qltb x y = true <-> (x < y)%Q.
Proof.
  unfold Qltb. rewrite negb_true_iff.
  split; intros H.
  - apply Qnot_le_lt. intros Hle. apply Qle_bool_iff in Hle. congruence.
  - destruct (Qle_bool y x) eqn:E; [|reflexivity].
    apply Qle_bool_iff in E. exfalso. apply (Qlt_not_le _ _ H E).
Qed.

Lemma Qltb_ge (x y : Q) : Qltb x y = false <-> (y <= x)%Q.
Proof.
  unfold Qltb. rewrite negb_false_iff. apply Qle_bool_iff.
Qed.

Lemma Qeq_bool_false (x y : Q) : Qeq_bool x y = false <-> ~ (x == y)%Q.
Proof.
  split; intros H.
  - intros E. apply Qeq_bool_iff in E. congruence.
  - destruct (Qeq_bool x y) eqn:E; [|reflexivity].
    apply Qeq_bool_iff in E. contradiction.
Qed.

Lemma Qle_bool_false (x y : Q) : Qle_bool x y = false <-> (y < x)%Q.
Proof.
  split; intros H.
  - apply Qnot_le_lt. intros Hle. apply Qle_bool_iff in Hle. congruence.
  - destruct (Qle_bool x y) eqn:E; [|reflexivity].
    apply Qle_bool_iff in E. exfalso. apply (Qlt_not_le _ _ H E).
Qed.

Lemma finite_Fin (q : Q) : finite (Fin q).
Proof. reflexivity. Qed.

Lemma finite_inv (x : num) : finite x -> x = Fin (qval x).
Proof. destruct x; simpl; intros H; (reflexivity || discriminate H). Qed.

Lemma finite_of_Z (z : Z) : finite (of_Z z).
Proof. reflexivity. Qed.

Lemma finite_of_nat (n : nat) : finite (of_nat n).
Proof. reflexivity. Qed.

Lemma finite_add (x y : num) : finite x -> finite y -> finite (x + y)%num.
Proof. destruct x, y; simpl; intros Hx Hy; (reflexivity || discriminate). Qed.

Lemma finite_opp (x : num) : finite x -> finite (num_opp x).
Proof. destruct x; simpl; intros Hx; (reflexivity || discriminate). Qed.

Lemma finite_sub (x y : num) : finite x -> finite y -> finite (x - y)%num.
Proof. intros Hx Hy. apply finite_add; [|apply finite_opp]; assumption. Qed.

Lemma finite_mul (x y : num) : finite x -> finite y -> finite (x * y)%num.
Proof. destruct x, y; simpl; intros Hx Hy; (reflexivity || discriminate). Qed.

Lemma finite_abs (x : num) : finite x -> finite (num_abs x).
Proof. destruct x; simpl; intros Hx; (reflexivity || discriminate). Qed.

Lemma finite_round (x : num) : finite x -> finite (Math_round x).
Proof. destruct x; simpl; intros Hx; (reflexivity || discriminate). Qed.

Lemma finite_max (x y : num) : finite x -> finite y -> finite (Math_max x y).
Proof.
  destruct x, y; simpl; intros Hx Hy; try discriminate.
  destruct (Qle_bool q q0); reflexivity.
Qed.

Lemma finite_min (x y : num) : finite x -> finite y -> finite (Math_min x y).
Proof.
  destruct x, y; simpl; intros Hx Hy; try discriminate.
  destruct (Qle_bool q q0); reflexivity.
Qed.

(** Division keeps finite numbers finite when the divisor is not zero. *)
Lemma finite_div (x y : num) :
  finite x -> finite y -> (y =? n0)%num = false -> finite (x / y)%num.
Proof.
  destruct x, y; simpl; intros Hx Hy Hz; try discriminate.
  rewrite Hz. reflexivity.
Qed.

Lemma finite_num_or (x d : num) : finite x -> finite d -> finite (num_or x d).
Proof. unfold num_or. destruct (truthy x); auto. Qed.

Lemma finite_prop_or0 (v : option num) :
  (forall x, v = Some x -> finite x) -> finite (prop_or0 v).
Proof.
  destruct v as [x|]; simpl; intros H; [|reflexivity].
  apply finite_num_or; [apply H|]; reflexivity.
Qed.

Lemma finite_or0 (v : option Q) : finite (or0 v).
Proof. destruct v as [q|]; simpl; [|reflexivity]. apply finite_num_or; reflexivity. Qed.

(** A strictly positive finite number is not zero. *)
Lemma gt0_nonzero (x : num) : (x >? n0)%num = true -> (x =? n0)%num = false.
Proof.
  destruct x; simpl; try reflexivity.
  unfold num_gt, num_lt, n0. intros H. apply Qltb_lt in H.
  apply Qeq_bool_false. intros E. rewrite E in H. apply (Qlt_irrefl _ H).
Qed.

Lemma abs_nonzero (x : num) : (x =? n0)%num = false -> (num_abs x =? n0)%num = false.
Proof.
  destruct x; simpl; try reflexivity.
  intros H. apply Qeq_bool_false in H. apply Qeq_bool_false.
  revert H. apply Qabs_case; intros _ H E; apply H.
  - exact E.
  - rewrite <- (Qopp_involutive q), E. reflexivity.
Qed.

(** A left fold keeps an invariant that every step keeps. *)
Lemma fold_left_invariant {A B : Type} (P : A -> Prop) (R : B -> Prop)
    (f : A -> B -> A) (l : list B) (a : A) :
  Forall R l -> P a -> (forall a b, P a -> R b -> P (f a b)) ->
  P (fold_left f l a).
Proof.
  intros Hl Ha Hstep. revert a Ha.
  induction Hl as [|b l Hb Hl IH]; simpl; intros a Ha; [exact Ha|].
  apply IH. apply Hstep; assumption.
Qed.

Lemma finite_sum_by {A : Type} (f : A -> num) (xs : list A) :
  Forall (fun x => finite (f x)) xs -> finite (sum_by f xs).
Proof.
  intros H. unfold sum_by.
  apply (fold_left_invariant finite (fun x => finite (f x))).
  - exact H.
  - reflexivity.
  - intros a b Ha Hb. apply finite_add; assumption.
Qed.

(** ** Decision tracker *)

Lemma find_update_where_id (f : DecisionTracker.DecisionRow -> DecisionTracker.DecisionRow)
    (i j : Z) (rows : list DecisionTracker.DecisionRow) :
  (forall r, DecisionTracker.id (f r) = DecisionTracker.id r) ->
  find (fun r => (DecisionTracker.id r =? j)%Z)
    (DecisionTracker.update_where_id f i rows)
  = option_map (fun r => if (DecisionTracker.id r =? i)%Z then f r else r)
      (find (fun r => (DecisionTracker.id r =? j)%Z) rows).
Proof.
  intros Hid. unfold DecisionTracker.update_where_id.
  induction rows as [|r rows IH]; simpl; [reflexivity|].
  destruct (DecisionTracker.id r =? i)%Z eqn:Ei.
  - rewrite Hid. destruct (DecisionTracker.id r =? j)%Z; simpl.
    + rewrite Ei. reflexivity.
    + exact IH.
  - destruct (DecisionTracker.id r =? j)%Z; simpl.
    + rewrite Ei. reflexivity.
    + exact IH.
Qed.

Lemma stored_status_update (now : Z) (db : DecisionTracker.Db) (i j : Z)
    (st : DecisionTracker.Status) :
  stored_status (DecisionTracker.updateDecisionStatus now db i st) j
  = option_map (fun s => if (j =? i)%Z then st else s) (stored_status db j).
Proof.
  unfold stored_status.
  assert (Hfind : forall r, find (fun r => (DecisionTracker.id r =? j)%Z)
                              (DecisionTracker.decisions db) = Some r ->
                            (DecisionTracker.id r =? i)%Z = (j =? i)%Z).
  { intros r Hr. apply find_some in Hr. destruct Hr as [_ Hr].
    apply Z.eqb_eq in Hr. rewrite Hr. reflexivity. }
  destruct st; simpl; rewrite find_update_where_id by reflexivity;
    destruct (find _ (DecisionTracker.decisions db)) as [r|] eqn:E;
    simpl; try reflexivity;
    rewrite (Hfind r eq_refl); destruct (j =? i)%Z; reflexivity.
Qed.

(** C2, as the code has it: [updateDecisionStatus] validates nothing.  For
    a stored decision and any requested status, legal or not, the call
    completes and the stored status becomes the requested one; the status
    of every other decision and the outcome table are left as they were. *)
Theorem updateDecisionStatus_writes_any_status (now : Z)
    (db : DecisionTracker.Db) (i : Z) (from to : DecisionTracker.Status) :
  stored_status db i = Some from ->
  stored_status (DecisionTracker.updateDecisionStatus now db i to) i = Some to
  /\ (forall j, j <> i ->
        stored_status (DecisionTracker.updateDecisionStatus now db i to) j
        = stored_status db j)
  /\ DecisionTracker.decision_outcomes
       (DecisionTracker.updateDecisionStatus now db i to)
     = DecisionTracker.decision_outcomes db.
Proof.
  intros Hfrom. repeat split.
  - rewrite stored_status_update, Hfrom. simpl. rewrite Z.eqb_refl. reflexivity.
  - intros j Hj. rewrite stored_status_update.
    apply Z.eqb_neq in Hj. rewrite Hj.
    destruct (stored_status db j); reflexivity.
  - destruct to; reflexivity.
Qed.

Lemma updateDecisionStatus_writes_any_status_witness :
  stored_status Samples.db_pending 1 = Some DecisionTracker.pending
  /\ stored_status
       (DecisionTracker.updateDecisionStatus (Samples.day 11)
          Samples.db_pending 1 DecisionTracker.rejected) 1
     = Some DecisionTracker.rejected.
Proof.
  split; [reflexivity|].
  apply (updateDecisionStatus_writes_any_status (Samples.day 11)
           Samples.db_pending 1 DecisionTracker.pending
           DecisionTracker.rejected).
  reflexivity.
Defined.

(** C2, as stated, fails: a rejected decision is moved to accepted, a
    transition outside the legal set, and the stored status changes. *)
Lemma updateDecisionStatus_rejected_to_accepted :
  stored_status Samples.db_rejected 1 = Some DecisionTracker.rejected
  /\ spec_legal_transition DecisionTracker.rejected DecisionTracker.accepted
     = false
  /\ stored_status
       (DecisionTracker.updateDecisionStatus (Samples.day 12)
          Samples.db_rejected 1 DecisionTracker.accepted) 1
     = Some DecisionTracker.accepted.
Proof. repeat split. Qed.

(** ** Outcome evaluator *)

(** Fewer than seven full days have passed exactly when the two instants
    are less than seven days of milliseconds apart. *)
Lemma differenceInDays_lt_7 (now t : Z) :
  (differenceInDays now t < 7 <-> now - t < 7 * msPerDay)%Z.
Proof.
  unfold differenceInDays, msPerDay.
  destruct (Z_lt_le_dec (now - t) 0) as [Hneg|Hpos].
  - split; intros _; [lia|].
    assert (H := Z.quot_opp_l (now - t) 86400000 ltac:(lia)).
    assert (H' : (0 <= - (now - t) ÷ 86400000)%Z)
      by (apply Z.quot_pos; lia).
    assert (Hq : ((now - t) ÷ 86400000 = - (- (now - t) ÷ 86400000))%Z)
      by lia.
    lia.
  - rewrite Z.quot_div_nonneg by lia.
    split; intros H.
    + apply Z.nle_gt. intros Hge. apply Z.nle_gt in H. apply H.
      apply Z.div_le_lower_bound; lia.
    + apply Z.div_lt_upper_bound; lia.
Qed.

(** C3: a stored decision that is not implemented, that has no
    implementation date, or that was implemented fewer than seven days
    before [now] makes [evaluateDecision] return [null] and leaves the store
    (and so the outcome table) untouched; and whenever a call changes the
    outcome table, the decision is implemented and at least seven days
    old. *)
Theorem evaluateDecision_gating (now : Z) (txs : list Transaction)
    (tracker : DecisionTracker.Db) (i : Z) (d : DecisionTracker.Decision) :
  DecisionTracker.getDecisionById tracker i = Some d ->
  ((DecisionTracker.decisionStatus d <> Some DecisionTracker.implemented
    \/ DecisionTracker.implementedAt d = None
    \/ (exists t, DecisionTracker.implementedAt d = Some t
                  /\ (differenceInDays now t < 7)%Z))
   -> OutcomeEvaluator.evaluateDecision now txs tracker i = (None, tracker))
  /\ (DecisionTracker.decision_outcomes
        (snd (OutcomeEvaluator.evaluateDecision now txs tracker i))
      <> DecisionTracker.decision_outcomes tracker
      -> DecisionTracker.decisionStatus d = Some DecisionTracker.implemented
         /\ exists t, DecisionTracker.implementedAt d = Some t
                      /\ (7 <= differenceInDays now t)%Z).
Proof.
  intros Hd. unfold OutcomeEvaluator.evaluateDecision. rewrite Hd.
  destruct (DecisionTracker.decisionStatus d) as [[| | |]|] eqn:Es;
    destruct (DecisionTracker.implementedAt d) as [t|] eqn:Et;
    try (split; [reflexivity | simpl; congruence]).
  destruct (differenceInDays now t <? 7)%Z eqn:Ed.
  - split; [reflexivity | simpl; congruence].
  - apply Z.ltb_ge in Ed. split.
    + intros [H|[H|[t' [Ht' Hlt]]]]; try congruence.
      injection Ht' as <-. lia.
    + intros _. split; [reflexivity|]. exists t. split; [reflexivity|exact Ed].
Qed.

Lemma evaluateDecision_gating_witness :
  OutcomeEvaluator.evaluateDecision (Samples.day 23) Samples.txs_item1
    Samples.db_implemented 1
  = (None, Samples.db_implemented).
Proof.
  refine (proj1 (evaluateDecision_gating (Samples.day 23) Samples.txs_item1
                   Samples.db_implemented 1 _ _) _).
  - reflexivity.
  - right. right. exists (Samples.day 20). split; [reflexivity|].
    vm_compute. reflexivity.
Defined.

(** C10: a decision whose entity type is neither ['item'] nor
    ['restaurant'] is never evaluated: the call returns [null] and the
    store is untouched, whatever its status and age. *)
Theorem evaluateDecision_other_entity (now : Z) (txs : list Transaction)
    (tracker : DecisionTracker.Db) (i : Z) (d : DecisionTracker.Decision) :
  DecisionTracker.getDecisionById tracker i = Some d ->
  DecisionTracker.entityType d <> "item" ->
  DecisionTracker.entityType d <> "restaurant" ->
  OutcomeEvaluator.evaluateDecision now txs tracker i = (None, tracker).
Proof.
  intros Hd Hitem Hrest. unfold OutcomeEvaluator.evaluateDecision. rewrite Hd.
  apply String.eqb_neq in Hitem, Hrest. rewrite Hitem, Hrest.
  destruct (DecisionTracker.decisionStatus d) as [[| | |]|];
    destruct (DecisionTracker.implementedAt d) as [t|]; try reflexivity.
  destruct (differenceInDays now t <? 7)%Z; reflexivity.
Qed.

Lemma evaluateDecision_other_entity_witness :
  (7 <= differenceInDays (Samples.day 30) (Samples.day 20))%Z
  /\ stored_status Samples.db_channel 1 = Some DecisionTracker.implemented
  /\ OutcomeEvaluator.evaluateDecision (Samples.day 30) Samples.txs_item1
       Samples.db_channel 1
     = (None, Samples.db_channel).
Proof.
  split; [vm_compute; discriminate|]. split; [reflexivity|].
  refine (evaluateDecision_other_entity (Samples.day 30) Samples.txs_item1
            Samples.db_channel 1 _ _ _ _).
  - reflexivity.
  - vm_compute. discriminate.
  - vm_compute. discriminate.
Defined.

(** C9: when either impact lacks the key [revenue_change_pct] the accuracy
    is the fixed value 0.5. *)
Theorem calculateAccuracy_unknown (predicted actual : gmap string num) :
  predicted !! "revenue_change_pct" = None
  \/ actual !! "revenue_change_pct" = None ->
  OutcomeEvaluator.calculateAccuracy predicted actual = Fin (1 # 2).
Proof.
  intros [H|H]; unfold OutcomeEvaluator.calculateAccuracy; rewrite H.
  - reflexivity.
  - destruct (predicted !! "revenue_change_pct"); reflexivity.
Qed.

Lemma calculateAccuracy_unknown_witness :
  OutcomeEvaluator.calculateAccuracy (Samples.impact_pct 10) ∅ = Fin (1 # 2).
Proof.
  apply (calculateAccuracy_unknown (Samples.impact_pct 10) ∅).
  right. reflexivity.
Defined.

Lemma Math_max_Fin (a b : Q) :
  exists m, Math_max (Fin a) (Fin b) = Fin m /\ (m == Qmax a b)%Q.
Proof.
  simpl. destruct (Qle_bool a b) eqn:E.
  - exists b. split; [reflexivity|].
    apply Qle_bool_iff in E. symmetry. apply Q.max_r. exact E.
  - exists a. split; [reflexivity|].
    apply Qle_bool_false in E. symmetry. apply Q.max_l.
    apply Qlt_le_weak. exact E.
Qed.

Lemma Qmax_abs_pos (p a : Q) :
  ~ (p == 0 /\ a == 0)%Q -> (0 < Qmax (Qabs p) (Qabs a))%Q.
Proof.
  intros H.
  destruct (Qeq_dec p 0) as [Hp|Hp].
  - assert (Ha : ~ (a == 0)%Q) by (intros Ha; apply H; split; assumption).
    apply Qlt_le_trans with (Qabs a); [|apply Q.le_max_r].
    destruct (Qle_lt_or_eq _ _ (Qabs_nonneg a)) as [Hlt|Heq]; [exact Hlt|].
    exfalso. apply Ha. revert Heq. apply Qabs_case; intros _ Heq.
    + symmetry. exact Heq.
    + rewrite <- (Qopp_involutive a), <- Heq. reflexivity.
  - apply Qlt_le_trans with (Qabs p); [|apply Q.le_max_l].
    destruct (Qle_lt_or_eq _ _ (Qabs_nonneg p)) as [Hlt|Heq]; [exact Hlt|].
    exfalso. apply Hp. revert Heq. apply Qabs_case; intros _ Heq.
    + symmetry. exact Heq.
    + rewrite <- (Qopp_involutive p), <- Heq. reflexivity.
Qed.

(** The relative-error branch of [calculateAccuracy]. *)
Lemma accuracy_nonzero (p a : Q) :
  ~ (p == 0 /\ a == 0)%Q ->
  exists r : Q,
    Math_max n0
      (n1 - num_abs (Fin p - Fin a)
            / Math_max (num_abs (Fin p)) (num_abs (Fin a)))%num = Fin r
    /\ (r == Qmax 0 (1 - Qabs (p - a) / Qmax (Qabs p) (Qabs a)))%Q
    /\ (0 <= r <= 1)%Q.
Proof.
  intros Hnz.
  destruct (Math_max_Fin (Qabs p) (Qabs a)) as [m [Hm Hmq]].
  pose proof (Qmax_abs_pos p a Hnz) as Hpos. rewrite <- Hmq in Hpos.
  change (num_abs (Fin p - Fin a)) with (Fin (Qabs (p - a))).
  change (num_abs (Fin p)) with (Fin (Qabs p)).
  change (num_abs (Fin a)) with (Fin (Qabs a)).
  rewrite Hm.
  assert (Hm0 : Qeq_bool m 0 = false).
  { apply Qeq_bool_false. intros E. rewrite E in Hpos.
    apply (Qlt_irrefl _ Hpos). }
  assert (Hdiv : (Fin (Qabs (p - a)) / Fin m)%num = Fin (Qabs (p - a) / m)).
  { unfold num_div. rewrite Hm0. reflexivity. }
  rewrite Hdiv.
  change (n1 - Fin (Qabs (p - a) / m))%num
    with (Fin (1 - Qabs (p - a) / m)).
  destruct (Math_max_Fin 0 (1 - Qabs (p - a) / m)) as [r [Hr Hrq]].
  unfold n0. rewrite Hr. exists r.
  assert (He : (0 <= Qabs (p - a) / m)%Q).
  { apply Qle_shift_div_l; [exact Hpos|]. rewrite Qmult_0_l.
    apply Qabs_nonneg. }
  split; [reflexivity|]. split; [|split].
  - rewrite Hrq. rewrite Hmq. reflexivity.
  - rewrite Hrq. apply Q.le_max_l.
  - rewrite Hrq. apply Q.max_lub; [discriminate|].
    unfold Qminus. rewrite <- (Qplus_0_r 1) at 2. apply Qplus_le_r.
    change 0%Q with (- 0)%Q. apply Qopp_le_compat. exact He.
Qed.

(** The tiers of the evaluation text are strict: above 0.8, above 0.5,
    and the rest. *)
Lemma generateEvaluationText_tiers (predicted actual : gmap string num)
    (r : Q) :
  ((8 # 10 < r)%Q ->
   String.prefix "Prediction was highly accurate."
     (OutcomeEvaluator.generateEvaluationText predicted actual (Fin r))
   = true)
  /\ ((5 # 10 < r <= 8 # 10)%Q ->
      String.prefix "Prediction was moderately accurate."
        (OutcomeEvaluator.generateEvaluationText predicted actual (Fin r))
      = true)
  /\ ((r <= 5 # 10)%Q ->
      String.prefix "Prediction was off."
        (OutcomeEvaluator.generateEvaluationText predicted actual (Fin r))
      = true).
Proof.
  unfold OutcomeEvaluator.generateEvaluationText, num_gt, num_lt.
  split; [|split].
  - intros H. apply Qltb_lt in H. rewrite H. reflexivity.
  - intros [H5 H8]. apply Qltb_lt in H5. apply Qltb_ge in H8.
    rewrite H8, H5. reflexivity.
  - intros H5.
    assert (H8 : (r <= 8 # 10)%Q)
      by (apply Qle_trans with (5 # 10); [exact H5|discriminate]).
    apply Qltb_ge in H5, H8. rewrite H8, H5. reflexivity.
Qed.

(** C4, as the code has it.  For finite percent changes [p] and [a] the
    accuracy is 1 when both are zero and
    [max(0, 1 - |p - a| / max(|p|, |a|))] otherwise, and lies in [0, 1].
    The tiers of the evaluation text are strict: an accuracy of exactly
    0.8 is rendered as "moderately accurate", and so is the scenario
    [p = 10], [a = 8], whose accuracy is 0.8. *)
Theorem calculateAccuracy_formula :
  (forall (predicted actual : gmap string num) (p a : Q),
      predicted !! "revenue_change_pct" = Some (Fin p) ->
      actual !! "revenue_change_pct" = Some (Fin a) ->
      exists r : Q,
        OutcomeEvaluator.calculateAccuracy predicted actual = Fin r
        /\ ((p == 0 /\ a == 0)%Q -> (r == 1)%Q)
        /\ (~ (p == 0 /\ a == 0)%Q ->
            (r == Qmax 0 (1 - Qabs (p - a) / Qmax (Qabs p) (Qabs a)))%Q)
        /\ (0 <= r <= 1)%Q
        /\ ((r == 8 # 10)%Q ->
            String.prefix "Prediction was moderately accurate."
              (OutcomeEvaluator.generateEvaluationText predicted actual
                 (Fin r)) = true))
  /\ (OutcomeEvaluator.calculateAccuracy (Samples.impact_pct 10)
        (Samples.impact_pct 8) =? Fin (8 # 10))%num = true
  /\ OutcomeEvaluator.generateEvaluationText (Samples.impact_pct 10)
       (Samples.impact_pct 8)
       (OutcomeEvaluator.calculateAccuracy (Samples.impact_pct 10)
          (Samples.impact_pct 8))
     = "Prediction was moderately accurate. Expected 10.0% change, actual was 8.0%.".
Proof.
  split; [|split; vm_compute; reflexivity].
  intros predicted actual p a Hp Ha.
  assert (Htier : forall r : Q, (r == 8 # 10)%Q ->
            String.prefix "Prediction was moderately accurate."
              (OutcomeEvaluator.generateEvaluationText predicted actual
                 (Fin r)) = true).
  { intros r Hr.
    apply (proj1 (proj2 (generateEvaluationText_tiers predicted actual r))).
    rewrite Hr. split; [reflexivity|discriminate]. }
  unfold OutcomeEvaluator.calculateAccuracy. rewrite Hp, Ha.
  destruct (Qeq_dec p 0) as [Ep|Ep]; [destruct (Qeq_dec a 0) as [Ea|Ea]|].
  - assert (E : ((Fin p =? n0)%num && (Fin a =? n0)%num) = true).
    { simpl. apply andb_true_intro.
      split; apply Qeq_bool_iff; assumption. }
    rewrite E. exists 1%Q.
    split; [reflexivity|]. split; [reflexivity|].
    split; [intros H; exfalso; apply H; split; assumption|].
    split; [split; discriminate|]. apply Htier.
  - assert (E : ((Fin p =? n0)%num && (Fin a =? n0)%num) = false).
    { simpl. apply andb_false_intro2. apply Qeq_bool_false. exact Ea. }
    rewrite E.
    destruct (accuracy_nonzero p a) as [r [Hr [Hrq Hb]]];
      [intros [_ H]; exact (Ea H)|].
    exists r. split; [exact Hr|].
    split; [intros [_ H]; contradiction|].
    split; [intros _; exact Hrq|]. split; [exact Hb|apply Htier].
  - assert (E : ((Fin p =? n0)%num && (Fin a =? n0)%num) = false).
    { simpl. apply andb_false_intro1. apply Qeq_bool_false. exact Ep. }
    rewrite E.
    destruct (accuracy_nonzero p a) as [r [Hr [Hrq Hb]]];
      [intros [H _]; exact (Ep H)|].
    exists r. split; [exact Hr|].
    split; [intros [H _]; contradiction|].
    split; [intros _; exact Hrq|]. split; [exact Hb|apply Htier].
Qed.

Lemma calculateAccuracy_formula_witness :
  exists r : Q,
    OutcomeEvaluator.calculateAccuracy (Samples.impact_pct 10)
      (Samples.impact_pct 5) = Fin r
    /\ (0 <= r <= 1)%Q.
Proof.
  destruct (proj1 calculateAccuracy_formula (Samples.impact_pct 10)
              (Samples.impact_pct 5) 10%Q 5%Q eq_refl eq_refl)
    as [r [Hr [_ [_ [Hb _]]]]].
  exists r. split; [exact Hr|exact Hb].
Defined.

(** C4, as stated, fails at its own scenario: the accuracy of [p = 10],
    [a = 8] is exactly 0.8, which is not above 0.8, so the text is not the
    "highly accurate" one. *)
Lemma accuracy_08_not_highly_accurate :
  (OutcomeEvaluator.calculateAccuracy (Samples.impact_pct 10)
     (Samples.impact_pct 8) =? Fin (8 # 10))%num = true
  /\ String.prefix "Prediction was highly accurate"
       (OutcomeEvaluator.generateEvaluationText (Samples.impact_pct 10)
          (Samples.impact_pct 8)
          (OutcomeEvaluator.calculateAccuracy (Samples.impact_pct 10)
             (Samples.impact_pct 8))) = false.
Proof. split; vm_compute; reflexivity. Qed.

(** ** Maps in insertion order *)

Section JsMapFacts.
Context {K V : Type} (eqb : K -> K -> bool) (P : V -> Prop).

Lemma Map_get_Forall (m : list (K * V)) (k : K) (v : V) :
  Forall (fun kv => P (snd kv)) m -> Map_get eqb m k = Some v -> P v.
Proof.
  induction 1 as [|[k' v'] m Hkv Hm IH]; simpl; [discriminate|].
  destruct (eqb k' k).
  - intros [= <-]. exact Hkv.
  - exact IH.
Qed.

Lemma Map_set_Forall (m : list (K * V)) (k : K) (v : V) :
  Forall (fun kv => P (snd kv)) m -> P v ->
  Forall (fun kv => P (snd kv)) (Map_set eqb m k v).
Proof.
  intros Hm Hv. induction Hm as [|[k' v'] m Hkv Hm IH]; simpl.
  - constructor; [exact Hv|constructor].
  - destruct (eqb k' k); constructor; assumption.
Qed.

Lemma Map_of_Forall (entries : list (K * V)) :
  Forall (fun kv => P (snd kv)) entries ->
  Forall (fun kv => P (snd kv)) (Map_of eqb entries).
Proof.
  intros H. unfold Map_of.
  apply (fold_left_invariant (Forall (fun kv => P (snd kv)))
           (fun kv => P (snd kv))).
  - exact H.
  - constructor.
  - intros m kv Hm Hkv. apply Map_set_Forall; assumption.
Qed.

End JsMapFacts.

(** ** Revenue decomposition over the SQLite store *)

Lemma currentQuery_finite (txs : list Transaction) (rid lo hi : Z) :
  Forall item_row_finite (InsightEngine.currentQuery txs rid lo hi).
Proof.
  unfold InsightEngine.currentQuery. apply Forall_map, Forall_forall.
  intros k _. repeat split.
Qed.

(** The guarded percentages: the divisor is tested before the division. *)
Lemma finite_pct_nonzero (total effect : num) :
  finite total -> finite effect ->
  finite (if (total !=? n0)%num
          then ((effect / num_abs total) * n100)%num else n0).
Proof.
  intros Ht He. unfold num_neqb.
  destruct (total =? n0)%num eqn:E; simpl; [reflexivity|].
  apply finite_mul; [|reflexivity].
  apply finite_div; [exact He|apply finite_abs; exact Ht|].
  apply abs_nonzero. exact E.
Qed.

Lemma finite_pct_positive (change base : num) :
  finite change -> finite base ->
  finite (if (base >? n0)%num
          then ((change / base) * n100)%num else n0).
Proof.
  intros Hc Hb. destruct (base >? n0)%num eqn:E; [|reflexivity].
  apply finite_mul; [|reflexivity].
  apply finite_div; [exact Hc|exact Hb|]. apply gt0_nonzero. exact E.
Qed.

(** The decomposition of finite grouped rows: the three effects are finite
    rationals, the mix effect being the residual, and every number of the
    result is finite. *)
Lemma decompose_effects (cur comp : list InsightEngine.ItemRow) :
  Forall item_row_finite cur -> Forall item_row_finite comp ->
  exists t v p : Q,
    InsightEngine.revenueChange (InsightEngine.decompose cur comp) = Fin t
    /\ InsightEngine.volumeEffect
         (InsightEngine.decomposition (InsightEngine.decompose cur comp))
       = Fin v
    /\ InsightEngine.priceEffect
         (InsightEngine.decomposition (InsightEngine.decompose cur comp))
       = Fin p
    /\ InsightEngine.mixEffect
         (InsightEngine.decomposition (InsightEngine.decompose cur comp))
       = Fin (t - v - p)
    /\ revenue_decomposition_finite (InsightEngine.decompose cur comp).
Proof.
  intros Hcur Hcomp.
  assert (HcurM : Forall (fun kv => item_row_finite (snd kv))
            (Map_of Z.eqb
               (map (fun item => (InsightEngine.row_item_id item, item)) cur))).
  { apply Map_of_Forall, Forall_map. exact Hcur. }
  assert (HcompM : Forall (fun kv => item_row_finite (snd kv))
            (Map_of Z.eqb
               (map (fun item => (InsightEngine.row_item_id item, item)) comp))).
  { apply Map_of_Forall, Forall_map. exact Hcomp. }
  unfold revenue_decomposition_finite, decomposition_finite.
  unfold InsightEngine.decompose. cbv zeta. simpl InsightEngine.revenueChange.
  simpl InsightEngine.decomposition. simpl InsightEngine.volumeEffect.
  simpl InsightEngine.priceEffect. simpl InsightEngine.mixEffect.
  simpl InsightEngine.revenueChangePct. simpl InsightEngine.volumeEffectPct.
  simpl InsightEngine.priceEffectPct. simpl InsightEngine.mixEffectPct.
  set (curM := Map_of Z.eqb
                 (map (fun item => (InsightEngine.row_item_id item, item))
                    cur)) in *.
  set (compM := Map_of Z.eqb
                  (map (fun item => (InsightEngine.row_item_id item, item))
                     comp)) in *.
  assert (Ht : finite (sum_by InsightEngine.revenue cur
                       - sum_by InsightEngine.revenue comp)%num).
  { apply finite_sub; apply finite_sum_by.
    - eapply Forall_impl; [exact Hcur|]. intros r Hr. apply Hr.
    - eapply Forall_impl; [exact Hcomp|]. intros r Hr. apply Hr. }
  set (T := (sum_by InsightEngine.revenue cur
             - sum_by InsightEngine.revenue comp)%num) in *.
  set (Vol := fold_left _ compM n0).
  set (Pri := fold_left _ curM n0).
  assert (Hv : finite Vol).
  { subst Vol.
    apply (fold_left_invariant finite
             (fun kv : Z * InsightEngine.ItemRow => item_row_finite (snd kv)));
      [exact HcompM|reflexivity|].
    intros acc [k r] Hacc [Hq [Hp Hr]]. simpl in *.
    apply finite_add; [exact Hacc|]. apply finite_mul; [|exact Hp].
    apply finite_sub; [|exact Hq]. apply finite_prop_or0.
    intros x Hx. destruct (Map_get Z.eqb curM k) as [c|] eqn:Ec;
      [|discriminate]. injection Hx as <-.
    apply (Map_get_Forall Z.eqb item_row_finite curM k c HcurM Ec). }
  assert (Hp : finite Pri).
  { subst Pri.
    apply (fold_left_invariant finite
             (fun kv : Z * InsightEngine.ItemRow => item_row_finite (snd kv)));
      [exact HcurM|reflexivity|].
    intros acc [k r] Hacc [Hq [Hpr Hr]]. simpl in *.
    destruct (Map_get Z.eqb compM k) as [c|] eqn:Ec; [|exact Hacc].
    destruct (Map_get_Forall Z.eqb item_row_finite compM k c HcompM Ec)
      as [_ [Hcp _]].
    apply finite_add; [exact Hacc|]. apply finite_mul; [|exact Hq].
    apply finite_sub; assumption. }
  assert (Hc : finite (sum_by InsightEngine.revenue comp)).
  { apply finite_sum_by. eapply Forall_impl; [exact Hcomp|].
    intros r Hr. apply Hr. }
  assert (Hm : finite (T - Vol - Pri)%num)
    by (apply finite_sub; [apply finite_sub|]; assumption).
  exists (qval T), (qval Vol), (qval Pri).
  split; [apply finite_inv; exact Ht|].
  split; [apply finite_inv; exact Hv|].
  split; [apply finite_inv; exact Hp|].
  split.
  { rewrite (finite_inv T Ht) at 1. rewrite (finite_inv Vol Hv) at 1.
    rewrite (finite_inv Pri Hp) at 1. reflexivity. }
  split; [exact Ht|].
  split; [apply finite_pct_positive; assumption|].
  split; [exact Hv|].
  split; [apply finite_pct_nonzero; assumption|].
  split; [exact Hp|].
  split; [apply finite_pct_nonzero; assumption|].
  split; [exact Hm|].
  apply finite_pct_nonzero; assumption.
Qed.

(** The value of [analyzeRevenueChange] is the decomposition of the two
    grouped result sets. *)
Lemma InsightEngine_analyze_fst (today : Z) (txs : list Transaction)
    (insights : list InsightEngine.InsightRow) (rid cd cpd : Z) :
  exists cur comp,
    Forall item_row_finite cur /\ Forall item_row_finite comp
    /\ InsightEngine.analyzeRevenueChange today txs insights rid cd cpd
       = (InsightEngine.decompose cur comp,
          insights ++
            [{| InsightEngine.insight_type := "revenue_decomposition";
                InsightEngine.entity_id := rid;
                InsightEngine.entity_type := "restaurant";
                InsightEngine.title := "Revenue Change Analysis";
                InsightEngine.explanation_text :=
                  InsightEngine.explanation (InsightEngine.decompose cur comp);
                InsightEngine.causal_factors :=
                  InsightEngine.decomposition
                    (InsightEngine.decompose cur comp) |}]).
Proof.
  eexists _, _. split; [|split]; [| |reflexivity]; apply currentQuery_finite.
Qed.

(** ** Explainable revenue decomposition *)

Lemma add_item_finite (m : list (string * ExplainableInsightEngine.ItemData))
    (item : Prisma.OrderItem) :
  Forall (fun kv => item_data_finite (snd kv)) m ->
  Forall (fun kv => item_data_finite (snd kv))
    (ExplainableInsightEngine.add_item m item).
Proof.
  intros Hm. unfold ExplainableInsightEngine.add_item.
  apply Map_set_Forall; [exact Hm|].
  assert (He : item_data_finite
            match Map_get String.eqb m (Prisma.menuItemId item) with
            | Some e => e
            | None => {| ExplainableInsightEngine.qty := n0;
                         ExplainableInsightEngine.revenue := n0;
                         ExplainableInsightEngine.avgPrice := n0 |}
            end).
  { destruct (Map_get String.eqb m (Prisma.menuItemId item)) as [e|] eqn:E.
    - apply (Map_get_Forall String.eqb item_data_finite m _ e Hm E).
    - repeat split. }
  destruct He as [Hq [Hr Ha]]. repeat split; simpl.
  - apply finite_add; [exact Hq|reflexivity].
  - apply finite_add; [exact Hr|reflexivity].
  - exact Ha.
Qed.

Lemma aggregateItemData_finite (orders : list Prisma.Order) :
  Forall (fun kv => item_data_finite (snd kv))
    (ExplainableInsightEngine.aggregateItemData orders).
Proof.
  unfold ExplainableInsightEngine.aggregateItemData.
  apply Forall_map.
  assert (H : Forall (fun kv => item_data_finite (snd kv))
            (fold_left
               (fun m order =>
                  fold_left ExplainableInsightEngine.add_item
                    (Prisma.orderItems order) m) orders [])).
  { apply (fold_left_invariant
             (Forall (fun kv => item_data_finite (snd kv)))
             (fun _ : Prisma.Order => True)).
    - apply Forall_forall. intros; exact I.
    - constructor.
    - intros m o Hm _.
      apply (fold_left_invariant
               (Forall (fun kv => item_data_finite (snd kv)))
               (fun _ : Prisma.OrderItem => True)).
      + apply Forall_forall. intros; exact I.
      + exact Hm.
      + intros m' it Hm' _. apply add_item_finite. exact Hm'. }
  eapply Forall_impl; [exact H|].
  intros [k d] [Hq [Hr _]]. unfold item_data_finite.
  cbn [snd fst ExplainableInsightEngine.qty ExplainableInsightEngine.revenue
       ExplainableInsightEngine.avgPrice] in *.
  split; [exact Hq|]. split; [exact Hr|].
  destruct (ExplainableInsightEngine.qty d >? n0)%num eqn:E; [|reflexivity].
  apply finite_div; [exact Hr|exact Hq|]. apply gt0_nonzero. exact E.
Qed.

Lemma finite_pct_abs_positive (total effect : num) :
  finite total -> finite effect ->
  finite (if (num_abs total >? n0)%num
          then ((effect / num_abs total) * n100)%num else n0).
Proof.
  intros Ht He. apply finite_pct_positive; [exact He|].
  apply finite_abs. exact Ht.
Qed.

(** The three factors of [decomposeRevenueChange], in the order the
    function lists them: volume, price, and the mix as the residual. *)
Lemma decomposeRevenueChange_factors (cur comp : list Prisma.Order) (t : Q) :
  exists (v p : Q) (fv fp fm : ExplainableInsightEngine.CausalFactor),
    ExplainableInsightEngine.factors
      (ExplainableInsightEngine.decomposeRevenueChange cur comp (Fin t))
    = [fv; fp; fm]
    /\ ExplainableInsightEngine.factor fv = "Volume (Customer Demand)"
    /\ ExplainableInsightEngine.factor fp = "Price Changes"
    /\ ExplainableInsightEngine.factor fm = "Product Mix Shift"
    /\ ExplainableInsightEngine.contribution fv = Fin v
    /\ ExplainableInsightEngine.contribution fp = Fin p
    /\ ExplainableInsightEngine.contribution fm = Fin (t - v - p)
    /\ Forall factor_finite [fv; fp; fm].
Proof.
  pose proof (aggregateItemData_finite cur) as Hcur.
  pose proof (aggregateItemData_finite comp) as Hcomp.
  unfold ExplainableInsightEngine.decomposeRevenueChange. cbv zeta.
  simpl ExplainableInsightEngine.factors.
  set (curM := ExplainableInsightEngine.aggregateItemData cur) in *.
  set (compM := ExplainableInsightEngine.aggregateItemData comp) in *.
  set (ids := Set_of String.eqb (Map_keys curM ++ Map_keys compM)).
  set (Vol := fold_left
                (fun volumeEffect itemId =>
                   match Map_get String.eqb compM itemId with
                   | Some comp0 => _
                   | None => volumeEffect
                   end) ids n0).
  set (Pri := fold_left
                (fun priceEffect itemId =>
                   match Map_get String.eqb curM itemId,
                         Map_get String.eqb compM itemId with
                   | Some curr, Some comp0 => _
                   | _, _ => priceEffect
                   end) ids n0).
  assert (Hv : finite Vol).
  { subst Vol.
    apply (fold_left_invariant finite (fun _ : string => True)).
    - apply Forall_forall. intros; exact I.
    - reflexivity.
    - intros acc k Hacc _.
      destruct (Map_get String.eqb compM k) as [c|] eqn:Ec; [|exact Hacc].
      destruct (Map_get_Forall String.eqb item_data_finite compM k c Hcomp Ec)
        as [Hq [_ Ha]].
      apply finite_add; [exact Hacc|]. apply finite_mul; [|exact Ha].
      apply finite_sub; [|exact Hq]. apply finite_prop_or0.
      intros x Hx. destruct (Map_get String.eqb curM k) as [c'|] eqn:Ec';
        [|discriminate]. injection Hx as <-.
      apply (Map_get_Forall String.eqb item_data_finite curM k c' Hcur Ec'). }
  assert (Hp : finite Pri).
  { subst Pri.
    apply (fold_left_invariant finite (fun _ : string => True)).
    - apply Forall_forall. intros; exact I.
    - reflexivity.
    - intros acc k Hacc _.
      destruct (Map_get String.eqb curM k) as [c'|] eqn:Ec'; [|exact Hacc].
      destruct (Map_get String.eqb compM k) as [c|] eqn:Ec; [|exact Hacc].
      destruct (Map_get_Forall String.eqb item_data_finite compM k c Hcomp Ec)
        as [_ [_ Ha]].
      destruct (Map_get_Forall String.eqb item_data_finite curM k c' Hcur Ec')
        as [Hq' [_ Ha']].
      apply finite_add; [exact Hacc|]. apply finite_mul; [exact Hq'|].
      apply finite_sub; assumption. }
  assert (Hm : finite (Fin t - Vol - Pri)%num)
    by (apply finite_sub; [apply finite_sub|]; (assumption || reflexivity)).
  exists (qval Vol), (qval Pri). eexists _, _, _.
  split; [reflexivity|]. simpl.
  split; [reflexivity|]. split; [reflexivity|]. split; [reflexivity|].
  split; [apply finite_inv; exact Hv|].
  split; [apply finite_inv; exact Hp|].
  split.
  { rewrite (finite_inv Vol Hv) at 1. rewrite (finite_inv Pri Hp) at 1.
    reflexivity. }
  repeat constructor; simpl; try assumption;
    apply (finite_pct_abs_positive (Fin t)); (assumption || reflexivity).
Qed.

Lemma insert_factor_Permutation (x : ExplainableInsightEngine.CausalFactor)
    (l : list ExplainableInsightEngine.CausalFactor) :
  Permutation (ExplainableInsightEngine.insert_factor x l) (x :: l).
Proof.
  induction l as [|y l IH]; simpl; [reflexivity|].
  destruct (ExplainableInsightEngine.compareFn x y <? n0)%num; [reflexivity|].
  rewrite IH. apply perm_swap.
Qed.

Lemma sort_factors_Permutation (l : list ExplainableInsightEngine.CausalFactor) :
  Permutation (ExplainableInsightEngine.sort_factors l) l.
Proof.
  unfold ExplainableInsightEngine.sort_factors.
  assert (H : forall acc,
            Permutation
              (fold_left
                 (fun acc x => ExplainableInsightEngine.insert_factor x acc)
                 l acc)
              (acc ++ l)).
  { induction l as [|x l IH]; simpl; intros acc.
    - rewrite app_nil_r. reflexivity.
    - rewrite IH, insert_factor_Permutation.
      change (x :: acc) with ([x] ++ acc).
      rewrite (Permutation_app_comm [x] acc), <- app_assoc. reflexivity. }
  apply (H []).
Qed.

(** The sum of finite numbers is the rational sum of their values. *)
Lemma sum_by_value {A : Type} (f : A -> num) (xs : list A) :
  Forall (fun x => finite (f x)) xs ->
  exists q : Q,
    sum_by f xs = Fin q
    /\ (q == fold_right (fun x s => qval (f x) + s) 0 xs)%Q.
Proof.
  intros H. unfold sum_by, n0.
  assert (G : forall a : Q,
            exists q : Q,
              fold_left (fun sum x => (sum + f x)%num) xs (Fin a) = Fin q
              /\ (q == a + fold_right (fun x s => qval (f x) + s) 0 xs)%Q).
  { induction H as [|x xs Hx Hxs IH]; simpl; intros a.
    - exists a. split; [reflexivity|]. rewrite Qplus_0_r. reflexivity.
    - rewrite (finite_inv (f x) Hx). simpl num_add.
      destruct (IH (a + qval (f x))%Q) as [q [Hq Hqe]].
      exists q. split; [exact Hq|]. rewrite Hqe.
      rewrite Qplus_assoc. reflexivity. }
  destruct (G 0%Q) as [q [Hq Hqe]]. exists q. split; [exact Hq|].
  rewrite Hqe. apply Qplus_0_l.
Qed.

Lemma value_sum_Permutation {A : Type} (g : A -> Q) (xs ys : list A) :
  Permutation xs ys ->
  (fold_right (fun x s => g x + s) 0 xs
   == fold_right (fun x s => g x + s) 0 ys)%Q.
Proof.
  induction 1 as [|x l l' _ IH|x y l|l l' l'' _ IH1 _ IH2]; simpl.
  - reflexivity.
  - rewrite IH. reflexivity.
  - rewrite !Qplus_assoc, (Qplus_comm (g y) (g x)). reflexivity.
  - rewrite IH1. exact IH2.
Qed.

(** The confidence score is finite: the balance ratio is only compared
    with 0.5, and a comparison with [NaN] is false. *)
Lemma calculateConfidenceScore_finite (n m : nat) :
  finite (ExplainableInsightEngine.calculateConfidenceScore
            (of_nat n + of_nat m)%num (of_nat n) (of_nat m)).
Proof.
  unfold ExplainableInsightEngine.calculateConfidenceScore.
  apply finite_min; [reflexivity|]. apply finite_mul.
  - apply finite_min; [reflexivity|]. reflexivity.
  - match goal with |- finite (if ?c then _ else _) => destruct c end;
      reflexivity.
Qed.

Lemma filter_nil_iff {A : Type} (f : A -> bool) (l : list A) :
  List.filter f l = [] <-> forall x, In x l -> f x = false.
Proof.
  induction l as [|a l IH]; simpl.
  - split; [intros _ x []|reflexivity].
  - destruct (f a) eqn:E.
    + split; [discriminate|]. intros H. specialize (H a (or_introl eq_refl)).
      congruence.
    + rewrite IH. split.
      * intros H x [<-|Hx]; [exact E|apply H; exact Hx].
      * intros H x Hx. apply H. right. exact Hx.
Qed.

(** The two outcomes of the explainable [analyzeRevenueChange]: [null] and
    an untouched table when a period has no order; otherwise an insight
    whose factors are the sorted factors of the decomposition of the total
    change, stored as one new row. *)
Lemma explainable_analyze_cases (today : Z) (orders : list Prisma.Order)
    (insights : list ExplainableInsightEngine.InsightRow) (rid days : Z) :
  let cur :=
    List.filter (fun o => (Prisma.restaurantId o =? rid)%Z
                     && (subDays today days <=? Prisma.timestamp o)%Z
                     && (Prisma.timestamp o <=? today)%Z) orders in
  let comp :=
    List.filter (fun o => (Prisma.restaurantId o =? rid)%Z
                     && (subDays (subDays today days) days
                         <=? Prisma.timestamp o)%Z
                     && (Prisma.timestamp o <? subDays today days)%Z) orders in
  ((cur = [] \/ comp = [])
   /\ ExplainableInsightEngine.analyzeRevenueChange today orders insights
        rid days = (None, insights))
  \/ (cur <> [] /\ comp <> []
      /\ exists (t : Q) (insight : ExplainableInsightEngine.DecomposedInsight)
                (row : ExplainableInsightEngine.InsightRow)
                (md : ExplainableInsightEngine.Metadata),
          ExplainableInsightEngine.analyzeRevenueChange today orders insights
            rid days = (Some insight, insights ++ [row])
          /\ ExplainableInsightEngine.causalFactors insight
             = ExplainableInsightEngine.sort_factors
                 (ExplainableInsightEngine.factors
                    (ExplainableInsightEngine.decomposeRevenueChange cur comp
                       (Fin t)))
          /\ ExplainableInsightEngine.metadata insight = Some md
          /\ ExplainableInsightEngine.absoluteChange md = Fin t
          /\ metadata_finite md
          /\ finite (ExplainableInsightEngine.sampleSize insight)
          /\ finite (ExplainableInsightEngine.confidenceScore insight)
          /\ ExplainableInsightEngine.rowCausalFactors row
             = ExplainableInsightEngine.causalFactors insight
          /\ ExplainableInsightEngine.rowSampleSize row
             = ExplainableInsightEngine.sampleSize insight
          /\ ExplainableInsightEngine.rowConfidenceScore row
             = ExplainableInsightEngine.confidenceScore insight).
Proof.
  intros cur comp.
  unfold ExplainableInsightEngine.analyzeRevenueChange. cbv zeta.
  fold cur. fold comp.
  destruct cur as [|c0 cur'] eqn:Ecur.
  { left. split; [left; reflexivity|reflexivity]. }
  destruct comp as [|p0 comp'] eqn:Ecomp.
  { left. split; [right; reflexivity|reflexivity]. }
  right. split; [discriminate|]. split; [discriminate|].
  rewrite <- Ecur, <- Ecomp.
  assert (Hguard : ((length cur =? 0)%nat || (length comp =? 0)%nat) = false).
  { subst cur comp. rewrite Ecur, Ecomp. reflexivity. }
  fold cur comp. rewrite Hguard.
  set (curRev := sum_by (fun o => Fin (Prisma.totalAmount o)) cur).
  set (compRev := sum_by (fun o => Fin (Prisma.totalAmount o)) comp).
  assert (Hcr : finite curRev).
  { apply finite_sum_by, Forall_forall. intros; reflexivity. }
  assert (Hpr : finite compRev).
  { apply finite_sum_by, Forall_forall. intros; reflexivity. }
  assert (Ht : finite (curRev - compRev)%num) by (apply finite_sub; assumption).
  assert (Hpct : finite (if (compRev !=? n0)%num
                         then (((curRev - compRev) / compRev) * n100)%num
                         else n0)).
  { unfold num_neqb. destruct (compRev =? n0)%num eqn:E; [reflexivity|].
    apply finite_mul; [|reflexivity]. apply finite_div; assumption. }
  exists (qval (curRev - compRev)%num).
  eexists _, _, _. split; [reflexivity|].
  cbn [ExplainableInsightEngine.causalFactors
         ExplainableInsightEngine.metadata
         ExplainableInsightEngine.sampleSize
         ExplainableInsightEngine.confidenceScore
         ExplainableInsightEngine.rowCausalFactors
         ExplainableInsightEngine.rowSampleSize
         ExplainableInsightEngine.rowConfidenceScore
         ExplainableInsightEngine.absoluteChange].
  split; [rewrite <- (finite_inv _ Ht); reflexivity|].
  split; [reflexivity|].
  cbn [ExplainableInsightEngine.absoluteChange].
  split; [apply finite_inv; exact Ht|].
  split; [repeat split; assumption|].
  split; [reflexivity|].
  split; [apply calculateConfidenceScore_finite|].
  repeat split.
Qed.

(** Read over exact numbers, the decomposition is additive: the volume,
    price and mix effects of every result of the SQLite engine add up to
    its revenue change, the three factors of [decomposeRevenueChange] add
    up to the change it is given, and the factors of every insight add up
    to the absolute change of its metadata.  (In binary64 the sums are
    these up to rounding only.) *)
Lemma decomposition_additive_over_rationals :
 (forall (today : Z) (txs : list Transaction)
          (insights : list InsightEngine.InsightRow) (rid cd cpd : Z),
      let r := fst (InsightEngine.analyzeRevenueChange today txs insights
                      rid cd cpd) in
      let d := InsightEngine.decomposition r in
      (InsightEngine.volumeEffect d + InsightEngine.priceEffect d
       + InsightEngine.mixEffect d =? InsightEngine.revenueChange r)%num
      = true
      /\ InsightEngine.mixEffect d
         = (InsightEngine.revenueChange r - InsightEngine.volumeEffect d
            - InsightEngine.priceEffect d)%num)
  /\ (forall (cur comp : list Prisma.Order) (t : Q),
         exists fv fp fm : ExplainableInsightEngine.CausalFactor,
           ExplainableInsightEngine.factors
             (ExplainableInsightEngine.decomposeRevenueChange cur comp (Fin t))
           = [fv; fp; fm]
           /\ ExplainableInsightEngine.factor fv = "Volume (Customer Demand)"
           /\ ExplainableInsightEngine.factor fp = "Price Changes"
           /\ ExplainableInsightEngine.factor fm = "Product Mix Shift"
           /\ (ExplainableInsightEngine.contribution fv
               + ExplainableInsightEngine.contribution fp
               + ExplainableInsightEngine.contribution fm =? Fin t)%num = true
           /\ ExplainableInsightEngine.contribution fm
              = (Fin t - ExplainableInsightEngine.contribution fv
                 - ExplainableInsightEngine.contribution fp)%num)
  /\ (forall (today : Z) (orders : list Prisma.Order)
             (insights : list ExplainableInsightEngine.InsightRow)
             (rid days : Z)
             (insight : ExplainableInsightEngine.DecomposedInsight)
             (md : ExplainableInsightEngine.Metadata),
         fst (ExplainableInsightEngine.analyzeRevenueChange today orders
                insights rid days) = Some insight ->
         ExplainableInsightEngine.metadata insight = Some md ->
         (sum_by ExplainableInsightEngine.contribution
            (ExplainableInsightEngine.causalFactors insight)
          =? ExplainableInsightEngine.absoluteChange md)%num = true).
Proof.
  split; [|split].
  - intros today txs insights rid cd cpd.
    destruct (InsightEngine_analyze_fst today txs insights rid cd cpd)
      as [cur [comp [Hcur [Hcomp E]]]].
    rewrite E. cbn [fst].
    destruct (decompose_effects cur comp Hcur Hcomp)
      as [t [v [p [Ht [Hv [Hp [Hm _]]]]]]].
    cbv zeta. rewrite Ht, Hv, Hp, Hm. split; [|reflexivity].
    simpl. apply Qeq_bool_iff. ring.
  - intros cur comp t.
    destruct (decomposeRevenueChange_factors cur comp t)
      as [v [p [fv [fp [fm [E [Nv [Np [Nm [Hv [Hp [Hm _]]]]]]]]]]]].
    exists fv, fp, fm. rewrite Hv, Hp, Hm.
    repeat (split; [assumption|]). split; [|reflexivity].
    simpl. apply Qeq_bool_iff. ring.
  - intros today orders insights rid days insight md Hres Hmd.
    destruct (explainable_analyze_cases today orders insights rid days)
      as [[_ E]|[_ [_ [t [i' [row [md' [E [Hf [Hmd' [Ha _]]]]]]]]]]];
      rewrite E in Hres; cbn [fst] in Hres; [discriminate|].
    injection Hres as <-. rewrite Hmd' in Hmd. injection Hmd as <-.
    rewrite Ha, Hf.
    match goal with
    | |- context [ExplainableInsightEngine.decomposeRevenueChange ?c ?p _] =>
        destruct (decomposeRevenueChange_factors c p t)
          as [v [q [fv [fp [fm [Ef [_ [_ [_ [Hv [Hq [Hm Hfin]]]]]]]]]]]]
    end.
    rewrite Ef.
    pose proof (sort_factors_Permutation [fv; fp; fm]) as Hperm.
    assert (Hfin' : Forall
              (fun f => finite (ExplainableInsightEngine.contribution f))
              (ExplainableInsightEngine.sort_factors [fv; fp; fm])).
    { eapply Permutation_Forall; [symmetry; exact Hperm|].
      eapply Forall_impl; [exact Hfin|]. intros f Hf'. apply Hf'. }
    destruct (sum_by_value ExplainableInsightEngine.contribution _ Hfin')
      as [s [Hs Hse]].
    rewrite Hs. simpl. apply Qeq_bool_iff. rewrite Hse.
    rewrite (value_sum_Permutation
               (fun f => qval (ExplainableInsightEngine.contribution f))
               _ _ Hperm).
    simpl. rewrite Hv, Hq, Hm. simpl. ring.
Qed.



Section Binary64Facts.
Import PrimFloat.


(** Nothing keeps a result finite when a sum overflows: with two items
    that took 1e308 each, the revenue change and its percentage are
    infinite and the percentage of the mix effect is [NaN]. *)
Lemma decomposition_overflows_in_binary64 :
  let r := Binary64.decompose Binary64.current_huge
             Binary64.comparison_small in
  let d := Binary64.decomposition r in
  Binary64.revenueChange r = infinity
  /\ Binary64.revenueChangePct r = infinity
  /\ Binary64.mixEffect d = infinity
  /\ is_nan (Binary64.mixEffectPct d) = true.
Proof. vm_compute. repeat split. Qed.

End Binary64Facts.

(** With nothing to compare with, the SQLite decomposition divides by
    nothing: the percentage of the change is 0, no volume or price effect
    is booked, and the mix effect is the change less these two zeros. *)
Lemma decompose_empty_comparison (cur : list InsightEngine.ItemRow) :
  let r := InsightEngine.decompose cur [] in
  let d := InsightEngine.decomposition r in
  InsightEngine.revenueChangePct r = n0
  /\ InsightEngine.volumeEffect d = n0
  /\ InsightEngine.priceEffect d = n0
  /\ InsightEngine.mixEffect d
     = (InsightEngine.revenueChange r - n0 - n0)%num.
Proof.
  cbv zeta.
  assert (Hv : InsightEngine.volumeEffect
                 (InsightEngine.decomposition (InsightEngine.decompose cur []))
               = n0) by reflexivity.
  assert (Hp : InsightEngine.priceEffect
                 (InsightEngine.decomposition (InsightEngine.decompose cur []))
               = n0).
  { unfold InsightEngine.decompose. cbv zeta.
    cbn [InsightEngine.decomposition InsightEngine.priceEffect map].
    change (Map_of Z.eqb []) with (@nil (Z * InsightEngine.ItemRow)).
    cbn [Map_get].
    induction (Map_of Z.eqb _) as [|e m IH]; [reflexivity|exact IH]. }
  split; [reflexivity|]. split; [exact Hv|]. split; [exact Hp|].
  rewrite <- Hp at 2. reflexivity.
Qed.

(** C8, as the code has it.  With no order in the current or in the
    comparison period the explainable [analyzeRevenueChange] returns [null]
    and stores nothing; it returns an insight only when both periods hold
    an order, and then stores it as one new row.  The SQLite
    [analyzeRevenueChange] has no such result: with no transaction of the
    restaurant in the comparison period (and quantities that SQLite can
    add up) it returns a decomposition in which the percentage of the
    change is 0, the volume and price effects are 0 and the mix effect is
    the change less these two zeros, and stores one new insight row with
    the explanation of that decomposition. *)
Theorem analyzeRevenueChange_zero_orders :
  (forall (today : Z) (orders : list Prisma.Order)
          (insights : list ExplainableInsightEngine.InsightRow)
          (rid days : Z),
      ((forall o, In o orders -> ~ in_current_period today days rid o)
       \/ (forall o, In o orders -> ~ in_comparison_period today days rid o))
      -> ExplainableInsightEngine.analyzeRevenueChange today orders insights
           rid days = (None, insights))
  /\ (forall (today : Z) (orders : list Prisma.Order)
             (insights : list ExplainableInsightEngine.InsightRow)
             (rid days : Z)
             (insight : ExplainableInsightEngine.DecomposedInsight),
         fst (ExplainableInsightEngine.analyzeRevenueChange today orders
                insights rid days) = Some insight ->
         (exists o, In o orders /\ in_current_period today days rid o)
         /\ (exists o, In o orders /\ in_comparison_period today days rid o)
         /\ exists row,
              snd (ExplainableInsightEngine.analyzeRevenueChange today orders
                     insights rid days) = insights ++ [row])
  /\ (forall (today : Z) (txs : list Transaction)
             (insights : list InsightEngine.InsightRow) (rid cd cpd : Z),
         quantities_fit_int64 txs ->
         (forall t, In t txs -> restaurant_id t = rid ->
                    date_between (timestamp t)
                      (isoDate (subDays (subDays today cd) cpd))
                      (isoDate (subDays today cd)) = false) ->
         let r := InsightEngine.analyzeRevenueChange today txs insights
                    rid cd cpd in
         let d := InsightEngine.decomposition (fst r) in
         InsightEngine.revenueChangePct (fst r) = n0
         /\ InsightEngine.volumeEffect d = n0
         /\ InsightEngine.priceEffect d = n0
         /\ InsightEngine.mixEffect d
            = (InsightEngine.revenueChange (fst r) - n0 - n0)%num
         /\ exists row,
              snd r = insights ++ [row]
              /\ InsightEngine.entity_id row = rid
              /\ InsightEngine.explanation_text row
                 = InsightEngine.explanation (fst r)).
Proof.
  split; [|split].
  - intros today orders insights rid days H.
    destruct (explainable_analyze_cases today orders insights rid days)
      as [[_ E]|[Hcur [Hcomp _]]]; [exact E|exfalso].
    destruct H as [H|H].
    + apply Hcur. apply filter_nil_iff. intros o Ho.
      destruct (_ && _ && _) eqn:E; [|reflexivity].
      exfalso. apply (H o Ho).
      apply andb_prop in E. destruct E as [E E3].
      apply andb_prop in E. destruct E as [E1 E2].
      split; [apply Z.eqb_eq; exact E1|]. split.
      * apply Z.leb_le. exact E2.
      * apply Z.leb_le. exact E3.
    + apply Hcomp. apply filter_nil_iff. intros o Ho.
      destruct (_ && _ && _) eqn:E; [|reflexivity].
      exfalso. apply (H o Ho).
      apply andb_prop in E. destruct E as [E E3].
      apply andb_prop in E. destruct E as [E1 E2].
      split; [apply Z.eqb_eq; exact E1|]. split.
      * apply Z.leb_le. exact E2.
      * apply Z.ltb_lt. exact E3.
  - intros today orders insights rid days insight Hres.
    destruct (explainable_analyze_cases today orders insights rid days)
      as [[_ E]|[Hcur [Hcomp [t [i' [row [md [E _]]]]]]]];
      rewrite E in Hres |- *; cbn [fst snd] in Hres |- *; [discriminate|].
    split; [|split; [|exists row; reflexivity]].
    + match type of Hcur with
      | List.filter ?f _ <> [] =>
          destruct (List.filter f orders) as [|o l] eqn:Ef;
            [contradiction|]
      end.
      assert (Hin : In o (o :: l)) by (left; reflexivity).
      rewrite <- Ef in Hin. apply filter_In in Hin. destruct Hin as [Hin Ho].
      exists o. split; [exact Hin|].
      apply andb_prop in Ho. destruct Ho as [Ho E3].
      apply andb_prop in Ho. destruct Ho as [E1 E2].
      split; [apply Z.eqb_eq; exact E1|]. split.
      * apply Z.leb_le. exact E2.
      * apply Z.leb_le. exact E3.
    + match type of Hcomp with
      | List.filter ?f _ <> [] =>
          destruct (List.filter f orders) as [|o l] eqn:Ef;
            [contradiction|]
      end.
      assert (Hin : In o (o :: l)) by (left; reflexivity).
      rewrite <- Ef in Hin. apply filter_In in Hin. destruct Hin as [Hin Ho].
      exists o. split; [exact Hin|].
      apply andb_prop in Ho. destruct Ho as [Ho E3].
      apply andb_prop in Ho. destruct Ho as [E1 E2].
      split; [apply Z.eqb_eq; exact E1|]. split.
      * apply Z.leb_le. exact E2.
      * apply Z.ltb_lt. exact E3.
  - intros today txs insights rid cd cpd _ Hnone. cbv zeta.
    unfold InsightEngine.analyzeRevenueChange. cbv zeta. cbn [fst snd].
    assert (Hcomp : InsightEngine.currentQuery txs rid
                      (isoDate (subDays (subDays today cd) cpd))
                      (isoDate (subDays today cd)) = []).
    { unfold InsightEngine.currentQuery. cbv zeta.
      assert (Hsel : List.filter
                (fun r => (restaurant_id r =? rid)%Z
                          && date_between (timestamp r)
                               (isoDate (subDays (subDays today cd) cpd))
                               (isoDate (subDays today cd))) txs = []).
      { apply filter_nil_iff. intros t Ht.
        destruct (restaurant_id t =? rid)%Z eqn:Er; [|reflexivity].
        apply Z.eqb_eq in Er. cbn [andb]. apply Hnone; assumption. }
      rewrite Hsel. reflexivity. }
    rewrite Hcomp.
    destruct (decompose_empty_comparison
                (InsightEngine.currentQuery txs rid
                   (isoDate (subDays today cd)) (isoDate today)))
      as [H1 [H2 [H3 H4]]].
    repeat (split; [assumption|]).
    eexists. repeat split.
Qed.

Lemma analyzeRevenueChange_zero_orders_witness :
  ExplainableInsightEngine.analyzeRevenueChange (Samples.day 100)
    Samples.orders_current_only [] 1 7 = (None, []).
Proof.
  apply (proj1 analyzeRevenueChange_zero_orders (Samples.day 100)
           Samples.orders_current_only [] 1%Z 7%Z).
  right. intros o [ <- | [] ] [_ [_ H]]. vm_compute in H. discriminate H.
Defined.

(** C8, as stated, fails on the SQLite engine: with transactions in the
    current week only, [analyzeRevenueChange] returns a decomposition (the
    whole change booked as mix effect) and stores it as an insight. *)
Lemma analyzeRevenueChange_empty_comparison_decomposes :
  InsightEngine.currentQuery Samples.txs_current_only 1
    (isoDate (subDays (subDays (Samples.day 100) 7) 7))
    (isoDate (subDays (Samples.day 100) 7)) = []
  /\ (let r := InsightEngine.analyzeRevenueChange (Samples.day 100)
                 Samples.txs_current_only [] 1 7 7 in
      InsightEngine.revenueChange (fst r) = Fin 200
      /\ InsightEngine.mixEffect (InsightEngine.decomposition (fst r))
         = Fin 200
      /\ InsightEngine.explanation (fst r)
         = "Revenue increased primarily because product mix changed."
      /\ length (snd r) = 1%nat).
Proof. vm_compute. repeat split. Qed.

(** ** Decisions *)

(** A range built from a non-negative impact is ordered. *)
Lemma range_ordered_nonneg (impact lo hi conf : Q) :
  (0 <= impact)%Q -> (lo <= hi)%Q ->
  (DecisionsRoute.min (DecisionsRoute.range (Fin impact) (Fin lo) (Fin hi)
                         (Fin conf))
   <=? DecisionsRoute.max (DecisionsRoute.range (Fin impact) (Fin lo) (Fin hi)
                             (Fin conf)))%num = true.
Proof.
  intros Hi Hlh.
  change (Qle_bool (inject_Z (Qfloor (impact * lo + (1 # 2))))
            (inject_Z (Qfloor (impact * hi + (1 # 2)))) = true).
  apply Qle_bool_iff. rewrite <- Zle_Qle.
  apply Qfloor_resp_le. apply Qplus_le_l.
  rewrite (Qmult_comm impact lo), (Qmult_comm impact hi).
  apply Qmult_le_compat_r; assumption.
Qed.

(** C5 fails on the code: a popular dish sold at 100 that costs 10, with
    8 units sold, gets a Reprice decision whose predicted impact is
    negative, and scaling a negative impact by 0.8 and 1.1 puts the larger
    bound in [min]: [min = -72] and [max = -99]. *)
Theorem reprice_impact_min_exceeds_max :
  exists d : DecisionsRoute.Decision,
    DecisionsRoute.GET [Samples.plowhorse] Samples.orders_plowhorse = [d]
    /\ DecisionsRoute.action d = DecisionsRoute.Reprice
    /\ DecisionsRoute.min (DecisionsRoute.impact d) = Fin (-72)
    /\ DecisionsRoute.max (DecisionsRoute.impact d) = Fin (-99)
    /\ (DecisionsRoute.min (DecisionsRoute.impact d)
        <=? DecisionsRoute.max (DecisionsRoute.impact d))%num = false.
Proof.
  eexists. split; [vm_compute; reflexivity|]. repeat split.
Qed.

(** ** Menu engineering *)

(** C6: the quadrant rule.  Every pair of a popularity and a margin gets
    exactly one category, the one the thresholds 50 and 680 give it, a
    value on a threshold counting as high: Stars for popularity >= 50 and
    margin >= 680, Plowhorses for popularity >= 50 and margin < 680, Puzzles
    for popularity < 50 and margin >= 680, Dogs otherwise; popularity 50
    with margin 680 is a Star. *)
Theorem categorize_quadrants (p m : Q) :
  (MenuEngineeringRoute.categorize (Fin p) (Fin m) = MenuEngineeringRoute.Stars
   <-> (50 <= p /\ 680 <= m)%Q)
  /\ (MenuEngineeringRoute.categorize (Fin p) (Fin m)
      = MenuEngineeringRoute.Plowhorses
      <-> (50 <= p /\ m < 680)%Q)
  /\ (MenuEngineeringRoute.categorize (Fin p) (Fin m)
      = MenuEngineeringRoute.Puzzles
      <-> (p < 50 /\ 680 <= m)%Q)
  /\ (MenuEngineeringRoute.categorize (Fin p) (Fin m)
      = MenuEngineeringRoute.Dogs
      <-> (p < 50 /\ m < 680)%Q)
  /\ MenuEngineeringRoute.categorize (Fin 50) (Fin 680)
     = MenuEngineeringRoute.Stars.
Proof.
  unfold MenuEngineeringRoute.categorize, num_ge, num_le, num_lt, Qltb.
  destruct (Qle_bool 50 p) eqn:Ep; destruct (Qle_bool 680 m) eqn:Em;
    simpl;
    try (apply Qle_bool_iff in Ep); try (apply Qle_bool_false in Ep);
    try (apply Qle_bool_iff in Em); try (apply Qle_bool_false in Em);
    (repeat split; try reflexivity; try discriminate; try assumption;
     try (intros [Hp Hm]; exfalso;
          first [ exact (Qlt_not_le _ _ Hp Ep)
                | exact (Qlt_not_le _ _ Hm Em)
                | exact (Qlt_not_le _ _ Ep Hp)
                | exact (Qlt_not_le _ _ Em Hm) ])).
Qed.

Lemma categorize_quadrants_witness :
  MenuEngineeringRoute.categorize (Fin 75) (Fin 300)
  = MenuEngineeringRoute.Plowhorses.
Proof.
  apply (proj2 (proj1 (proj2 (categorize_quadrants 75 300)))).
  split; [vm_compute; discriminate|reflexivity].
Defined.

(** Every entry of the route is classified by [categorize]. *)
Lemma GET_classifies (menuItems : list Prisma.MenuItem)
    (orders : list Prisma.Order) (e : MenuEngineeringRoute.MenuEngineering) :
  In e (MenuEngineeringRoute.GET menuItems orders) ->
  exists popularity,
    MenuEngineeringRoute.engineeringCategory e
    = MenuEngineeringRoute.categorize popularity (MenuEngineeringRoute.margin e)
    /\ MenuEngineeringRoute.popularity e = Math_round popularity.
Proof.
  unfold MenuEngineeringRoute.GET. cbv zeta. intros H.
  apply in_map_iff in H. destruct H as [m [<- _]].
  eexists. split; reflexivity.
Qed.

(** ** Baselines *)

(** [findFirst] finds nothing when no stored row of the item ends at the
    instant asked for. *)
Lemma findFirst_none (rows : list ComputationEngine.ItemBaseline)
    (itemId : string) (periodEnd : Z) :
  (forall b, In b rows -> ComputationEngine.menuItemId b = itemId ->
             ComputationEngine.periodEnd b <> periodEnd) ->
  ComputationEngine.findFirst rows itemId periodEnd = None.
Proof.
  intros H. unfold ComputationEngine.findFirst.
  apply (fold_left_invariant (fun best => best = None)
           (fun b => ComputationEngine.menuItemId b = itemId ->
                     ComputationEngine.periodEnd b <> periodEnd)).
  - apply List.Forall_forall. exact H.
  - reflexivity.
  - intros best b -> Hb.
    destruct (String.eqb (ComputationEngine.menuItemId b) itemId) eqn:E1;
      [|reflexivity].
    destruct (ComputationEngine.periodEnd b =? periodEnd)%Z eqn:E2;
      [|reflexivity].
    exfalso. apply String.eqb_eq in E1. apply Z.eqb_eq in E2.
    exact (Hb E1 E2).
Qed.

(** The Prisma engine only appends: a call leaves every stored row in
    place and adds at most one. *)
Lemma computeItemBaseline_appends (sqrt : num -> num) (now : Z)
    (orders : list Prisma.Order)
    (baselines : list ComputationEngine.ItemBaseline)
    (itemId : string) (lookbackDays : Z) :
  exists new,
    ComputationEngine.computeItemBaseline sqrt now orders baselines itemId
      lookbackDays = baselines ++ new
    /\ (length new <= 1)%nat
    /\ Forall (fun b => ComputationEngine.menuItemId b = itemId
                        /\ ComputationEngine.periodEnd b = now) new.
Proof.
  unfold ComputationEngine.computeItemBaseline. cbv zeta.
  match goal with |- context [if ?c then _ else _] => destruct c end.
  - exists []. rewrite app_nil_r. repeat split; [simpl; lia|constructor].
  - eexists [_]. split; [reflexivity|]. split; [simpl; lia|].
    constructor; [split; reflexivity|constructor].
Qed.

(** The version written restarts at 1 whenever no stored row of the item
    ends at the very instant of the call, whatever versions are stored. *)
Lemma computeItemBaseline_version_restarts (sqrt : num -> num) (now : Z)
    (orders : list Prisma.Order)
    (baselines : list ComputationEngine.ItemBaseline)
    (itemId : string) (lookbackDays : Z) :
  (forall b, In b baselines -> ComputationEngine.menuItemId b = itemId ->
             ComputationEngine.periodEnd b <> now) ->
  Forall (fun b => ComputationEngine.version b = 1%Z)
    (skipn (length baselines)
       (ComputationEngine.computeItemBaseline sqrt now orders baselines
          itemId lookbackDays)).
Proof.
  intros H. unfold ComputationEngine.computeItemBaseline. cbv zeta.
  rewrite (findFirst_none baselines itemId now H).
  match goal with |- context [if ?c then _ else _] => destruct c end.
  - rewrite skipn_all. constructor.
  - rewrite skipn_app, skipn_all, Nat.sub_diag. simpl.
    constructor; [reflexivity|constructor].
Qed.

(** C7 fails on the code: two runs of the Prisma [computeItemBaseline] for
    the same item, one millisecond apart, store two rows that both carry
    version 1. *)
Theorem computeItemBaseline_repeats_version (sqrt : num -> num) :
  map (fun b => (ComputationEngine.menuItemId b, ComputationEngine.version b))
    (ComputationEngine.computeItemBaseline sqrt (Samples.day 96 + 1)
       Samples.orders_five_days
       (ComputationEngine.computeItemBaseline sqrt (Samples.day 96)
          Samples.orders_five_days [] "m1" 30)
       "m1" 30)
  = [("m1", 1%Z); ("m1", 1%Z)].
Proof. reflexivity. Qed.

(** The SQLite engine keeps no version and replaces in place: a second run
    on the same day leaves one row, the new one. *)
Lemma analytics_computeItemBaseline_replaces (sqrt : num -> num) :
  let empty :=
    {| AnalyticsEngine.item_baselines := [];
       AnalyticsEngine.item_baselines_seq := 0 |} in
  let first :=
    snd (AnalyticsEngine.computeItemBaseline sqrt (Samples.day 97)
           Samples.txs_seven_days empty 1 1 30) in
  let second :=
    snd (AnalyticsEngine.computeItemBaseline sqrt (Samples.day 97 + 1)
           Samples.txs_seven_days first 1 1 30) in
  map AnalyticsEngine.row_id (AnalyticsEngine.item_baselines first) = [1%Z]
  /\ map AnalyticsEngine.row_id (AnalyticsEngine.item_baselines second)
     = [2%Z].
Proof. split; reflexivity. Qed.

(** * Further properties of the engines *)

(** ** Decision tracker: storing and reading decisions *)

Lemma find_app_none {A : Type} (f : A -> bool) (l l' : list A) :
  find f l = None -> find f (l ++ l') = find f l'.
Proof.
  induction l as [|a l IH]; simpl; [reflexivity|].
  destruct (f a); [discriminate|exact IH].
Qed.

Lemma find_app_some {A : Type} (f : A -> bool) (l l' : list A) (x : A) :
  find f l = Some x -> find f (l ++ l') = Some x.
Proof.
  induction l as [|a l IH]; simpl; [discriminate|].
  destruct (f a); [trivial|exact IH].
Qed.

Lemma ids_bounded_fresh (db : DecisionTracker.Db) (i : Z) :
  ids_bounded db -> (DecisionTracker.decisions_seq db < i)%Z ->
  find (fun r => (DecisionTracker.id r =? i)%Z) (DecisionTracker.decisions db)
  = None.
Proof.
  unfold ids_bounded. intros H Hi.
  induction H as [|r rows Hr _ IH]; simpl; [reflexivity|].
  destruct (DecisionTracker.id r =? i)%Z eqn:E; [|exact IH].
  apply Z.eqb_eq in E. lia.
Qed.

(** X1: a logged recommendation can be read back.  In a store whose ids do
    not exceed the counter, [logRecommendation] of a decision whose
    predicted impact holds finite numbers returns a fresh id under which
    [getDecisionById] finds the submitted decision, stored as pending with
    no implementation date and, as creation time, the start of the second
    in which it was logged (the status and dates of the submitted object
    are ignored); every other id reads as before, and the ids still do not
    exceed the counter. *)
Theorem logRecommendation_getDecisionById (now : Z) (db : DecisionTracker.Db)
    (d : DecisionTracker.Decision) :
  ids_bounded db ->
  impact_finite (DecisionTracker.predictedImpact d) ->
  let i := fst (DecisionTracker.logRecommendation now db d) in
  let db' := snd (DecisionTracker.logRecommendation now db d) in
  DecisionTracker.getDecisionById db i = None
  /\ DecisionTracker.getDecisionById db' i
     = Some {| DecisionTracker.decisionId := Some i;
               DecisionTracker.decisionType := DecisionTracker.decisionType d;
               DecisionTracker.entityId := DecisionTracker.entityId d;
               DecisionTracker.entityType := DecisionTracker.entityType d;
               DecisionTracker.recommendation :=
                 DecisionTracker.recommendation d;
               DecisionTracker.rationale := DecisionTracker.rationale d;
               DecisionTracker.predictedImpact :=
                 DecisionTracker.predictedImpact d;
               DecisionTracker.decisionStatus := Some DecisionTracker.pending;
               DecisionTracker.implementedAt := None;
               DecisionTracker.createdAt := Some (currentTimestamp now) |}
  /\ (currentTimestamp now <= now < currentTimestamp now + 1000)%Z
  /\ (forall j, j <> i ->
        DecisionTracker.getDecisionById db' j
        = DecisionTracker.getDecisionById db j)
  /\ ids_bounded db'.
Proof.
  intros Hb _. cbv zeta. unfold DecisionTracker.logRecommendation.
  cbn [fst snd]. unfold DecisionTracker.getDecisionById.
  cbn [DecisionTracker.decisions].
  pose proof (ids_bounded_fresh db (DecisionTracker.decisions_seq db + 1)
                Hb ltac:(lia)) as Hfresh.
  split; [rewrite Hfresh; reflexivity|]. split; [|split; [|split]].
  - rewrite (find_app_none _ _ _ Hfresh). simpl. rewrite Z.eqb_refl.
    reflexivity.
  - unfold currentTimestamp.
    pose proof (Z.mod_pos_bound now 1000 ltac:(lia)) as Hm.
    pose proof (Z.div_mod now 1000 ltac:(lia)) as Hd. lia.
  - intros j Hj.
    destruct (find (fun r => (DecisionTracker.id r =? j)%Z)
                (DecisionTracker.decisions db)) as [r|] eqn:E.
    + rewrite (find_app_some _ _ _ r E). reflexivity.
    + rewrite (find_app_none _ _ _ E). simpl.
      assert (Hne : (DecisionTracker.decisions_seq db + 1 =? j)%Z = false)
        by (apply Z.eqb_neq; congruence).
      rewrite Hne. reflexivity.
  - unfold ids_bounded in *. cbn [DecisionTracker.decisions
                                   DecisionTracker.decisions_seq].
    apply Forall_app. split.
    + eapply Forall_impl; [exact Hb|]. intros r Hr. cbv beta in *. lia.
    + constructor; [simpl; lia|constructor].
Qed.

Lemma logRecommendation_getDecisionById_witness :
  DecisionTracker.getDecisionById Samples.db_pending 1
  = Some {| DecisionTracker.decisionId := Some 1%Z;
            DecisionTracker.decisionType := "reprice";
            DecisionTracker.entityId := 1;
            DecisionTracker.entityType := "item";
            DecisionTracker.recommendation := "Increase price";
            DecisionTracker.rationale := "Low margin";
            DecisionTracker.predictedImpact := Samples.impact_pct 10;
            DecisionTracker.decisionStatus := Some DecisionTracker.pending;
            DecisionTracker.implementedAt := None;
            DecisionTracker.createdAt := Some (Samples.day 10) |}.
Proof.
  refine (proj1 (proj2 (logRecommendation_getDecisionById (Samples.day 10)
                          DecisionTracker.initTables
                          (Samples.decisionFor "item") _ _))).
  - constructor.
  - apply map_Forall_insert_2; [reflexivity|apply map_Forall_empty].
Defined.

Lemma insert_by_created_desc_Permutation (r : DecisionTracker.DecisionRow)
    (l : list DecisionTracker.DecisionRow) :
  Permutation (DecisionTracker.insert_by_created_desc r l) (r :: l).
Proof.
  induction l as [|x l IH]; simpl; [reflexivity|].
  destruct (DecisionTracker.created_at x <=? DecisionTracker.created_at r)%Z;
    [reflexivity|].
  rewrite IH. apply perm_swap.
Qed.

Lemma insert_by_created_desc_Sorted (r : DecisionTracker.DecisionRow)
    (l : list DecisionTracker.DecisionRow) :
  Sorted (fun a b => (DecisionTracker.created_at b
                      <= DecisionTracker.created_at a)%Z) l ->
  Sorted (fun a b => (DecisionTracker.created_at b
                      <= DecisionTracker.created_at a)%Z)
    (DecisionTracker.insert_by_created_desc r l).
Proof.
  induction 1 as [|x l Hl IH Hhd]; simpl.
  - repeat constructor.
  - destruct (DecisionTracker.created_at x <=? DecisionTracker.created_at r)%Z
      eqn:E.
    + apply Z.leb_le in E. constructor; [constructor; assumption|].
      constructor. exact E.
    + apply Z.leb_gt in E. apply Z.lt_le_incl in E.
      constructor; [exact IH|].
      destruct l as [|y l]; simpl.
      * constructor. exact E.
      * destruct (DecisionTracker.created_at y
                  <=? DecisionTracker.created_at r)%Z.
        -- constructor. exact E.
        -- constructor. inversion Hhd; subst. assumption.
Qed.

Lemma sort_by_created_desc (rows : list DecisionTracker.DecisionRow) :
  Permutation (fold_right DecisionTracker.insert_by_created_desc [] rows) rows
  /\ Sorted (fun a b => (DecisionTracker.created_at b
                         <= DecisionTracker.created_at a)%Z)
       (fold_right DecisionTracker.insert_by_created_desc [] rows).
Proof.
  split.
  - induction rows as [|r rows IH]; simpl; [reflexivity|].
    rewrite insert_by_created_desc_Permutation, IH. reflexivity.
  - induction rows as [|r rows IH]; simpl; [constructor|].
    apply insert_by_created_desc_Sorted, IH.
Qed.

Lemma pending_rows_Permutation (db : DecisionTracker.Db) (rid : Z) :
  Permutation (DecisionTracker.getPendingDecisions db rid)
    (map (pending_view rid)
       (List.filter (is_pending_for rid) (DecisionTracker.decisions db))).
Proof.
  unfold DecisionTracker.getPendingDecisions. cbv zeta.
  fold (is_pending_for rid). fold (pending_view rid).
  apply Permutation_map, sort_by_created_desc.
Qed.

(** The ids listed by [getPendingDecisions] are the ids of the pending rows
    of the entity. *)
Lemma pending_ids (db : DecisionTracker.Db) (rid j : Z) :
  In (Some j)
    (map DecisionTracker.decisionId
       (DecisionTracker.getPendingDecisions db rid))
  <-> exists r, In r (DecisionTracker.decisions db)
                /\ DecisionTracker.id r = j
                /\ is_pending_for rid r = true.
Proof.
  split.
  - intros H. apply in_map_iff in H. destruct H as [d [Hd Hin]].
    apply (Permutation_in _ (pending_rows_Permutation db rid)) in Hin.
    apply in_map_iff in Hin. destruct Hin as [r [<- Hr]].
    apply filter_In in Hr. destruct Hr as [Hr Hp].
    exists r. injection Hd as Hd. repeat split; assumption.
  - intros [r [Hr [<- Hp]]]. apply in_map_iff.
    exists (pending_view rid r). split; [reflexivity|].
    apply (Permutation_in _ (Permutation_sym (pending_rows_Permutation db rid))).
    apply in_map. apply filter_In. split; assumption.
Qed.

(** X2: [getPendingDecisions] returns, newest first, exactly the stored
    rows that are pending and whose entity id is the id asked for, each as
    a decision of entity type ['restaurant'] (whatever type is stored) and
    without implementation date. *)
Theorem getPendingDecisions_pending_rows (db : DecisionTracker.Db) (rid : Z) :
  Permutation (DecisionTracker.getPendingDecisions db rid)
    (map (pending_view rid)
       (List.filter (is_pending_for rid) (DecisionTracker.decisions db)))
  /\ Sorted not_older (DecisionTracker.getPendingDecisions db rid).
Proof.
  split; [apply pending_rows_Permutation|].
  unfold DecisionTracker.getPendingDecisions. cbv zeta.
  fold (is_pending_for rid). fold (pending_view rid).
  pose proof (proj2 (sort_by_created_desc
                       (List.filter (is_pending_for rid)
                          (DecisionTracker.decisions db)))) as Hsorted.
  induction Hsorted as [|x l Hl IH Hhd]; simpl; constructor; [exact IH|].
  destruct Hhd; simpl; constructor. exact H.
Qed.

Lemma getDecisionById_update (now : Z) (db : DecisionTracker.Db) (i j : Z)
    (st : DecisionTracker.Status) :
  DecisionTracker.getDecisionById
    (DecisionTracker.updateDecisionStatus now db i st) j
  = option_map (fun d => if (j =? i)%Z then with_status now st d else d)
      (DecisionTracker.getDecisionById db j).
Proof.
  unfold DecisionTracker.getDecisionById.
  assert (Hfind : forall r, find (fun r => (DecisionTracker.id r =? j)%Z)
                              (DecisionTracker.decisions db) = Some r ->
                            (DecisionTracker.id r =? i)%Z = (j =? i)%Z).
  { intros r Hr. apply find_some in Hr. destruct Hr as [_ Hr].
    apply Z.eqb_eq in Hr. rewrite Hr. reflexivity. }
  destruct st; simpl; rewrite find_update_where_id by reflexivity;
    destruct (find _ (DecisionTracker.decisions db)) as [r|] eqn:E;
    simpl; try reflexivity;
    rewrite (Hfind r eq_refl); destruct (j =? i)%Z; reflexivity.
Qed.

(** X3: the whole effect of [updateDecisionStatus] on a stored decision.
    The decision it names reads back with the new status and every other
    field as before, except that a move to ['implemented'] stamps the
    implementation date with the current time; no other move writes or
    clears that date, so a decision moved on from ['implemented'] keeps it.
    Every other decision reads as before. *)
Theorem updateDecisionStatus_getDecisionById (now : Z)
    (db : DecisionTracker.Db) (i : Z) (st : DecisionTracker.Status)
    (d : DecisionTracker.Decision) :
  DecisionTracker.getDecisionById db i = Some d ->
  DecisionTracker.getDecisionById
    (DecisionTracker.updateDecisionStatus now db i st) i
  = Some (with_status now st d)
  /\ (forall j, j <> i ->
        DecisionTracker.getDecisionById
          (DecisionTracker.updateDecisionStatus now db i st) j
        = DecisionTracker.getDecisionById db j)
  /\ (forall later st',
        st' <> DecisionTracker.implemented ->
        option_map DecisionTracker.implementedAt
          (DecisionTracker.getDecisionById
             (DecisionTracker.updateDecisionStatus later
                (DecisionTracker.updateDecisionStatus now db i
                   DecisionTracker.implemented) i st') i)
        = Some (Some now)).
Proof.
  intros Hd. split; [|split].
  - rewrite getDecisionById_update, Hd. simpl. rewrite Z.eqb_refl.
    reflexivity.
  - intros j Hj. rewrite getDecisionById_update.
    apply Z.eqb_neq in Hj. rewrite Hj.
    destruct (DecisionTracker.getDecisionById db j); reflexivity.
  - intros later st' Hst'. rewrite !getDecisionById_update, Hd. simpl.
    rewrite Z.eqb_refl. simpl. destruct st'; try reflexivity.
    contradiction.
Qed.

Lemma updateDecisionStatus_getDecisionById_witness :
  option_map DecisionTracker.implementedAt
    (DecisionTracker.getDecisionById Samples.db_implemented 1)
  = Some (Some (Samples.day 20)).
Proof.
  refine (f_equal (option_map DecisionTracker.implementedAt)
            (proj1 (updateDecisionStatus_getDecisionById (Samples.day 20)
                      Samples.db_pending 1 DecisionTracker.implemented
                      _ _))).
  reflexivity.
Defined.

(** X4: a status update and the pending list.  After a move to any status
    but ['pending'] the decision is not listed by [getPendingDecisions];
    after a move to ['pending'], from any status, a decision of that entity
    is listed again; the other decisions are listed as before. *)
Theorem updateDecisionStatus_pending_list (now : Z) (db : DecisionTracker.Db)
    (i rid : Z) (st : DecisionTracker.Status) :
  let db' := DecisionTracker.updateDecisionStatus now db i st in
  let listed (db : DecisionTracker.Db) (j : Z) :=
    In (Some j)
      (map DecisionTracker.decisionId
         (DecisionTracker.getPendingDecisions db rid)) in
  (st <> DecisionTracker.pending -> ~ listed db' i)
  /\ (st = DecisionTracker.pending ->
      (exists r, In r (DecisionTracker.decisions db)
                 /\ DecisionTracker.id r = i
                 /\ DecisionTracker.entity_id r = rid) ->
      listed db' i)
  /\ (forall j, j <> i -> listed db' j <-> listed db j).
Proof.
  cbv zeta.
  assert (Hrows : DecisionTracker.decisions
                    (DecisionTracker.updateDecisionStatus now db i st)
                  = map (fun r => if (DecisionTracker.id r =? i)%Z
                                  then match st with
                                       | DecisionTracker.implemented =>
                                           DecisionTracker.set_status_implemented_at st now r
                                       | _ => DecisionTracker.set_status st r
                                       end
                                  else r)
                      (DecisionTracker.decisions db)).
  { destruct st; reflexivity. }
  split; [|split].
  - intros Hst H. apply pending_ids in H. destruct H as [r' [Hin [Hid Hp]]].
    rewrite Hrows in Hin. apply in_map_iff in Hin.
    destruct Hin as [r [<- _]].
    destruct (DecisionTracker.id r =? i)%Z eqn:E.
    + unfold is_pending_for in Hp. apply andb_prop in Hp.
      destruct Hp as [_ Hp]. destruct st; simpl in Hp;
        try discriminate. contradiction.
    + apply Z.eqb_neq in E. contradiction.
  - intros -> [r [Hin [Hid Hent]]]. apply pending_ids.
    exists (DecisionTracker.set_status DecisionTracker.pending r).
    split; [|split].
    + rewrite Hrows. apply in_map_iff. exists r. split; [|exact Hin].
      apply Z.eqb_eq in Hid. rewrite Hid. reflexivity.
    + exact Hid.
    + unfold is_pending_for. simpl. rewrite Hent, Z.eqb_refl. reflexivity.
  - intros j Hj. rewrite !pending_ids. split.
    + intros [r' [Hin [Hid Hp]]]. rewrite Hrows in Hin.
      apply in_map_iff in Hin. destruct Hin as [r [<- Hin]].
      destruct (DecisionTracker.id r =? i)%Z eqn:E.
      * apply Z.eqb_eq in E. exfalso. apply Hj. rewrite <- Hid, <- E.
        destruct st; reflexivity.
      * exists r. repeat split; assumption.
    + intros [r [Hin [Hid Hp]]]. exists r. split; [|split; assumption].
      rewrite Hrows. apply in_map_iff. exists r. split; [|exact Hin].
      assert (E : (DecisionTracker.id r =? i)%Z = false)
        by (apply Z.eqb_neq; congruence).
      rewrite E. reflexivity.
Qed.

Lemma updateDecisionStatus_pending_list_witness :
  ~ In (Some 1%Z)
      (map DecisionTracker.decisionId
         (DecisionTracker.getPendingDecisions Samples.db_rejected 1)).
Proof.
  apply (proj1 (updateDecisionStatus_pending_list (Samples.day 11)
                  Samples.db_pending 1 1 DecisionTracker.rejected)).
  discriminate.
Defined.

(** ** Outcome evaluator: measuring and logging *)

Lemma impact_record_lookup (c b a : num) :
  OutcomeEvaluator.impact_record c b a !! "revenue_change_pct" = Some c
  /\ OutcomeEvaluator.impact_record c b a !! "before_revenue" = Some b
  /\ OutcomeEvaluator.impact_record c b a !! "after_revenue" = Some a.
Proof.
  unfold OutcomeEvaluator.impact_record. repeat split.
Qed.

Lemma impact_record_measured (b a : num) :
  measured_impact
    (OutcomeEvaluator.impact_record (OutcomeEvaluator.revenue_change_pct b a)
       b a).
Proof.
  exists b, a.
  pose proof (impact_record_lookup
                (OutcomeEvaluator.revenue_change_pct b a) b a) as Hl.
  repeat split; apply Hl.
Qed.

Lemma measureItemImpact_measured (now : Z) (txs : list Transaction)
    (itemId t : Z) :
  measured_impact (OutcomeEvaluator.measureItemImpact now txs itemId t).
Proof.
  unfold OutcomeEvaluator.measureItemImpact. cbv zeta.
  apply impact_record_measured.
Qed.

Lemma measureRestaurantImpact_measured (now : Z) (txs : list Transaction)
    (restaurantId t : Z) :
  measured_impact
    (OutcomeEvaluator.measureRestaurantImpact now txs restaurantId t).
Proof.
  unfold OutcomeEvaluator.measureRestaurantImpact. cbv zeta.
  apply impact_record_measured.
Qed.



(** X5: the impact measured for an item (when the quantities are small
    enough for the integer [SUM] of the query) and for the restaurant is an
    object with the keys [before_revenue], [after_revenue] and
    [revenue_change_pct]; the percent change is the value of
    [((after - before) / before) * 100] when the revenue before is above 0
    and is 0 otherwise, so the division is never by a zero revenue.  When
    no transaction of the item (of the restaurant) is dated in the 14 days
    up to the implementation, the revenue before and the percent change are
    both 0. *)
Theorem measured_impacts (now : Z) (txs : list Transaction) (entityId t : Z) :
  (quantities_fit_int64 txs ->
   measured_impact (OutcomeEvaluator.measureItemImpact now txs entityId t)
   /\ ((forall r, In r txs -> item_id r = entityId ->
                  date_between (timestamp r) (isoDate (subDays t 14))
                    (isoDate t) = false) ->
       OutcomeEvaluator.measureItemImpact now txs entityId t
         !! "before_revenue" = Some n0
       /\ OutcomeEvaluator.measureItemImpact now txs entityId t
            !! "revenue_change_pct" = Some n0))
  /\ measured_impact
       (OutcomeEvaluator.measureRestaurantImpact now txs entityId t)
  /\ ((forall r, In r txs -> restaurant_id r = entityId ->
                 date_between (timestamp r) (isoDate (subDays t 14))
                   (isoDate t) = false) ->
      OutcomeEvaluator.measureRestaurantImpact now txs entityId t
        !! "before_revenue" = Some n0
      /\ OutcomeEvaluator.measureRestaurantImpact now txs entityId t
           !! "revenue_change_pct" = Some n0).
Proof.
  split; [intros _; split|split].
  - apply measureItemImpact_measured.
  - intros H. unfold OutcomeEvaluator.measureItemImpact. cbv zeta.
    rewrite (proj2 (filter_nil_iff _ txs)).
    + split; reflexivity.
    + intros r Hr. destruct (Z.eqb_spec (item_id r) entityId) as [E|E];
        [rewrite (H r Hr E)|]; reflexivity.
  - apply measureRestaurantImpact_measured.
  - intros H. unfold OutcomeEvaluator.measureRestaurantImpact. cbv zeta.
    rewrite (proj2 (filter_nil_iff _ txs)).
    + split; reflexivity.
    + intros r Hr. destruct (Z.eqb_spec (restaurant_id r) entityId) as [E|E];
        [rewrite (H r Hr E)|]; reflexivity.
Qed.

Lemma measured_impacts_witness :
  measured_impact
    (OutcomeEvaluator.measureItemImpact (Samples.day 30) Samples.txs_item1 1
       (Samples.day 20))
  /\ ((forall r, In r Samples.txs_item1 -> item_id r = 1%Z ->
                 date_between (timestamp r)
                   (isoDate (subDays (Samples.day 20) 14))
                   (isoDate (Samples.day 20)) = false) ->
      OutcomeEvaluator.measureItemImpact (Samples.day 30) Samples.txs_item1 1
        (Samples.day 20) !! "before_revenue" = Some n0
      /\ OutcomeEvaluator.measureItemImpact (Samples.day 30)
           Samples.txs_item1 1 (Samples.day 20)
           !! "revenue_change_pct" = Some n0).
Proof.
  apply (proj1 (measured_impacts (Samples.day 30) Samples.txs_item1 1
                  (Samples.day 20))).
  vm_compute. reflexivity.
Defined.







(** ** Revenue decomposition over the SQLite store: percentages and text *)



Section Binary64Percentages.
Import PrimFloat.


End Binary64Percentages.




(** ** Grouping keys *)

Lemma insert_key_In (k y : Z) (ks : list Z) :
  In y (insert_key k ks) <-> y = k \/ In y ks.
Proof.
  induction ks as [|x ks IH]; simpl.
  - intuition.
  - destruct (k <? x)%Z eqn:E1; [simpl; intuition|].
    destruct (k =? x)%Z eqn:E2.
    + apply Z.eqb_eq in E2. subst x. simpl. intuition.
    + simpl. rewrite IH. intuition.
Qed.


Lemma insert_key_sorted (k : Z) (ks : list Z) :
  StronglySorted Z.lt ks -> StronglySorted Z.lt (insert_key k ks).
Proof.
  induction 1 as [|x ks Hs IH Hx]; simpl.
  - constructor; constructor.
  - destruct (k <? x)%Z eqn:E1.
    + apply Z.ltb_lt in E1. constructor; [constructor; assumption|].
      constructor; [exact E1|].
      eapply List.Forall_impl; [|exact Hx]. intros a Ha. simpl in Ha. lia.
    + destruct (k =? x)%Z eqn:E2; [constructor; assumption|].
      apply Z.ltb_ge in E1. apply Z.eqb_neq in E2.
      constructor; [exact IH|].
      apply List.Forall_forall. intros a Ha.
      apply insert_key_In in Ha. destruct Ha as [->|Ha]; [lia|].
      rewrite List.Forall_forall in Hx. apply Hx. exact Ha.
Qed.

Lemma group_keys_sorted (ks : list Z) : StronglySorted Z.lt (group_keys ks).
Proof.
  unfold group_keys. induction ks as [|k ks IH]; simpl; [constructor|].
  apply insert_key_sorted. exact IH.
Qed.

(** ** Price elasticity over the SQLite store *)

Lemma changes_loop_finite (prev : InsightEngine.PriceRow)
    (rest : list InsightEngine.PriceRow) :
  Forall (fun r => finite (InsightEngine.day_avg_price r)
                   /\ finite (InsightEngine.total_qty r)) (prev :: rest) ->
  Forall (fun pq => finite (fst pq) /\ finite (snd pq))
    (InsightEngine.changes_loop prev rest).
Proof.
  revert prev.
  induction rest as [|curr rest IH]; intros prev H;
    cbn [InsightEngine.changes_loop].
  - constructor.
  - inversion H as [|? ? [Hp1 Hp2] H']; subst.
    pose proof H' as H''.
    inversion H' as [|? ? [Hc1 Hc2] _]; subst.
    apply Forall_app. split; [|apply IH; exact H''].
    destruct (InsightEngine.day_avg_price prev >? n0)%num eqn:E1;
      [|constructor].
    destruct (InsightEngine.total_qty prev >? n0)%num eqn:E2;
      [|constructor].
    cbn [andb]. cbv zeta.
    destruct (num_abs _ >? Fin (1 # 100))%num; [|constructor].
    constructor; [|constructor]. cbn [fst snd]. split.
    + apply finite_div; [apply finite_sub; assumption|assumption|].
      apply gt0_nonzero. exact E1.
    + apply finite_div; [apply finite_sub; assumption|assumption|].
      apply gt0_nonzero. exact E2.
Qed.

Lemma of_nat_nonzero (n : nat) : (0 < n)%nat -> (of_nat n =? n0)%num = false.
Proof.
  intros H. apply Qeq_bool_false. intros E.
  unfold Qeq in E. simpl in E. lia.
Qed.

Lemma elasticityOf_finite (data : list InsightEngine.PriceRow) (e : num) :
  Forall (fun r => finite (InsightEngine.day_avg_price r)
                   /\ finite (InsightEngine.total_qty r)) data ->
  InsightEngine.elasticityOf data = Some e ->
  finite e /\ (10 <= length data)%nat.
Proof.
  intros Hdata. unfold InsightEngine.elasticityOf.
  destruct (length data <? 10)%nat eqn:E10; [discriminate|].
  apply Nat.ltb_ge in E10. cbv zeta.
  set (changes := match data with
                  | [] => []
                  | first :: rest => InsightEngine.changes_loop first rest
                  end).
  assert (Hch : Forall (fun pq => finite (fst pq) /\ finite (snd pq)) changes).
  { subst changes. destruct data as [|first rest]; [constructor|].
    apply changes_loop_finite. exact Hdata. }
  destruct (length changes =? 0)%nat; [discriminate|].
  set (es := List.filter _ _).
  assert (Hes : Forall finite es).
  { subst es. apply List.Forall_forall. intros x Hx.
    apply filter_In in Hx. destruct Hx as [Hx _].
    apply in_map_iff in Hx. destruct Hx as [pq [<- Hpq]].
    rewrite List.Forall_forall in Hch. destruct (Hch pq Hpq) as [H1 H2].
    unfold num_neqb.
    destruct (fst pq =? n0)%num eqn:E; simpl; [reflexivity|].
    apply finite_div; assumption. }
  destruct (0 <? length es)%nat eqn:El; [|discriminate].
  apply Nat.ltb_lt in El.
  intros H. injection H as <-. split; [|exact E10].
  apply finite_div.
  - apply (fold_left_invariant finite finite); [exact Hes|reflexivity|].
    intros a b Ha Hb. apply finite_add; assumption.
  - apply finite_of_nat.
  - apply of_nat_nonzero. exact El.
Qed.

Lemma priceQuery_finite (txs : list Transaction) (itemId restaurantId : Z) :
  Forall (fun r => finite (InsightEngine.day_avg_price r)
                   /\ finite (InsightEngine.total_qty r))
    (InsightEngine.priceQuery txs itemId restaurantId).
Proof.
  unfold InsightEngine.priceQuery. cbv zeta.
  apply List.Forall_forall. intros r Hr.
  apply in_map_iff in Hr. destruct Hr as [d [<- _]].
  split; reflexivity.
Qed.

(** The days on which an item of a restaurant was sold. *)
Lemma priceQuery_dates (txs : list Transaction) (itemId restaurantId : Z) :
  map InsightEngine.price_date
    (InsightEngine.priceQuery txs itemId restaurantId)
  = group_keys
      (map (fun r => isoDate (timestamp r))
         (List.filter (fun r => (item_id r =? itemId)%Z
                                && (restaurant_id r =? restaurantId)%Z)
            txs)).
Proof.
  unfold InsightEngine.priceQuery. cbv zeta.
  rewrite map_map. cbn [InsightEngine.price_date]. apply map_id.
Qed.

(** X11: a price elasticity is returned only for an item that was sold
    in the restaurant on at least ten distinct days. *)
Theorem calculatePriceElasticity_needs_ten_days (txs : list Transaction)
    (itemId restaurantId : Z) (e : num) :
  InsightEngine.calculatePriceElasticity txs itemId restaurantId = Some e ->
  (10 <= length
           (group_keys
              (map (fun r => isoDate (timestamp r))
                 (List.filter
                    (fun r => (item_id r =? itemId)%Z
                              && (restaurant_id r =? restaurantId)%Z)
                    txs))))%nat.
Proof.
  intros H. unfold InsightEngine.calculatePriceElasticity in H.
  apply elasticityOf_finite in H; [|apply priceQuery_finite].
  destruct H as [_ Hl].
  rewrite <- priceQuery_dates, length_map. exact Hl.
Qed.

Lemma calculatePriceElasticity_needs_ten_days_witness :
  InsightEngine.calculatePriceElasticity Samples.txs_ten_days 1 1
  = Some (Fin (-200 # 100))
  /\ (10 <= length
              (group_keys
                 (map (fun r => isoDate (timestamp r))
                    (List.filter
                       (fun r => (item_id r =? 1)%Z
                                 && (restaurant_id r =? 1)%Z)
                       Samples.txs_ten_days))))%nat.
Proof.
  assert (H : InsightEngine.calculatePriceElasticity Samples.txs_ten_days 1 1
              = Some (Fin (-200 # 100))) by (vm_compute; reflexivity).
  split; [exact H|].
  exact (calculatePriceElasticity_needs_ten_days Samples.txs_ten_days 1 1
           (Fin (-200 # 100)) H).
Defined.







(** ** The insights of the explainable engine *)

(** [Math.abs(x || 0)] compares with a bound as [Math.abs(x)] does. *)
Lemma abs_or0_gt (x : num) (c : Q) :
  finite x ->
  (num_abs (prop_or0 (Some x)) >? Fin c)%num = (num_abs x >? Fin c)%num.
Proof.
  destruct x as [q| | |]; try discriminate. intros _.
  cbn [prop_or0]. unfold num_or, truthy.
  destruct (Qeq_bool q 0) eqn:E; [|reflexivity].
  cbn [negb]. apply Qeq_bool_iff in E.
  unfold n0. cbn [num_abs]. unfold num_gt, num_lt.
  destruct (Qltb c (Qabs q)) eqn:E1.
  - apply Qltb_lt in E1. apply Qltb_lt. rewrite E in E1. exact E1.
  - apply Qltb_ge in E1. apply Qltb_ge. rewrite E in E1. exact E1.
Qed.

(** What an insight returned by [analyzeRevenueChange] is made of. *)
Lemma explainable_insight_parts (today : Z) (orders : list Prisma.Order)
    (insights : list ExplainableInsightEngine.InsightRow) (rid days : Z)
    (ins : ExplainableInsightEngine.DecomposedInsight) :
  let cur :=
    List.filter (fun o => (Prisma.restaurantId o =? rid)%Z
                     && (subDays today days <=? Prisma.timestamp o)%Z
                     && (Prisma.timestamp o <=? today)%Z) orders in
  let comp :=
    List.filter (fun o => (Prisma.restaurantId o =? rid)%Z
                     && (subDays (subDays today days) days
                         <=? Prisma.timestamp o)%Z
                     && (Prisma.timestamp o <? subDays today days)%Z) orders in
  fst (ExplainableInsightEngine.analyzeRevenueChange today orders insights
         rid days) = Some ins ->
  (0 < length cur)%nat /\ (0 < length comp)%nat
  /\ exists (t : Q) (pct : num) (row : ExplainableInsightEngine.InsightRow),
      finite pct
      /\ option_map ExplainableInsightEngine.percentChange
           (ExplainableInsightEngine.metadata ins) = Some pct
      /\ ExplainableInsightEngine.causalFactors ins
         = ExplainableInsightEngine.sort_factors
             (ExplainableInsightEngine.factors
                (ExplainableInsightEngine.decomposeRevenueChange cur comp
                   (Fin t)))
      /\ ExplainableInsightEngine.recommendation ins
         = ExplainableInsightEngine.generateRecommendation
             (ExplainableInsightEngine.causalFactors ins) pct
      /\ ExplainableInsightEngine.sampleSize ins
         = (of_nat (length cur) + of_nat (length comp))%num
      /\ ExplainableInsightEngine.confidenceScore ins
         = ExplainableInsightEngine.calculateConfidenceScore
             (of_nat (length cur) + of_nat (length comp))%num
             (of_nat (length cur)) (of_nat (length comp))
      /\ snd (ExplainableInsightEngine.analyzeRevenueChange today orders
                insights rid days) = insights ++ [row]
      /\ ExplainableInsightEngine.severity row
         = (if (num_abs pct >? Fin 20)%num then "critical"
            else if (num_abs pct >? Fin 10)%num then "warning"
            else "info")
      /\ ExplainableInsightEngine.expiresAt row = (today + 7 * msPerDay)%Z
      /\ ExplainableInsightEngine.insightRestaurantId row = rid
      /\ ExplainableInsightEngine.rowCausalFactors row
         = ExplainableInsightEngine.causalFactors ins
      /\ ExplainableInsightEngine.rowRecommendation row
         = ExplainableInsightEngine.recommendation ins
      /\ ExplainableInsightEngine.rowConfidenceScore row
         = ExplainableInsightEngine.confidenceScore ins
      /\ ExplainableInsightEngine.rowSampleSize row
         = ExplainableInsightEngine.sampleSize ins.
Proof.
  intros cur comp.
  unfold ExplainableInsightEngine.analyzeRevenueChange. cbv zeta.
  fold cur. fold comp.
  destruct ((length cur =? 0)%nat || (length comp =? 0)%nat) eqn:Hguard;
    [discriminate|].
  apply orb_false_iff in Hguard. destruct Hguard as [Hc Hp].
  apply Nat.eqb_neq in Hc. apply Nat.eqb_neq in Hp.
  cbn [fst snd]. intros H. injection H as <-.
  split; [lia|]. split; [lia|].
  set (curRev := sum_by (fun o => Fin (Prisma.totalAmount o)) cur).
  set (compRev := sum_by (fun o => Fin (Prisma.totalAmount o)) comp).
  assert (Hcr : finite curRev).
  { apply finite_sum_by, Forall_forall. intros; reflexivity. }
  assert (Hpr : finite compRev).
  { apply finite_sum_by, Forall_forall. intros; reflexivity. }
  assert (Ht : finite (curRev - compRev)%num) by (apply finite_sub; assumption).
  assert (Hpct : finite (if (compRev !=? n0)%num
                         then (((curRev - compRev) / compRev) * n100)%num
                         else n0)).
  { unfold num_neqb. destruct (compRev =? n0)%num eqn:E; [reflexivity|].
    apply finite_mul; [|reflexivity]. apply finite_div; assumption. }
  exists (qval (curRev - compRev)%num).
  eexists _, _.
  split; [exact Hpct|].
  cbn [ExplainableInsightEngine.causalFactors
         ExplainableInsightEngine.metadata
         ExplainableInsightEngine.sampleSize
         ExplainableInsightEngine.confidenceScore
         ExplainableInsightEngine.recommendation
         ExplainableInsightEngine.percentChange option_map].
  split; [reflexivity|].
  split; [rewrite <- (finite_inv _ Ht); reflexivity|].
  split; [reflexivity|].
  split; [reflexivity|].
  split; [reflexivity|].
  unfold ExplainableInsightEngine.storeInsight. cbv zeta.
  split; [reflexivity|].
  cbn [ExplainableInsightEngine.severity
         ExplainableInsightEngine.expiresAt
         ExplainableInsightEngine.insightRestaurantId
         ExplainableInsightEngine.rowCausalFactors
         ExplainableInsightEngine.rowRecommendation
         ExplainableInsightEngine.rowConfidenceScore
         ExplainableInsightEngine.rowSampleSize
         ExplainableInsightEngine.causalFactors
         ExplainableInsightEngine.metadata
         ExplainableInsightEngine.sampleSize
         ExplainableInsightEngine.confidenceScore
         ExplainableInsightEngine.recommendation
         ExplainableInsightEngine.percentChange option_map].
  split.
  { rewrite !(abs_or0_gt _ _ Hpct). reflexivity. }
  split; [unfold subDays; lia|].
  repeat split.
Qed.

Lemma Math_min_Fin (a b : Q) :
  Math_min (Fin a) (Fin b) = Fin (if Qle_bool a b then a else b).
Proof. unfold Math_min, num_le. destruct (Qle_bool a b); reflexivity. Qed.

(** The confidence of two non-empty samples is positive and at most 0.85. *)
Lemma calculateConfidenceScore_range (n m : nat) :
  (0 < n)%nat -> (0 < m)%nat ->
  exists q : Q,
    ExplainableInsightEngine.calculateConfidenceScore
      (of_nat n + of_nat m)%num (of_nat n) (of_nat m) = Fin q
    /\ (0 < q)%Q /\ (q <= 85 # 100)%Q.
Proof.
  intros Hn Hm.
  unfold ExplainableInsightEngine.calculateConfidenceScore. cbv zeta.
  set (total := (inject_Z (Z.of_nat n) + inject_Z (Z.of_nat m))%Q).
  change (of_nat n + of_nat m)%num with (Fin total).
  assert (Htot : (0 < total)%Q).
  { subst total. rewrite <- inject_Z_plus.
    change 0%Q with (inject_Z 0). rewrite <- Zlt_Qlt. lia. }
  change (Fin total / Fin 200)%num with (Fin (total / 200)).
  unfold n1. rewrite Math_min_Fin.
  set (s := if Qle_bool 1 (total / 200) then 1%Q else (total / 200)%Q).
  assert (Hs : (0 < s)%Q).
  { subst s. destruct (Qle_bool 1 (total / 200)); [reflexivity|].
    apply Qlt_shift_div_l; [reflexivity|]. rewrite Qmult_0_l. exact Htot. }
  set (b := if (_ <? Fin (5 # 10))%num then Fin (8 # 10) else Fin 1).
  assert (Hb : exists bq, b = Fin bq /\ (0 < bq)%Q).
  { subst b. destruct (_ <? Fin (5 # 10))%num;
      eexists; (split; [reflexivity|reflexivity]). }
  destruct Hb as [bq [-> Hbq]].
  change (Fin s * Fin bq)%num with (Fin (s * bq)).
  rewrite Math_min_Fin. eexists. split; [reflexivity|].
  destruct (Qle_bool (85 # 100) (s * bq)) eqn:E.
  - split; [reflexivity|apply Qle_refl].
  - split; [apply Qmult_lt_0_compat; assumption|].
    apply Qle_bool_false in E. apply Qlt_le_weak. exact E.
Qed.

(** X13: the confidence score of every returned insight is positive and at
    most 0.85, and its sample size is the number of orders of the two
    periods, at least 2. *)
Theorem insight_confidence_range (today : Z) (orders : list Prisma.Order)
    (insights : list ExplainableInsightEngine.InsightRow) (rid days : Z)
    (ins : ExplainableInsightEngine.DecomposedInsight) :
  fst (ExplainableInsightEngine.analyzeRevenueChange today orders insights
         rid days) = Some ins ->
  (ExplainableInsightEngine.confidenceScore ins >? n0)%num = true
  /\ (ExplainableInsightEngine.confidenceScore ins <=? Fin (85 # 100))%num
     = true
  /\ (ExplainableInsightEngine.sampleSize ins >=? Fin 2)%num = true.
Proof.
  intros H.
  destruct (explainable_insight_parts today orders insights rid days ins H)
    as [Hc [Hp [t [pct [row [_ [_ [_ [_ [Hsz [Hcs _]]]]]]]]]]].
  destruct (calculateConfidenceScore_range _ _ Hc Hp) as [q [Eq [Hq0 Hq1]]].
  rewrite Hcs, Eq, Hsz.
  split; [apply Qltb_lt; exact Hq0|].
  split; [apply Qle_bool_iff; exact Hq1|].
  apply Qle_bool_iff.
  rewrite <- inject_Z_plus. change 2%Q with (inject_Z 2).
  rewrite <- Zle_Qle. lia.
Qed.

Lemma insight_confidence_range_witness :
  exists ins,
    fst (ExplainableInsightEngine.analyzeRevenueChange (Samples.day 100)
           Samples.orders_both [] 1 7) = Some ins
    /\ (ExplainableInsightEngine.confidenceScore ins >? n0)%num = true.
Proof.
  eexists. split; [reflexivity|].
  refine (proj1 (insight_confidence_range (Samples.day 100)
                   Samples.orders_both [] 1 7 _ _)).
  reflexivity.
Defined.

(** The leading factor of the sorted factors of a decomposition is one of
    the three named factors. *)
Lemma sorted_factors_head (cur comp : list Prisma.Order) (t : Q) :
  exists (primary : ExplainableInsightEngine.CausalFactor)
         (rest : list ExplainableInsightEngine.CausalFactor),
    ExplainableInsightEngine.sort_factors
      (ExplainableInsightEngine.factors
         (ExplainableInsightEngine.decomposeRevenueChange cur comp (Fin t)))
    = primary :: rest
    /\ length rest = 2%nat
    /\ (ExplainableInsightEngine.factor primary = "Volume (Customer Demand)"
        \/ ExplainableInsightEngine.factor primary = "Price Changes"
        \/ ExplainableInsightEngine.factor primary = "Product Mix Shift").
Proof.
  destruct (decomposeRevenueChange_factors cur comp t)
    as [v [p [fv [fp [fm [E [Hv [Hp [Hm _]]]]]]]]].
  rewrite E.
  pose proof (sort_factors_Permutation [fv; fp; fm]) as Hperm.
  destruct (ExplainableInsightEngine.sort_factors [fv; fp; fm])
    as [|primary rest] eqn:Es.
  { apply Permutation_length in Hperm. discriminate Hperm. }
  exists primary, rest. split; [reflexivity|]. split.
  - apply Permutation_length in Hperm. simpl in Hperm. lia.
  - assert (Hin : In primary [fv; fp; fm]).
    { apply (Permutation_in _ Hperm). left. reflexivity. }
    destruct Hin as [<-|[<-|[<-|[]]]]; auto.
Qed.

(** X14: the recommendation of a returned insight.  A change of at most 5%
    either way gives the "stable" sentence; growth of more than 5% gives no
    recommendation; a decline of more than 5% gives the promotion advice
    when the factor of largest contribution is the volume, the pricing
    advice when it is the price, and none when it is the product mix. *)
Theorem insight_recommendation (today : Z) (orders : list Prisma.Order)
    (insights : list ExplainableInsightEngine.InsightRow) (rid days : Z)
    (ins : ExplainableInsightEngine.DecomposedInsight) :
  fst (ExplainableInsightEngine.analyzeRevenueChange today orders insights
         rid days) = Some ins ->
  exists (pct : num) (primary : ExplainableInsightEngine.CausalFactor)
         (rest : list ExplainableInsightEngine.CausalFactor),
    option_map ExplainableInsightEngine.percentChange
      (ExplainableInsightEngine.metadata ins) = Some pct
    /\ ExplainableInsightEngine.causalFactors ins = primary :: rest
    /\ ((num_abs pct >? Fin 5)%num = false ->
        ExplainableInsightEngine.recommendation ins
        = Some "Revenue is stable. Continue monitoring trends.")
    /\ ((pct >? Fin 5)%num = true ->
        ExplainableInsightEngine.recommendation ins = None)
    /\ ((pct <? Fin (-5))%num = true ->
        (ExplainableInsightEngine.factor primary = "Volume (Customer Demand)"
         /\ ExplainableInsightEngine.recommendation ins
            = Some "Customer traffic has declined. Consider running targeted promotions to drive footfall.")
        \/ (ExplainableInsightEngine.factor primary = "Price Changes"
            /\ ExplainableInsightEngine.recommendation ins
               = Some "Recent price increases may have negatively impacted demand. Consider testing smaller price increments.")
        \/ (ExplainableInsightEngine.factor primary = "Product Mix Shift"
            /\ ExplainableInsightEngine.recommendation ins = None)).
Proof.
  intros H.
  destruct (explainable_insight_parts today orders insights rid days ins H)
    as [_ [_ [t [pct [row [Hfin [Hmd [Hcf [Hrec _]]]]]]]]].
  match type of Hcf with
  | _ = ExplainableInsightEngine.sort_factors
          (ExplainableInsightEngine.factors
             (ExplainableInsightEngine.decomposeRevenueChange ?c ?p _)) =>
      destruct (sorted_factors_head c p t) as [primary [rest [Es [_ Hname]]]]
  end.
  rewrite Es in Hcf.
  exists pct, primary, rest.
  split; [exact Hmd|]. split; [exact Hcf|].
  rewrite Hrec, Hcf.
  unfold ExplainableInsightEngine.generateRecommendation. cbv zeta.
  destruct pct as [q| | |]; try discriminate Hfin.
  change (num_abs (Fin q) >? Fin 5)%num with (Qltb 5 (Qabs q)).
  change (Fin q >? Fin 5)%num with (Qltb 5 q).
  change (Fin q <? Fin (-5))%num with (Qltb q (-5)).
  change (Fin q <? n0)%num with (Qltb q 0).
  split; [intros E; rewrite E; reflexivity|].
  split.
  - intros E. apply Qltb_lt in E.
    assert (E1 : Qltb 5 (Qabs q) = true).
    { apply Qltb_lt. eapply Qlt_le_trans; [exact E|apply Qle_Qabs]. }
    assert (E2 : Qltb q 0 = false).
    { apply Qltb_ge. apply Qlt_le_weak.
      eapply Qlt_trans; [|exact E]. reflexivity. }
    rewrite E1, E2. reflexivity.
  - intros E. apply Qltb_lt in E.
    assert (E1 : Qltb 5 (Qabs q) = true).
    { apply Qltb_lt. rewrite Qabs_neg.
      - change 5%Q with (- (-5))%Q. apply Qopp_lt_compat. exact E.
      - apply Qlt_le_weak. eapply Qlt_trans; [exact E|reflexivity]. }
    assert (E2 : Qltb q 0 = true).
    { apply Qltb_lt. eapply Qlt_trans; [exact E|reflexivity]. }
    rewrite E1, E2. cbn [negb].
    destruct Hname as [Hn|[Hn|Hn]]; rewrite Hn.
    + left. split; reflexivity.
    + right. left. split; reflexivity.
    + right. right. split; reflexivity.
Qed.

Lemma insight_recommendation_witness :
  exists ins,
    fst (ExplainableInsightEngine.analyzeRevenueChange (Samples.day 100)
           Samples.orders_both [] 1 7) = Some ins
    /\ ExplainableInsightEngine.recommendation ins = None.
Proof.
  eexists. split; [reflexivity|].
  destruct (insight_recommendation (Samples.day 100) Samples.orders_both []
              1 7 _ eq_refl) as [pct [primary [rest [Hmd [_ [_ [Hup _]]]]]]].
  injection Hmd as <-. apply Hup. reflexivity.
Defined.

Lemma insert_factor_head (x : ExplainableInsightEngine.CausalFactor)
    (l : list ExplainableInsightEngine.CausalFactor)
    (y : ExplainableInsightEngine.CausalFactor) :
  contributes_no_less y x ->
  HdRel contributes_no_less y l ->
  HdRel contributes_no_less y (ExplainableInsightEngine.insert_factor x l).
Proof.
  intros Hyx Hhd. destruct l as [|z l]; cbn [ExplainableInsightEngine.insert_factor].
  - constructor. exact Hyx.
  - destruct (ExplainableInsightEngine.compareFn x z <? n0)%num.
    + constructor. exact Hyx.
    + constructor. inversion Hhd; subst. assumption.
Qed.

(** Inserting a factor of finite contribution keeps a list of such factors
    in decreasing order of absolute contribution. *)
Lemma insert_factor_Sorted (x : ExplainableInsightEngine.CausalFactor)
    (l : list ExplainableInsightEngine.CausalFactor) :
  finite (ExplainableInsightEngine.contribution x) ->
  Forall (fun f => finite (ExplainableInsightEngine.contribution f)) l ->
  Sorted contributes_no_less l ->
  Sorted contributes_no_less (ExplainableInsightEngine.insert_factor x l).
Proof.
  intros Hx Hl Hs. induction Hs as [|y l Hs IH Hhd];
    cbn [ExplainableInsightEngine.insert_factor].
  - repeat constructor.
  - inversion Hl as [|? ? Hy Hl']; subst.
    unfold ExplainableInsightEngine.compareFn.
    destruct (ExplainableInsightEngine.contribution x) as [cx| | |] eqn:Ex;
      try discriminate Hx.
    destruct (ExplainableInsightEngine.contribution y) as [cy| | |] eqn:Ey;
      try discriminate Hy.
    change ((num_abs (Fin cy) - num_abs (Fin cx) <? n0)%num)
      with (Qltb (Qabs cy + - Qabs cx) 0).
    destruct (Qltb (Qabs cy + - Qabs cx) 0) eqn:E.
    + apply Qltb_lt in E.
      constructor; [constructor; assumption|]. constructor.
      unfold contributes_no_less. rewrite Ex, Ey.
      apply Qle_bool_iff. apply Qlt_le_weak.
      apply Qplus_lt_l with (z := (- Qabs cx)%Q).
      rewrite Qplus_opp_r. exact E.
    + apply Qltb_ge in E.
      constructor; [apply IH; exact Hl'|].
      apply insert_factor_head; [|exact Hhd].
      unfold contributes_no_less. rewrite Ex, Ey.
      apply Qle_bool_iff.
      apply Qplus_le_l with (z := (- Qabs cx)%Q).
      rewrite Qplus_opp_r. exact E.
Qed.

Lemma sort_factors_Sorted (l : list ExplainableInsightEngine.CausalFactor) :
  Forall (fun f => finite (ExplainableInsightEngine.contribution f)) l ->
  Sorted contributes_no_less (ExplainableInsightEngine.sort_factors l).
Proof.
  intros Hl. unfold ExplainableInsightEngine.sort_factors.
  assert (H : forall acc,
            Forall (fun f => finite (ExplainableInsightEngine.contribution f))
              acc ->
            Sorted contributes_no_less acc ->
            Sorted contributes_no_less
              (fold_left
                 (fun acc x => ExplainableInsightEngine.insert_factor x acc)
                 l acc)).
  { induction Hl as [|x l Hx Hl IH]; cbn [fold_left]; intros acc Hacc Hs;
      [exact Hs|].
    apply IH.
    - eapply Permutation_Forall;
        [symmetry; apply insert_factor_Permutation|].
      constructor; assumption.
    - apply insert_factor_Sorted; assumption. }
  apply H; constructor.
Qed.

(** X15: the causal factors of a returned insight are the three factors of
    the decomposition, in decreasing order of the absolute value of their
    contributions. *)
Theorem insight_factors_ordered (today : Z) (orders : list Prisma.Order)
    (insights : list ExplainableInsightEngine.InsightRow) (rid days : Z)
    (ins : ExplainableInsightEngine.DecomposedInsight) :
  fst (ExplainableInsightEngine.analyzeRevenueChange today orders insights
         rid days) = Some ins ->
  exists a b c : ExplainableInsightEngine.CausalFactor,
    ExplainableInsightEngine.causalFactors ins = [a; b; c]
    /\ contributes_no_less a b /\ contributes_no_less b c
    /\ Permutation (map ExplainableInsightEngine.factor [a; b; c])
         ["Volume (Customer Demand)"; "Price Changes"; "Product Mix Shift"].
Proof.
  intros H.
  destruct (explainable_insight_parts today orders insights rid days ins H)
    as [_ [_ [t [pct [row [_ [_ [Hcf _]]]]]]]].
  match type of Hcf with
  | _ = ExplainableInsightEngine.sort_factors
          (ExplainableInsightEngine.factors
             (ExplainableInsightEngine.decomposeRevenueChange ?c ?p _)) =>
      destruct (decomposeRevenueChange_factors c p t)
        as [v [p' [fv [fp [fm [E [Hv [Hp [Hm [Ev [Ep [Em _]]]]]]]]]]]]
  end.
  rewrite E in Hcf.
  pose proof (sort_factors_Permutation [fv; fp; fm]) as Hperm.
  assert (Hfin : Forall
            (fun f => finite (ExplainableInsightEngine.contribution f))
            [fv; fp; fm]).
  { repeat constructor; [rewrite Ev|rewrite Ep|rewrite Em]; reflexivity. }
  pose proof (sort_factors_Sorted [fv; fp; fm] Hfin) as Hsorted.
  rewrite <- Hcf in Hperm, Hsorted.
  destruct (ExplainableInsightEngine.causalFactors ins)
    as [|a [|b [|c [|d l]]]];
    try (apply Permutation_length in Hperm; discriminate Hperm).
  exists a, b, c. split; [reflexivity|].
  inversion Hsorted as [|? ? Hs1 Hh1]; subst.
  inversion Hs1 as [|? ? Hs2 Hh2]; subst.
  inversion Hh1; subst. inversion Hh2; subst.
  split; [assumption|]. split; [assumption|].
  rewrite Hperm. cbn [map]. rewrite Hv, Hp, Hm. reflexivity.
Qed.

Lemma insight_factors_ordered_witness :
  exists ins,
    fst (ExplainableInsightEngine.analyzeRevenueChange (Samples.day 100)
           Samples.orders_both [] 1 7) = Some ins
    /\ exists a b c : ExplainableInsightEngine.CausalFactor,
        ExplainableInsightEngine.causalFactors ins = [a; b; c]
        /\ contributes_no_less a b.
Proof.
  eexists. split; [reflexivity|].
  destruct (insight_factors_ordered (Samples.day 100) Samples.orders_both []
              1 7 _ eq_refl) as [a [b [c [E [Hab _]]]]].
  exists a, b, c. split; [exact E|exact Hab].
Defined.

(** X16: the row stored for a returned insight is appended to the table
    and carries the insight's factors, recommendation, confidence and
    sample size; its severity is critical above a change of 20%, warning
    above 10% and info otherwise, and it expires seven days after the
    analysis. *)
Theorem insight_stored_row (today : Z) (orders : list Prisma.Order)
    (insights : list ExplainableInsightEngine.InsightRow) (rid days : Z)
    (ins : ExplainableInsightEngine.DecomposedInsight) :
  fst (ExplainableInsightEngine.analyzeRevenueChange today orders insights
         rid days) = Some ins ->
  exists (pct : num) (row : ExplainableInsightEngine.InsightRow),
    option_map ExplainableInsightEngine.percentChange
      (ExplainableInsightEngine.metadata ins) = Some pct
    /\ snd (ExplainableInsightEngine.analyzeRevenueChange today orders
              insights rid days) = insights ++ [row]
    /\ ExplainableInsightEngine.insightRestaurantId row = rid
    /\ ExplainableInsightEngine.rowCausalFactors row
       = ExplainableInsightEngine.causalFactors ins
    /\ ExplainableInsightEngine.rowRecommendation row
       = ExplainableInsightEngine.recommendation ins
    /\ ExplainableInsightEngine.rowConfidenceScore row
       = ExplainableInsightEngine.confidenceScore ins
    /\ ExplainableInsightEngine.rowSampleSize row
       = ExplainableInsightEngine.sampleSize ins
    /\ ExplainableInsightEngine.severity row
       = (if (num_abs pct >? Fin 20)%num then "critical"
          else if (num_abs pct >? Fin 10)%num then "warning"
          else "info")
    /\ ExplainableInsightEngine.expiresAt row = (today + 7 * msPerDay)%Z.
Proof.
  intros H.
  destruct (explainable_insight_parts today orders insights rid days ins H)
    as [_ [_ [t [pct [row [_ [Hmd [_ [_ [_ [_ [Hrow [Hsev [Hexp [Hrid
         [Hcf [Hrec [Hcs Hsz]]]]]]]]]]]]]]]]]].
  exists pct, row. repeat split; assumption.
Qed.

Lemma insight_stored_row_witness :
  exists ins,
    fst (ExplainableInsightEngine.analyzeRevenueChange (Samples.day 100)
           Samples.orders_both [] 1 7) = Some ins
    /\ exists row,
        snd (ExplainableInsightEngine.analyzeRevenueChange (Samples.day 100)
               Samples.orders_both [] 1 7) = [row]
        /\ ExplainableInsightEngine.severity row = "critical".
Proof.
  eexists. split; [reflexivity|].
  destruct (insight_stored_row (Samples.day 100) Samples.orders_both []
              1 7 _ eq_refl)
    as [pct [row [Hmd [Hrow [_ [_ [_ [_ [_ [Hsev _]]]]]]]]]].
  exists row. split; [exact Hrow|].
  injection Hmd as <-. rewrite Hsev. reflexivity.
Defined.

(** ** Aggregation of order lines by menu item *)

Lemma Map_get_set_string {V : Type} (m : list (string * V)) (k k' : string)
    (v : V) :
  Map_get String.eqb (Map_set String.eqb m k v) k'
  = if String.eqb k k' then Some v else Map_get String.eqb m k'.
Proof.
  induction m as [|[k1 v1] m IH]; cbn [Map_set Map_get].
  - reflexivity.
  - destruct (String.eqb k1 k) eqn:E1; cbn [Map_get].
    + apply String.eqb_eq in E1. subst k1.
      destruct (String.eqb k k'); reflexivity.
    + rewrite IH. destruct (String.eqb k1 k') eqn:E2; [|reflexivity].
      destruct (String.eqb k k') eqn:E3; [|reflexivity].
      apply String.eqb_eq in E2. apply String.eqb_eq in E3.
      subst. rewrite String.eqb_refl in E1. discriminate E1.
Qed.

Lemma Map_set_keys_NoDup {V : Type} (m : list (string * V)) (k : string)
    (v : V) :
  List.NoDup (Map_keys m) ->
  List.NoDup (Map_keys (Map_set String.eqb m k v)).
Proof.
  unfold Map_keys.
  induction m as [|[k1 v1] m IH]; cbn [Map_set map fst]; intros H.
  - constructor; [intros []|constructor].
  - inversion H as [|? ? Hnin Hnd]; subst.
    destruct (String.eqb k1 k) eqn:E1; cbn [map fst].
    + apply String.eqb_eq in E1. subst k1. constructor; assumption.
    + constructor; [|apply IH; exact Hnd].
      intros Hin. apply Hnin.
      assert (G : forall m' : list (string * V),
                In k1 (map fst (Map_set String.eqb m' k v)) ->
                In k1 (map fst m')).
      { induction m' as [|[k2 v2] m' IH']; cbn [Map_set map fst].
        - intros [E|[]]. subst k1. rewrite String.eqb_refl in E1.
          discriminate E1.
        - destruct (String.eqb k2 k) eqn:E2; cbn [map fst].
          + apply String.eqb_eq in E2. subst k2. intros [E|Hin'].
            * left. exact E.
            * right. exact Hin'.
          + intros [E|Hin']; [left; exact E|right; apply IH'; exact Hin']. }
      apply G. exact Hin.
Qed.

(** The nested loops of [aggregateItemData] visit the order lines one after
    the other. *)
Lemma aggregate_loop_flat (orders : list Prisma.Order)
    (m : list (string * ExplainableInsightEngine.ItemData)) :
  fold_left
    (fun m order =>
       fold_left ExplainableInsightEngine.add_item (Prisma.orderItems order) m)
    orders m
  = fold_left ExplainableInsightEngine.add_item
      (flat_map Prisma.orderItems orders) m.
Proof.
  revert m. induction orders as [|o orders IH]; intros m; cbn [fold_left flat_map].
  - reflexivity.
  - rewrite fold_left_app. apply IH.
Qed.

Lemma add_item_loop_get (k : string) (lines : list Prisma.OrderItem) :
  forall m : list (string * ExplainableInsightEngine.ItemData),
    let existing :=
      match Map_get String.eqb m k with
      | Some e => e
      | None => {| ExplainableInsightEngine.qty := n0;
                   ExplainableInsightEngine.revenue := n0;
                   ExplainableInsightEngine.avgPrice := n0 |}
      end in
    Map_get String.eqb
      (fold_left ExplainableInsightEngine.add_item lines m) k
    = match List.filter (fun l => String.eqb (Prisma.menuItemId l) k) lines
      with
      | [] => Map_get String.eqb m k
      | (_ :: _) as ls =>
          Some {| ExplainableInsightEngine.qty :=
                    fold_left
                      (fun a l => (a + of_Z (Prisma.quantity l))%num) ls
                      (ExplainableInsightEngine.qty existing);
                  ExplainableInsightEngine.revenue :=
                    fold_left
                      (fun a l => (a + of_Z (Prisma.quantity l)
                                       * Fin (Prisma.price l))%num) ls
                      (ExplainableInsightEngine.revenue existing);
                  ExplainableInsightEngine.avgPrice :=
                    ExplainableInsightEngine.avgPrice existing |}
      end.
Proof.
  induction lines as [|l lines IH]; intros m; cbv zeta;
    cbn [fold_left List.filter]; [reflexivity|].
  specialize (IH (ExplainableInsightEngine.add_item m l)). cbv zeta in IH.
  rewrite IH. clear IH.
  assert (Hget : Map_get String.eqb (ExplainableInsightEngine.add_item m l) k
                 = if String.eqb (Prisma.menuItemId l) k
                   then Map_get String.eqb
                          (ExplainableInsightEngine.add_item m l)
                          (Prisma.menuItemId l)
                   else Map_get String.eqb m k).
  { destruct (String.eqb (Prisma.menuItemId l) k) eqn:E.
    - apply String.eqb_eq in E. subst k. reflexivity.
    - unfold ExplainableInsightEngine.add_item.
      rewrite Map_get_set_string, E. reflexivity. }
  rewrite Hget. clear Hget.
  destruct (String.eqb (Prisma.menuItemId l) k) eqn:E; [|reflexivity].
  apply String.eqb_eq in E. subst k.
  unfold ExplainableInsightEngine.add_item.
  rewrite Map_get_set_string, String.eqb_refl.
  destruct (List.filter _ lines); reflexivity.
Qed.

Lemma fold_quantity_Fin (ls : list Prisma.OrderItem) (a : Q) :
  fold_left (fun a l => (a + of_Z (Prisma.quantity l))%num) ls (Fin a)
  = Fin (fold_left (fun a l => (a + inject_Z (Prisma.quantity l))%Q) ls a).
Proof.
  revert a. induction ls as [|l ls IH]; intros a; cbn [fold_left];
    [reflexivity|].
  change (Fin a + of_Z (Prisma.quantity l))%num
    with (Fin (a + inject_Z (Prisma.quantity l))).
  apply IH.
Qed.

Lemma fold_revenue_Fin (ls : list Prisma.OrderItem) (a : Q) :
  fold_left
    (fun a l => (a + of_Z (Prisma.quantity l) * Fin (Prisma.price l))%num)
    ls (Fin a)
  = Fin (fold_left
           (fun a l => (a + inject_Z (Prisma.quantity l) * Prisma.price l)%Q)
           ls a).
Proof.
  revert a. induction ls as [|l ls IH]; intros a; cbn [fold_left];
    [reflexivity|].
  change (Fin a + of_Z (Prisma.quantity l) * Fin (Prisma.price l))%num
    with (Fin (a + inject_Z (Prisma.quantity l) * Prisma.price l)).
  apply IH.
Qed.

Lemma Map_get_map_values {V W : Type} (g : V -> W) (m : list (string * V))
    (k : string) :
  Map_get String.eqb (map (fun entry => (fst entry, g (snd entry))) m) k
  = option_map g (Map_get String.eqb m k).
Proof.
  induction m as [|[k1 v1] m IH]; cbn [map Map_get fst snd]; [reflexivity|].
  destruct (String.eqb k1 k); [reflexivity|exact IH].
Qed.

(** X17: [aggregateItemData] holds one entry per menu item that occurs on
    an order line, and none for the others.  The entry of an item carries
    the units sold and the money taken over its lines, and as average
    price the money taken per unit sold (0 when no unit was sold on
    balance). *)
Theorem aggregateItemData_per_item (orders : list Prisma.Order) :
  List.NoDup (Map_keys (ExplainableInsightEngine.aggregateItemData orders))
  /\ forall k : string,
      Map_get String.eqb (ExplainableInsightEngine.aggregateItemData orders) k
      = match lines_of orders k with
        | [] => None
        | (_ :: _) as ls =>
            Some {| ExplainableInsightEngine.qty := Fin (quantity_sold ls);
                    ExplainableInsightEngine.revenue := Fin (line_revenue ls);
                    ExplainableInsightEngine.avgPrice :=
                      if Qltb 0 (quantity_sold ls)
                      then Fin (line_revenue ls / quantity_sold ls)
                      else n0 |}
        end.
Proof.
  unfold ExplainableInsightEngine.aggregateItemData. cbv zeta.
  rewrite aggregate_loop_flat. split.
  - unfold Map_keys. rewrite map_map. cbn [fst].
    change (List.NoDup
              (Map_keys
                 (fold_left ExplainableInsightEngine.add_item
                    (flat_map Prisma.orderItems orders) []))).
    apply (fold_left_invariant
             (fun m : list (string * ExplainableInsightEngine.ItemData) =>
                List.NoDup (Map_keys m))
             (fun _ => True)).
    + apply List.Forall_forall. intros; exact I.
    + constructor.
    + intros m l Hm _. unfold ExplainableInsightEngine.add_item.
      apply Map_set_keys_NoDup. exact Hm.
  - intros k.
    rewrite (Map_get_map_values
               (fun data =>
                  {| ExplainableInsightEngine.qty :=
                       ExplainableInsightEngine.qty data;
                     ExplainableInsightEngine.revenue :=
                       ExplainableInsightEngine.revenue data;
                     ExplainableInsightEngine.avgPrice :=
                       if (ExplainableInsightEngine.qty data >? n0)%num
                       then (ExplainableInsightEngine.revenue data
                             / ExplainableInsightEngine.qty data)%num
                       else n0 |})).
    pose proof (add_item_loop_get k (flat_map Prisma.orderItems orders) [])
      as H.
    cbv zeta in H. rewrite H. clear H.
    unfold lines_of.
    destruct (List.filter _ (flat_map Prisma.orderItems orders))
      as [|l ls]; [reflexivity|].
    cbn [Map_get ExplainableInsightEngine.qty ExplainableInsightEngine.revenue
           ExplainableInsightEngine.avgPrice option_map].
    pose proof (fold_quantity_Fin (l :: ls) 0) as Hq.
    pose proof (fold_revenue_Fin (l :: ls) 0) as Hr.
    fold (quantity_sold (l :: ls)) in Hq. fold (line_revenue (l :: ls)) in Hr.
    fold n0 in Hq, Hr. rewrite !Hq, !Hr.
    f_equal. f_equal.
    change (Fin (quantity_sold (l :: ls)) >? n0)%num
      with (Qltb 0 (quantity_sold (l :: ls))).
    destruct (Qltb 0 (quantity_sold (l :: ls))) eqn:E; [|reflexivity].
    unfold num_div.
    assert (Hz : Qeq_bool (quantity_sold (l :: ls)) 0 = false).
    { apply Qeq_bool_false. intros Hq0. apply Qltb_lt in E.
      rewrite Hq0 in E. exact (Qlt_irrefl _ E). }
    rewrite Hz. reflexivity.
Qed.

(** ** The decisions of the route and the menu quadrants *)

(** X18: the decisions pushed for a menu entry follow its quadrant in the
    menu-engineering matrix.  A Star gets no decision, a Puzzle exactly one
    Promote decision, a Plowhorse one Reprice decision when its margin is
    positive and none otherwise, a Dog at most one decision, a Remove. *)
Theorem menuDecisions_by_quadrant (entry : DecisionsRoute.MenuEntry) :
  finite (DecisionsRoute.popularity entry) ->
  finite (DecisionsRoute.margin entry) ->
  match MenuEngineeringRoute.categorize (DecisionsRoute.popularity entry)
          (DecisionsRoute.margin entry) with
  | MenuEngineeringRoute.Stars => DecisionsRoute.menuDecisions entry = []
  | MenuEngineeringRoute.Puzzles =>
      exists d, DecisionsRoute.menuDecisions entry = [d]
                /\ DecisionsRoute.action d = DecisionsRoute.Promote
  | MenuEngineeringRoute.Plowhorses =>
      if (DecisionsRoute.margin entry >? n0)%num
      then exists d, DecisionsRoute.menuDecisions entry = [d]
                     /\ DecisionsRoute.action d = DecisionsRoute.Reprice
      else DecisionsRoute.menuDecisions entry = []
  | MenuEngineeringRoute.Dogs =>
      DecisionsRoute.menuDecisions entry = []
      \/ exists d, DecisionsRoute.menuDecisions entry = [d]
                   /\ DecisionsRoute.action d = DecisionsRoute.Remove
  end.
Proof.
  intros Hp Hm.
  unfold DecisionsRoute.menuDecisions, MenuEngineeringRoute.categorize.
  destruct (DecisionsRoute.popularity entry) as [p| | |];
    try discriminate Hp.
  destruct (DecisionsRoute.margin entry) as [m| | |];
    try discriminate Hm.
  change (Fin p <? Fin 50)%num with (negb (Qle_bool 50 p)).
  change (Fin p >=? Fin 50)%num with (Qle_bool 50 p).
  change (Fin m <? Fin 680)%num with (negb (Qle_bool 680 m)).
  change (Fin m >=? Fin 680)%num with (Qle_bool 680 m).
  destruct (Qle_bool 50 p); destruct (Qle_bool 680 m);
    cbn [negb andb app]; cbv zeta.
  - reflexivity.
  - destruct (Fin m >? n0)%num; cbn [app].
    + eexists. split; reflexivity.
    + reflexivity.
  - eexists. split; reflexivity.
  - destruct (DecisionsRoute.entryPrepTime entry >? Fin 15)%num;
      [|left; reflexivity].
    match goal with
    | |- (if ?c then _ else _) = [] \/ _ => destruct c
    end.
    + right. eexists. split; reflexivity.
    + left. reflexivity.
Qed.

Lemma menuDecisions_by_quadrant_witness :
  exists d,
    DecisionsRoute.menuDecisions
      {| DecisionsRoute.entryId := "m1";
         DecisionsRoute.entryName := "Dal";
         DecisionsRoute.popularity := Fin 20;
         DecisionsRoute.margin := Fin 700;
         DecisionsRoute.revenue := Fin 8000;
         DecisionsRoute.orders := Fin 10;
         DecisionsRoute.entryPrice := Fin 800;
         DecisionsRoute.cost := Fin 100;
         DecisionsRoute.entryPrepTime := Fin 10 |} = [d]
    /\ DecisionsRoute.action d = DecisionsRoute.Promote.
Proof.
  exact (menuDecisions_by_quadrant
           {| DecisionsRoute.entryId := "m1";
              DecisionsRoute.entryName := "Dal";
              DecisionsRoute.popularity := Fin 20;
              DecisionsRoute.margin := Fin 700;
              DecisionsRoute.revenue := Fin 8000;
              DecisionsRoute.orders := Fin 10;
              DecisionsRoute.entryPrice := Fin 800;
              DecisionsRoute.cost := Fin 100;
              DecisionsRoute.entryPrepTime := Fin 10 |}
           eq_refl eq_refl).
Defined.

Lemma num_or_len_nonzero (n : nat) :
  exists a : Q, num_or (of_nat n) n1 = Fin a /\ ~ (a == 0)%Q.
Proof.
  unfold num_or, of_nat, of_Z, truthy.
  destruct (Qeq_bool (inject_Z (Z.of_nat n)) 0) eqn:E; cbn [negb].
  - exists 1%Q. split; [reflexivity|discriminate].
  - eexists. split; [reflexivity|]. apply Qeq_bool_false. exact E.
Qed.

(** X19: the popularity of every entry of the menu data is a finite number
    of at most 100, and it is not negative when the entry's units sold
    are not; the units sold and the margin are finite as well. *)
Theorem getMenuEngineering_popularity (menuItems : list Prisma.MenuItem)
    (allOrders : list Prisma.Order) (e : DecisionsRoute.MenuEntry) :
  In e (DecisionsRoute.getMenuEngineering menuItems allOrders) ->
  exists p q : Q,
    DecisionsRoute.popularity e = Fin p
    /\ DecisionsRoute.orders e = Fin q
    /\ (p <= 100)%Q
    /\ ((0 <= q)%Q -> (0 <= p)%Q)
    /\ finite (DecisionsRoute.margin e).
Proof.
  unfold DecisionsRoute.getMenuEngineering. cbv zeta. intros H.
  apply in_map_iff in H. destruct H as [m [<- _]].
  cbn [DecisionsRoute.popularity DecisionsRoute.orders DecisionsRoute.margin].
  assert (Hq : forall m0,
             finite (sum_by (fun oio => of_Z (Prisma.quantity (fst oio)))
                       (DecisionsRoute.completedOrderItems allOrders m0))).
  { intros m0. apply finite_sum_by, List.Forall_forall. intros; reflexivity. }
  assert (Ht : finite
            (fold_left
               (fun sum m0 =>
                  (sum + sum_by (fun oio => of_Z (Prisma.quantity (fst oio)))
                           (DecisionsRoute.completedOrderItems allOrders m0))
                  %num)
               menuItems n0)).
  { apply (fold_left_invariant finite (fun _ => True)).
    - apply List.Forall_forall. intros; exact I.
    - reflexivity.
    - intros a b Ha _. apply finite_add; [exact Ha|apply Hq]. }
  destruct (num_or_len_nonzero (length menuItems)) as [n [En Hn]].
  rewrite En.
  rewrite (finite_inv _ (Hq m)), (finite_inv _ Ht).
  match goal with
  | |- context [num_div (Fin (qval ?a)) (num_div (Fin (qval ?b)) (Fin n))] =>
      set (q := qval a); set (t := qval b)
  end.
  assert (Ediv : (Fin t / Fin n)%num = Fin (t / n)).
  { unfold num_div. apply Qeq_bool_false in Hn. rewrite Hn. reflexivity. }
  rewrite Ediv.
  change (Fin (t / n) >? n0)%num with (Qltb 0 (t / n)).
  destruct (Qltb 0 (t / n)) eqn:Eavg.
  - apply Qltb_lt in Eavg.
    assert (Ez : Qeq_bool (t / n) 0 = false).
    { apply Qeq_bool_false. intros Hz. rewrite Hz in Eavg.
      exact (Qlt_irrefl _ Eavg). }
    assert (Ex : ((Fin q / Fin (t / n)) * Fin 50)%num
                 = Fin (q / (t / n) * 50)).
    { unfold num_div. rewrite Ez. reflexivity. }
    rewrite Ex. unfold n100. rewrite Math_min_Fin.
    eexists _, q. split; [reflexivity|]. split; [reflexivity|].
    destruct (Qle_bool 100 (q / (t / n) * 50)) eqn:E100.
    + split; [apply Qle_refl|]. split; [discriminate|reflexivity].
    + apply Qle_bool_false in E100.
      split; [apply Qlt_le_weak; exact E100|].
      split; [|reflexivity].
      intros Hq0. apply Qmult_le_0_compat; [|discriminate].
      apply Qle_shift_div_l; [exact Eavg|].
      rewrite Qmult_0_l. exact Hq0.
  - exists 0%Q, q. split; [reflexivity|]. split; [reflexivity|].
    split; [discriminate|]. split; [intros _; apply Qle_refl|reflexivity].
Qed.

Lemma getMenuEngineering_popularity_witness :
  exists (e : DecisionsRoute.MenuEntry) (p : Q),
    In e (DecisionsRoute.getMenuEngineering [Samples.plowhorse]
            Samples.orders_plowhorse)
    /\ DecisionsRoute.popularity e = Fin p
    /\ (p <= 100)%Q.
Proof.
  destruct (getMenuEngineering_popularity [Samples.plowhorse]
              Samples.orders_plowhorse _ (or_introl eq_refl))
    as [p [q [Hp [_ [Hle _]]]]].
  eexists _, p. split; [left; reflexivity|]. split; [exact Hp|exact Hle].
Defined.

(** A range built from a non-negative impact and non-negative factors is
    ordered and starts at zero or above. *)
Lemma range_nonneg_bounds (impact lo hi conf : Q) :
  (0 <= impact)%Q -> (0 <= lo)%Q -> (lo <= hi)%Q ->
  let r := DecisionsRoute.range (Fin impact) (Fin lo) (Fin hi) (Fin conf) in
  (DecisionsRoute.min r <=? DecisionsRoute.max r)%num = true
  /\ (n0 <=? DecisionsRoute.min r)%num = true.
Proof.
  intros Hi Hlo Hlh. cbv zeta. split.
  - apply range_ordered_nonneg; assumption.
  - change (Qle_bool 0 (inject_Z (Qfloor (impact * lo + (1 # 2)))) = true).
    apply Qle_bool_iff. change 0%Q with (inject_Z 0). rewrite <- Zle_Qle.
    change 0%Z with (Qfloor 0). apply Qfloor_resp_le.
    assert (H : (0 <= impact * lo)%Q) by (apply Qmult_le_0_compat; assumption).
    eapply Qle_trans; [exact H|].
    rewrite <- (Qplus_0_r (impact * lo)) at 1.
    apply Qplus_le_r. discriminate.
Qed.

(** The same for an impact that passed the test [impact > 0]. *)
Lemma range_positive_bounds (impact : num) (lo hi conf : Q) :
  (impact >? n0)%num = true -> (0 < lo)%Q -> (lo <= hi)%Q ->
  let r := DecisionsRoute.range impact (Fin lo) (Fin hi) (Fin conf) in
  (DecisionsRoute.min r <=? DecisionsRoute.max r)%num = true
  /\ (n0 <=? DecisionsRoute.min r)%num = true.
Proof.
  intros Hpos Hlo Hlh.
  destruct impact as [q| | |]; try discriminate Hpos.
  - apply range_nonneg_bounds; [|apply Qlt_le_weak; exact Hlo|exact Hlh].
    apply Qlt_le_weak. apply Qltb_lt. exact Hpos.
  - cbv zeta. unfold DecisionsRoute.range.
    cbn [DecisionsRoute.min DecisionsRoute.max num_mul].
    assert (Hhi : (0 < hi)%Q) by (eapply Qlt_le_trans; eassumption).
    unfold sgnQ.
    rewrite (proj1 (Qgt_alt lo 0) Hlo), (proj1 (Qgt_alt hi 0) Hhi).
    split; reflexivity.
Qed.

(** Where a decision of the route comes from. *)
Lemma GET_decision_origin (menuItems : list Prisma.MenuItem)
    (allOrders : list Prisma.Order) (d : DecisionsRoute.Decision) :
  In d (DecisionsRoute.GET menuItems allOrders) ->
  (exists e, In e (DecisionsRoute.getMenuEngineering menuItems allOrders)
             /\ In d (DecisionsRoute.menuDecisions e))
  \/ DecisionsRoute.action d = DecisionsRoute.Optimize.
Proof.
  unfold DecisionsRoute.GET. cbv zeta.
  destruct (length allOrders =? 0)%nat; [intros []|].
  intros H. apply in_app_or in H. destruct H as [H|H].
  - left. apply in_flat_map in H. exact H.
  - right. apply in_app_or in H. destruct H as [H|H].
    + unfold DecisionsRoute.channelDecisions in H. cbv zeta in H.
      destruct (find _ _); [|destruct H].
      destruct (0 <? length _)%nat; [|destruct H].
      match type of H with
      | In _ (if ?c then _ else _) => destruct c
      end; [|destruct H].
      destruct H as [<-|[]]. reflexivity.
    + unfold DecisionsRoute.capacityDecisions in H. cbv zeta in H.
      match type of H with
      | In _ (if ?c then _ else _) => destruct c
      end; [|destruct H].
      match type of H with
      | In _ (if ?c then _ else _) => destruct c
      end; [|destruct H].
      destruct H as [<-|[]]. reflexivity.
Qed.

(** The three decisions a menu entry can get, with their impacts. *)
Lemma menuDecisions_In (e : DecisionsRoute.MenuEntry)
    (d : DecisionsRoute.Decision) :
  In d (DecisionsRoute.menuDecisions e) ->
  (DecisionsRoute.action d = DecisionsRoute.Promote
   /\ (DecisionsRoute.margin e >=? Fin 680)%num = true
   /\ DecisionsRoute.impact d
      = DecisionsRoute.range
          (DecisionsRoute.orders e * Fin (45 # 100)
           * DecisionsRoute.margin e)%num
          (Fin (7 # 10)) (Fin (12 # 10)) (Fin 75))
  \/ DecisionsRoute.action d = DecisionsRoute.Reprice
  \/ (DecisionsRoute.action d = DecisionsRoute.Remove
      /\ exists impact : num,
          (impact >? n0)%num = true
          /\ DecisionsRoute.impact d
             = DecisionsRoute.range impact (Fin (6 # 10)) (Fin (14 # 10))
                 (Fin 65)).
Proof.
  unfold DecisionsRoute.menuDecisions. cbv zeta. intros H.
  apply in_app_or in H. destruct H as [H|H].
  { destruct (DecisionsRoute.popularity e <? Fin 50)%num; [|destruct H].
    destruct (DecisionsRoute.margin e >=? Fin 680)%num eqn:Em; [|destruct H].
    destruct H as [<-|[]]. left. repeat split. }
  apply in_app_or in H. destruct H as [H|H].
  { match type of H with
    | In _ (if ?c then _ else _) => destruct c
    end; [|destruct H].
    destruct H as [<-|[]]. right. left. reflexivity. }
  match type of H with
  | In _ (if ?c then _ else _) => destruct c
  end; [|destruct H].
  match type of H with
  | In _ (if (?i >? n0)%num then _ else _) => destruct (i >? n0)%num eqn:Ei
  end; [|destruct H].
  destruct H as [<-|[]]. right. right. split; [reflexivity|].
  eexists. split; [exact Ei|reflexivity].
Qed.

Lemma sum_by_nonneg {A : Type} (f : A -> num) (xs : list A) :
  Forall (fun x => exists q, f x = Fin q /\ (0 <= q)%Q) xs ->
  exists q, sum_by f xs = Fin q /\ (0 <= q)%Q.
Proof.
  intros H. unfold sum_by.
  apply (fold_left_invariant
           (fun a => exists q, a = Fin q /\ (0 <= q)%Q)
           (fun x => exists q, f x = Fin q /\ (0 <= q)%Q)).
  - exact H.
  - exists 0%Q. split; [reflexivity|apply Qle_refl].
  - intros a b [qa [-> Ha]] [qb [-> Hb]].
    exists (qa + qb)%Q. split; [reflexivity|].
    change 0%Q with (0 + 0)%Q. apply Qplus_le_compat; assumption.
Qed.

Lemma getMenuEngineering_entry_margin (menuItems : list Prisma.MenuItem)
    (allOrders : list Prisma.Order) (e : DecisionsRoute.MenuEntry) :
  In e (DecisionsRoute.getMenuEngineering menuItems allOrders) ->
  exists m : Q, DecisionsRoute.margin e = Fin m.
Proof.
  unfold DecisionsRoute.getMenuEngineering. cbv zeta. intros H.
  apply in_map_iff in H. destruct H as [m [<- _]].
  eexists. reflexivity.
Qed.

(** X20: the ranges of the Remove and Promote decisions of the route.  A
    Remove decision always has an ordered range that starts at zero or
    above; so has a Promote decision when no order line has a negative
    quantity. *)
Theorem GET_menu_ranges (menuItems : list Prisma.MenuItem)
    (allOrders : list Prisma.Order) (d : DecisionsRoute.Decision) :
  In d (DecisionsRoute.GET menuItems allOrders) ->
  (DecisionsRoute.action d = DecisionsRoute.Remove ->
   (DecisionsRoute.min (DecisionsRoute.impact d)
    <=? DecisionsRoute.max (DecisionsRoute.impact d))%num = true
   /\ (n0 <=? DecisionsRoute.min (DecisionsRoute.impact d))%num = true)
  /\ (DecisionsRoute.action d = DecisionsRoute.Promote ->
      Forall (fun o => Forall (fun l => (0 <= Prisma.quantity l)%Z)
                         (Prisma.orderItems o)) allOrders ->
      (DecisionsRoute.min (DecisionsRoute.impact d)
       <=? DecisionsRoute.max (DecisionsRoute.impact d))%num = true
      /\ (n0 <=? DecisionsRoute.min (DecisionsRoute.impact d))%num = true).
Proof.
  intros Hin.
  destruct (GET_decision_origin _ _ _ Hin) as [[e [He Hd]]|Hopt];
    [|split; intros Ha; rewrite Ha in Hopt; discriminate Hopt].
  destruct (menuDecisions_In e d Hd)
    as [[Ha [Hm Himp]]|[Ha|[Ha [imp [Hpos Himp]]]]];
    (split; intros Ha'; try (rewrite Ha in Ha'; discriminate Ha')).
  - intros Hqty. rewrite Himp.
    assert (Hord : exists q, DecisionsRoute.orders e = Fin q /\ (0 <= q)%Q).
    { unfold DecisionsRoute.getMenuEngineering in He. cbv zeta in He.
      apply in_map_iff in He. destruct He as [m [<- _]].
      cbn [DecisionsRoute.orders].
      apply sum_by_nonneg. apply List.Forall_forall. intros [oi o] Hoio.
      unfold DecisionsRoute.completedOrderItems in Hoio.
      apply filter_In in Hoio. destruct Hoio as [Hoio _].
      unfold DecisionsRoute.orderItemsOf in Hoio.
      apply in_flat_map in Hoio. destruct Hoio as [o' [Ho' Hoi]].
      apply in_map_iff in Hoi. destruct Hoi as [oi' [Heq Hoi']].
      injection Heq as -> ->.
      apply filter_In in Hoi'. destruct Hoi' as [Hoi' _].
      rewrite List.Forall_forall in Hqty. specialize (Hqty o Ho').
      rewrite List.Forall_forall in Hqty. specialize (Hqty oi Hoi').
      cbn [fst]. eexists. split; [reflexivity|].
      change 0%Q with (inject_Z 0). rewrite <- Zle_Qle. exact Hqty. }
    destruct Hord as [q [Eq Hq]].
    destruct (getMenuEngineering_entry_margin _ _ _ He) as [m Em].
    rewrite Eq, Em. rewrite Em in Hm.
    change (Fin q * Fin (45 # 100) * Fin m)%num
      with (Fin (q * (45 # 100) * m)).
    apply range_nonneg_bounds; [|discriminate|discriminate].
    apply Qle_bool_iff in Hm.
    apply Qmult_le_0_compat.
    + apply Qmult_le_0_compat; [exact Hq|discriminate].
    + eapply Qle_trans; [|exact Hm]. discriminate.
  - rewrite Himp. apply range_positive_bounds;
      [exact Hpos|reflexivity|discriminate].
Qed.

Lemma GET_menu_ranges_witness :
  exists d : DecisionsRoute.Decision,
    In d (DecisionsRoute.GET [Samples.plowhorse; Samples.puzzle]
            Samples.orders_puzzle)
    /\ DecisionsRoute.action d = DecisionsRoute.Promote
    /\ (DecisionsRoute.min (DecisionsRoute.impact d)
        <=? DecisionsRoute.max (DecisionsRoute.impact d))%num = true.
Proof.
  assert (Hin : exists d,
            In d (DecisionsRoute.GET [Samples.plowhorse; Samples.puzzle]
                    Samples.orders_puzzle)
            /\ DecisionsRoute.action d = DecisionsRoute.Promote).
  { eexists. split; [right; left; reflexivity|reflexivity]. }
  destruct Hin as [d [Hin Ha]].
  exists d. split; [exact Hin|]. split; [exact Ha|].
  apply (proj2 (GET_menu_ranges _ _ d Hin) Ha).
  repeat constructor; vm_compute; discriminate.
Defined.

(** ** Grouping with a [Map] *)

Section JsMapGroup.
Context {K V A : Type} (eqb : K -> K -> bool).
Hypothesis eqb_spec : forall a b : K, eqb a b = true <-> a = b.

Lemma Map_get_set (m : list (K * V)) (k k' : K) (v : V) :
  Map_get eqb (Map_set eqb m k v) k'
  = if eqb k k' then Some v else Map_get eqb m k'.
Proof using eqb_spec.
  induction m as [|[k1 v1] m IH]; cbn [Map_set Map_get].
  - reflexivity.
  - destruct (eqb k1 k) eqn:E1; cbn [Map_get].
    + apply eqb_spec in E1. subst k1.
      destruct (eqb k k'); reflexivity.
    + rewrite IH. destruct (eqb k1 k') eqn:E2; [|reflexivity].
      destruct (eqb k k') eqn:E3; [|reflexivity].
      apply eqb_spec in E2. apply eqb_spec in E3. subst k1 k.
      rewrite (proj2 (eqb_spec k' k') eq_refl) in E1. discriminate E1.
Qed.

Lemma Map_set_In_key (m : list (K * V)) (k k1 : K) (v : V) :
  In k1 (Map_keys (Map_set eqb m k v)) -> k1 = k \/ In k1 (Map_keys m).
Proof using eqb_spec.
  unfold Map_keys.
  induction m as [|[k2 v2] m IH]; cbn [Map_set map fst].
  - intros [E|[]]. left. symmetry. exact E.
  - destruct (eqb k2 k) eqn:E2; cbn [map fst].
    + apply eqb_spec in E2. subst k2. intros [E|Hin].
      * left. symmetry. exact E.
      * right. right. exact Hin.
    + intros [E|Hin]; [right; left; exact E|].
      destruct (IH Hin) as [H|H]; [left; exact H|right; right; exact H].
Qed.

Lemma Map_set_NoDup (m : list (K * V)) (k : K) (v : V) :
  List.NoDup (Map_keys m) -> List.NoDup (Map_keys (Map_set eqb m k v)).
Proof using eqb_spec.
  unfold Map_keys.
  induction m as [|[k1 v1] m IH]; cbn [Map_set map fst]; intros H.
  - constructor; [intros []|constructor].
  - inversion H as [|? ? Hnin Hnd]; subst.
    destruct (eqb k1 k) eqn:E1; cbn [map fst].
    + apply eqb_spec in E1. subst k1. constructor; assumption.
    + constructor; [|apply IH; exact Hnd].
      intros Hin. destruct (Map_set_In_key m k k1 v Hin) as [E|Hin'].
      * subst k1. assert (Hkk : eqb k k = true) by (apply eqb_spec; reflexivity).
        rewrite Hkk in E1. discriminate E1.
      * exact (Hnin Hin').
Qed.

(** A loop that reads the entry of the key of each element and writes it
    back updated. *)
Lemma Map_group_get (key : A -> K) (upd : option V -> A -> V) (k : K)
    (xs : list A) :
  forall m : list (K * V),
    Map_get eqb
      (fold_left
         (fun m x => Map_set eqb m (key x) (upd (Map_get eqb m (key x)) x))
         xs m) k
    = fold_left (fun o x => Some (upd o x))
        (List.filter (fun x => eqb (key x) k) xs) (Map_get eqb m k).
Proof using eqb_spec.
  induction xs as [|x xs IH]; intros m; cbn [fold_left List.filter];
    [reflexivity|].
  rewrite IH, Map_get_set.
  destruct (eqb (key x) k) eqn:E; [|reflexivity].
  apply eqb_spec in E. subst k. reflexivity.
Qed.

Lemma Map_group_NoDup (key : A -> K) (upd : option V -> A -> V)
    (xs : list A) :
  List.NoDup
    (Map_keys
       (fold_left
          (fun m x => Map_set eqb m (key x) (upd (Map_get eqb m (key x)) x))
          xs [])).
Proof using eqb_spec.
  apply (fold_left_invariant
           (fun m : list (K * V) => List.NoDup (Map_keys m))
           (fun _ => True)).
  - apply List.Forall_forall. intros; exact I.
  - constructor.
  - intros m x Hm _. apply Map_set_NoDup. exact Hm.
Qed.

(** Looking an entry up by its key in the list made from a map. *)
Lemma find_map_entries {W : Type} (g : K * V -> W) (kf : W -> K)
    (m : list (K * V)) (k : K) :
  (forall entry, kf (g entry) = fst entry) ->
  find (fun w => eqb (kf w) k) (map g m)
  = option_map (fun v => g (k, v)) (Map_get eqb m k).
Proof using eqb_spec.
  intros Hkf.
  induction m as [|[k1 v1] m IH]; cbn [map find Map_get]; [reflexivity|].
  rewrite Hkf. cbn [fst].
  destruct (eqb k1 k) eqn:E; [|exact IH].
  apply eqb_spec in E. subst k1. reflexivity.
Qed.

End JsMapGroup.

(** ** Orders by hour of the day *)

Lemma fold_append_orders (ls : list Prisma.Order) (l0 : list Prisma.Order) :
  fold_left
    (fun (o : option (list Prisma.Order)) x =>
       Some (match o with Some l => l | None => [] end ++ [x]))
    ls (Some l0)
  = Some (l0 ++ ls).
Proof.
  revert l0. induction ls as [|x ls IH]; intros l0; cbn [fold_left].
  - rewrite app_nil_r. reflexivity.
  - rewrite IH, <- app_assoc. reflexivity.
Qed.

(** X21: the capacity data holds one entry per hour of the day in which a
    completed order was placed, and none for the other hours.  The entry
    of an hour counts the completed orders placed in that hour and adds up
    their amounts. *)
Theorem getCapacityMetrics_per_hour (allOrders : list Prisma.Order) :
  List.NoDup (map DecisionsRoute.hour
                (DecisionsRoute.getCapacityMetrics allOrders))
  /\ forall h : Z,
      find (fun c => (DecisionsRoute.hour c =? h)%Z)
        (DecisionsRoute.getCapacityMetrics allOrders)
      = match List.filter
                (fun o => (getHours (Prisma.timestamp o) =? h)%Z)
                (List.filter
                   (fun o => String.eqb (Prisma.status o) "COMPLETED")
                   allOrders)
        with
        | [] => None
        | (_ :: _) as ls =>
            Some {| DecisionsRoute.hour := h;
                    DecisionsRoute.hourOrders := of_nat (length ls);
                    DecisionsRoute.hourRevenue :=
                      sum_by (fun o => Fin (Prisma.totalAmount o)) ls |}
        end.
Proof.
  unfold DecisionsRoute.getCapacityMetrics. cbv zeta.
  set (completed := List.filter _ allOrders).
  split.
  - rewrite map_map. cbn [DecisionsRoute.hour].
    apply (Map_group_NoDup Z.eqb Z.eqb_eq
             (fun o => getHours (Prisma.timestamp o))
             (fun existing order =>
                match existing with Some l => l | None => [] end ++ [order])).
  - intros h.
    rewrite (find_map_entries Z.eqb Z.eqb_eq _ DecisionsRoute.hour)
      by (intros entry; reflexivity).
    rewrite (Map_group_get Z.eqb Z.eqb_eq
               (fun o => getHours (Prisma.timestamp o))
               (fun existing order =>
                  match existing with Some l => l | None => [] end
                  ++ [order])).
    cbn [Map_get].
    destruct (List.filter _ completed) as [|o ls]; [reflexivity|].
    cbn [fold_left]. rewrite fold_append_orders.
    reflexivity.
Qed.

(** ** Orders by channel *)

Lemma fold_channel_data (menuItems : list Prisma.MenuItem)
    (ls : list Prisma.Order) (d0 : DecisionsRoute.ChannelData) :
  fold_left
    (fun (o : option DecisionsRoute.ChannelData) order =>
       Some
         {| DecisionsRoute.channelOrders :=
              DecisionsRoute.channelOrders
                match o with
                | Some d => d
                | None => {| DecisionsRoute.channelOrders := [];
                             DecisionsRoute.channelRevenue := n0;
                             DecisionsRoute.grossMargin := n0 |}
                end ++ [order];
            DecisionsRoute.channelRevenue :=
              (DecisionsRoute.channelRevenue
                 match o with
                 | Some d => d
                 | None => {| DecisionsRoute.channelOrders := [];
                              DecisionsRoute.channelRevenue := n0;
                              DecisionsRoute.grossMargin := n0 |}
                 end + Fin (Prisma.totalAmount order))%num;
            DecisionsRoute.grossMargin :=
              (DecisionsRoute.grossMargin
                 match o with
                 | Some d => d
                 | None => {| DecisionsRoute.channelOrders := [];
                              DecisionsRoute.channelRevenue := n0;
                              DecisionsRoute.grossMargin := n0 |}
                 end + order_margin menuItems order)%num |})
    ls (Some d0)
  = Some
      {| DecisionsRoute.channelOrders :=
           DecisionsRoute.channelOrders d0 ++ ls;
         DecisionsRoute.channelRevenue :=
           fold_left (fun sum o => (sum + Fin (Prisma.totalAmount o))%num) ls
             (DecisionsRoute.channelRevenue d0);
         DecisionsRoute.grossMargin :=
           fold_left (fun sum o => (sum + order_margin menuItems o)%num) ls
             (DecisionsRoute.grossMargin d0) |}.
Proof.
  revert d0. induction ls as [|x ls IH]; intros d0; cbn [fold_left].
  - rewrite app_nil_r. destruct d0; reflexivity.
  - rewrite IH.
    cbn [DecisionsRoute.channelOrders DecisionsRoute.channelRevenue
           DecisionsRoute.grossMargin].
    rewrite <- app_assoc. reflexivity.
Qed.

(** X22: the channel data holds one entry per channel that has a completed
    order, and none for the other channels.  The entry of a channel counts
    its completed orders and adds up their amounts; its net margin is the
    gross margin of their lines less the platform's share of the revenue
    (25% for Zomato and Swiggy, 5% for bookings, nothing otherwise), and
    the net margin percentage is 0 when the revenue is not positive. *)
Theorem getChannelMetrics_per_channel (menuItems : list Prisma.MenuItem)
    (allOrders : list Prisma.Order) :
  List.NoDup (map DecisionsRoute.channelName
                (DecisionsRoute.getChannelMetrics menuItems allOrders))
  /\ forall c : string,
      find (fun e => String.eqb (DecisionsRoute.channelName e) c)
        (DecisionsRoute.getChannelMetrics menuItems allOrders)
      = match List.filter (fun o => String.eqb (Prisma.channel o) c)
                (List.filter
                   (fun o => String.eqb (Prisma.status o) "COMPLETED")
                   allOrders)
        with
        | [] => None
        | (_ :: _) as ls =>
            let revenue := sum_by (fun o => Fin (Prisma.totalAmount o)) ls in
            let netMargin :=
              (sum_by (order_margin menuItems) ls
               - revenue * platform_fee_percent c)%num in
            Some {| DecisionsRoute.channelName := c;
                    DecisionsRoute.totalOrders := of_nat (length ls);
                    DecisionsRoute.totalRevenue := revenue;
                    DecisionsRoute.netMargin := netMargin;
                    DecisionsRoute.netMarginPercent :=
                      if (revenue >? n0)%num
                      then ((netMargin / revenue) * n100)%num else n0 |}
        end.
Proof.
  unfold DecisionsRoute.getChannelMetrics. cbv zeta.
  set (completed := List.filter _ allOrders).
  fold (order_margin menuItems).
  split.
  - rewrite map_map. cbn [DecisionsRoute.channelName].
    apply (Map_group_NoDup String.eqb String.eqb_eq Prisma.channel
             (fun o order =>
                {| DecisionsRoute.channelOrders :=
                     DecisionsRoute.channelOrders
                       match o with
                       | Some d => d
                       | None => {| DecisionsRoute.channelOrders := [];
                                    DecisionsRoute.channelRevenue := n0;
                                    DecisionsRoute.grossMargin := n0 |}
                       end ++ [order];
                   DecisionsRoute.channelRevenue :=
                     (DecisionsRoute.channelRevenue
                        match o with
                        | Some d => d
                        | None => {| DecisionsRoute.channelOrders := [];
                                     DecisionsRoute.channelRevenue := n0;
                                     DecisionsRoute.grossMargin := n0 |}
                        end + Fin (Prisma.totalAmount order))%num;
                   DecisionsRoute.grossMargin :=
                     (DecisionsRoute.grossMargin
                        match o with
                        | Some d => d
                        | None => {| DecisionsRoute.channelOrders := [];
                                     DecisionsRoute.channelRevenue := n0;
                                     DecisionsRoute.grossMargin := n0 |}
                        end + order_margin menuItems order)%num |})).
  - intros c.
    rewrite (find_map_entries String.eqb String.eqb_eq _
               DecisionsRoute.channelName)
      by (intros entry; reflexivity).
    rewrite (Map_group_get String.eqb String.eqb_eq Prisma.channel
             (fun o order =>
                {| DecisionsRoute.channelOrders :=
                     DecisionsRoute.channelOrders
                       match o with
                       | Some d => d
                       | None => {| DecisionsRoute.channelOrders := [];
                                    DecisionsRoute.channelRevenue := n0;
                                    DecisionsRoute.grossMargin := n0 |}
                       end ++ [order];
                   DecisionsRoute.channelRevenue :=
                     (DecisionsRoute.channelRevenue
                        match o with
                        | Some d => d
                        | None => {| DecisionsRoute.channelOrders := [];
                                     DecisionsRoute.channelRevenue := n0;
                                     DecisionsRoute.grossMargin := n0 |}
                        end + Fin (Prisma.totalAmount order))%num;
                   DecisionsRoute.grossMargin :=
                     (DecisionsRoute.grossMargin
                        match o with
                        | Some d => d
                        | None => {| DecisionsRoute.channelOrders := [];
                                     DecisionsRoute.channelRevenue := n0;
                                     DecisionsRoute.grossMargin := n0 |}
                        end + order_margin menuItems order)%num |})).
    cbn [Map_get].
    destruct (List.filter _ completed) as [|o ls]; [reflexivity|].
    cbn [fold_left]. rewrite fold_channel_data.
    reflexivity.
Qed.

(** ** Item baselines of the SQLite store *)

Lemma NoDup_map_filter {A B : Type} (f : A -> B) (p : A -> bool)
    (l : list A) :
  List.NoDup (map f l) -> List.NoDup (map f (List.filter p l)).
Proof.
  induction l as [|a l IH]; cbn [map List.filter]; intros H; [constructor|].
  inversion H as [|? ? Hnin Hnd]; subst.
  destruct (p a); cbn [map]; [|apply IH; exact Hnd].
  constructor; [|apply IH; exact Hnd].
  intros Hin. apply Hnin.
  apply in_map_iff in Hin. destruct Hin as [x [Hx Hin]].
  apply filter_In in Hin. destruct Hin as [Hin _].
  apply in_map_iff. exists x. split; assumption.
Qed.

Lemma NoDup_snoc {A : Type} (l : list A) (x : A) :
  ~ In x l -> List.NoDup l -> List.NoDup (l ++ [x]).
Proof.
  intros Hnin Hnd.
  apply (Permutation_NoDup (l := x :: l)).
  - apply Permutation_cons_append.
  - constructor; assumption.
Qed.

(** What [computeItemBaseline] returns and stores when it has a week of
    data. *)
Lemma analytics_computeItemBaseline_some (sqrt : num -> num) (now : Z)
    (txs : list Transaction) (st st' : AnalyticsEngine.Store)
    (itemId restaurantId lookbackDays : Z)
    (b : AnalyticsEngine.ItemBaseline) :
  AnalyticsEngine.computeItemBaseline sqrt now txs st itemId restaurantId
    lookbackDays = (Some b, st') ->
  st' = AnalyticsEngine.insertOrReplace st now itemId restaurantId
          (isoDate (subDays now lookbackDays)) (isoDate now)
          (AnalyticsEngine.avgDailyQuantity b)
          (AnalyticsEngine.avgDailyRevenue b)
          (AnalyticsEngine.stdDevQuantity b)
  /\ (7 <= length
             (AnalyticsEngine.dailyQuery txs itemId restaurantId
                (isoDate (subDays now lookbackDays)) (isoDate now)))%nat.
Proof.
  unfold AnalyticsEngine.computeItemBaseline. cbv zeta.
  destruct (length _ <? 7)%nat eqn:E; [discriminate|].
  apply Nat.ltb_ge in E.
  intros H. injection H as <- <-. split; [reflexivity|exact E].
Qed.

(** X23: [computeItemBaseline] keeps the pairs of an item and a period end
    unique in [item_baselines].  After a baseline was computed, the table
    holds exactly one row for the item and the current day, carrying the
    returned averages, and the rows of other items or days are the ones
    it held before. *)
Theorem analytics_computeItemBaseline_unique (sqrt : num -> num) (now : Z)
    (txs : list Transaction) (st st' : AnalyticsEngine.Store)
    (itemId restaurantId lookbackDays : Z)
    (b : AnalyticsEngine.ItemBaseline) :
  baseline_keys_unique st ->
  AnalyticsEngine.computeItemBaseline sqrt now txs st itemId restaurantId
    lookbackDays = (Some b, st') ->
  baseline_keys_unique st'
  /\ (exists row,
        List.filter
          (fun r => (AnalyticsEngine.base_item_id r =? itemId)%Z
                    && (AnalyticsEngine.baseline_period_end r
                        =? isoDate now)%Z)
          (AnalyticsEngine.item_baselines st') = [row]
        /\ AnalyticsEngine.avg_daily_quantity row
           = AnalyticsEngine.avgDailyQuantity b
        /\ AnalyticsEngine.avg_daily_revenue row
           = AnalyticsEngine.avgDailyRevenue b
        /\ AnalyticsEngine.std_dev_quantity row
           = AnalyticsEngine.stdDevQuantity b)
  /\ List.filter
       (fun r => negb ((AnalyticsEngine.base_item_id r =? itemId)%Z
                       && (AnalyticsEngine.baseline_period_end r
                           =? isoDate now)%Z))
       (AnalyticsEngine.item_baselines st')
     = List.filter
         (fun r => negb ((AnalyticsEngine.base_item_id r =? itemId)%Z
                         && (AnalyticsEngine.baseline_period_end r
                             =? isoDate now)%Z))
         (AnalyticsEngine.item_baselines st).
Proof.
  intros Huniq H.
  apply analytics_computeItemBaseline_some in H. destruct H as [-> _].
  unfold AnalyticsEngine.insertOrReplace, baseline_keys_unique.
  cbn [AnalyticsEngine.item_baselines].
  set (same := fun r => (AnalyticsEngine.base_item_id r =? itemId)%Z
                        && (AnalyticsEngine.baseline_period_end r
                            =? isoDate now)%Z).
  set (notSame := fun r => negb ((AnalyticsEngine.base_item_id r =? itemId)%Z
                                 && (AnalyticsEngine.baseline_period_end r
                                     =? isoDate now)%Z)).
  set (others := List.filter notSame (AnalyticsEngine.item_baselines st)).
  assert (Hsame : List.filter same others = []).
  { apply filter_nil_iff. intros x Hx. subst others.
    apply filter_In in Hx. destruct Hx as [_ Hx].
    apply negb_true_iff in Hx. exact Hx. }
  assert (Hothers : List.filter notSame others = others).
  { subst others. clear. induction (AnalyticsEngine.item_baselines st)
      as [|r l IH]; cbn [List.filter]; [reflexivity|].
    destruct (notSame r) eqn:E; cbn [List.filter]; [|exact IH].
    rewrite E, IH. reflexivity. }
  split; [|split].
  - rewrite map_app. cbn [map]. apply NoDup_snoc.
    + intros Hin. apply in_map_iff in Hin. destruct Hin as [x [Hk Hx]].
      subst others. apply filter_In in Hx. destruct Hx as [_ Hx].
      apply negb_true_iff in Hx. subst same. cbv beta in Hx.
      unfold baseline_key in Hk.
      cbn [AnalyticsEngine.base_item_id AnalyticsEngine.baseline_period_end]
        in Hk.
      injection Hk as H1 H2. rewrite H1, H2, !Z.eqb_refl in Hx.
      discriminate Hx.
    + apply NoDup_map_filter. exact Huniq.
  - eexists. rewrite List.filter_app, Hsame. cbn [List.filter app].
    unfold same at 1.
    cbn [AnalyticsEngine.base_item_id AnalyticsEngine.baseline_period_end].
    rewrite !Z.eqb_refl. cbn [andb].
    split; [reflexivity|]. repeat split.
  - rewrite List.filter_app, Hothers. cbn [List.filter].
    unfold notSame at 1.
    cbn [AnalyticsEngine.base_item_id AnalyticsEngine.baseline_period_end].
    rewrite !Z.eqb_refl. cbn [andb negb]. apply app_nil_r.
Qed.

Lemma analytics_computeItemBaseline_unique_witness :
  baseline_keys_unique
    (snd (AnalyticsEngine.computeItemBaseline (fun x => x) (Samples.day 97)
            Samples.txs_seven_days
            {| AnalyticsEngine.item_baselines := [];
               AnalyticsEngine.item_baselines_seq := 0 |} 1 1 30)).
Proof.
  refine (proj1 (analytics_computeItemBaseline_unique (fun x => x)
                   (Samples.day 97) Samples.txs_seven_days
                   {| AnalyticsEngine.item_baselines := [];
                      AnalyticsEngine.item_baselines_seq := 0 |} _ 1 1 30 _
                   _ _)).
  - constructor.
  - reflexivity.
Defined.

(** The row [latestBaseline] returns is a row of the item. *)
Lemma latestBaseline_In (rows : list AnalyticsEngine.BaselineRow)
    (itemId : Z) (b : AnalyticsEngine.BaselineRow) :
  AnalyticsEngine.latestBaseline rows itemId = Some b ->
  In b rows /\ AnalyticsEngine.base_item_id b = itemId.
Proof.
  unfold AnalyticsEngine.latestBaseline.
  assert (G : forall init,
            fold_left
              (fun best r =>
                 if (AnalyticsEngine.base_item_id r =? itemId)%Z then
                   match best with
                   | Some b0 =>
                       if (AnalyticsEngine.computed_at b0
                           <? AnalyticsEngine.computed_at r)%Z
                       then Some r else best
                   | None => Some r
                   end
                 else best) rows init = Some b ->
            init = Some b
            \/ (In b rows /\ AnalyticsEngine.base_item_id b = itemId)).
  { induction rows as [|r rows IH]; cbn [fold_left]; intros init H.
    - left. exact H.
    - destruct (IH _ H) as [E|[Hin Hid]].
      + destruct (AnalyticsEngine.base_item_id r =? itemId)%Z eqn:Er;
          [|left; exact E].
        apply Z.eqb_eq in Er.
        destruct init as [b0|].
        * destruct (AnalyticsEngine.computed_at b0
                    <? AnalyticsEngine.computed_at r)%Z;
            [|left; exact E].
          injection E as <-. right. split; [left; reflexivity|exact Er].
        * injection E as <-. right. split; [left; reflexivity|exact Er].
      + right. split; [right; exact Hin|exact Hid]. }
  intros H. destruct (G None H) as [E|E]; [discriminate E|exact E].
Qed.

(** X24: a baseline just computed is the one [getBaselineComparison]
    compares with.  When every stored baseline was computed at the
    current instant or before, for the day it was computed on, the
    comparison that follows a successful [computeItemBaseline] uses the
    returned average and standard deviation; the stored baselines stay
    dated in this way. *)
Theorem analytics_baseline_round_trip (sqrt : num -> num) (now : Z)
    (txs : list Transaction) (st st' : AnalyticsEngine.Store)
    (itemId restaurantId lookbackDays : Z)
    (b : AnalyticsEngine.ItemBaseline) (currentValue : num) :
  baselines_dated now st ->
  AnalyticsEngine.computeItemBaseline sqrt now txs st itemId restaurantId
    lookbackDays = (Some b, st') ->
  baselines_dated now st'
  /\ exists c : AnalyticsEngine.BaselineComparison,
      AnalyticsEngine.getBaselineComparison st' itemId currentValue = Some c
      /\ AnalyticsEngine.baselineAvg c = AnalyticsEngine.avgDailyQuantity b
      /\ AnalyticsEngine.currentValue c = currentValue
      /\ AnalyticsEngine.deviationSigma c
         = (if (AnalyticsEngine.stdDevQuantity b >? n0)%num
            then ((currentValue - AnalyticsEngine.avgDailyQuantity b)
                  / AnalyticsEngine.stdDevQuantity b)%num
            else n0).
Proof.
  intros Hdated H.
  apply analytics_computeItemBaseline_some in H. destruct H as [-> _].
  unfold baselines_dated in *.
  unfold AnalyticsEngine.insertOrReplace.
  cbn [AnalyticsEngine.item_baselines].
  set (notSame := fun r => negb ((AnalyticsEngine.base_item_id r =? itemId)%Z
                                 && (AnalyticsEngine.baseline_period_end r
                                     =? isoDate now)%Z)).
  set (others := List.filter notSame (AnalyticsEngine.item_baselines st)).
  set (new := {| AnalyticsEngine.row_id := _ |}).
  assert (Hothers : Forall
            (fun r => (AnalyticsEngine.computed_at r <= now)%Z
                      /\ AnalyticsEngine.baseline_period_end r
                         = isoDate (AnalyticsEngine.computed_at r)) others).
  { apply List.Forall_forall. intros r Hr. subst others.
    apply filter_In in Hr. destruct Hr as [Hr _].
    rewrite List.Forall_forall in Hdated. apply Hdated. exact Hr. }
  split.
  - apply Forall_app. split; [exact Hothers|].
    constructor; [|constructor]. subst new.
    cbn [AnalyticsEngine.computed_at AnalyticsEngine.baseline_period_end].
    split; [lia|reflexivity].
  - unfold AnalyticsEngine.getBaselineComparison.
    cbn [AnalyticsEngine.item_baselines].
    assert (Hlatest : AnalyticsEngine.latestBaseline (others ++ [new]) itemId
                      = Some new).
    { unfold AnalyticsEngine.latestBaseline.
      rewrite fold_left_app. cbn [fold_left].
      fold (AnalyticsEngine.latestBaseline others itemId).
      change (AnalyticsEngine.base_item_id new) with itemId.
      rewrite Z.eqb_refl.
      destruct (AnalyticsEngine.latestBaseline others itemId) as [b0|] eqn:E;
        [|reflexivity].
      apply latestBaseline_In in E. destruct E as [Hin Hid].
      rewrite List.Forall_forall in Hothers.
      destruct (Hothers b0 Hin) as [Hle Hend].
      subst others. apply filter_In in Hin. destruct Hin as [_ Hns].
      unfold notSame in Hns. rewrite Hid, Z.eqb_refl in Hns.
      cbn [andb] in Hns. apply negb_true_iff in Hns.
      apply Z.eqb_neq in Hns.
      change (AnalyticsEngine.computed_at new) with now.
      assert (Hlt : (AnalyticsEngine.computed_at b0 < now)%Z).
      { destruct (Z.eq_dec (AnalyticsEngine.computed_at b0) now) as [Heq|Hne];
          [|lia].
        exfalso. apply Hns. rewrite Hend, Heq. reflexivity. }
      apply Z.ltb_lt in Hlt. rewrite Hlt. reflexivity. }
    rewrite Hlatest. cbv zeta. eexists. split; [reflexivity|].
    repeat split.
Qed.

Lemma analytics_baseline_round_trip_witness :
  exists c : AnalyticsEngine.BaselineComparison,
    AnalyticsEngine.getBaselineComparison
      (snd (AnalyticsEngine.computeItemBaseline (fun x => x) (Samples.day 97)
              Samples.txs_seven_days
              {| AnalyticsEngine.item_baselines := [];
                 AnalyticsEngine.item_baselines_seq := 0 |} 1 1 30))
      1 (Fin 5) = Some c
    /\ (AnalyticsEngine.baselineAvg c =? Fin 2)%num = true.
Proof.
  destruct (analytics_baseline_round_trip (fun x => x) (Samples.day 97)
              Samples.txs_seven_days
              {| AnalyticsEngine.item_baselines := [];
                 AnalyticsEngine.item_baselines_seq := 0 |} _ 1 1 30 _
              (Fin 5) (List.Forall_nil _) eq_refl) as [_ [c [Hc [Havg _]]]].
  exists c. split; [exact Hc|]. rewrite Havg. reflexivity.
Defined.

(** X25: how [getBaselineComparison] rates a value [v] against the latest
    baseline of the item, of finite average [a] and standard deviation
    [s].  The value is above when the deviation it returns exceeds 0.5,
    below when that deviation is under -0.5 and normal otherwise.  With [s]
    zero or negative the deviation is 0 and the value normal.  With [s]
    positive a value of [a + s] or more is above, a value of [a - s] or
    less is below, no value from [a] up is below and no value up to [a] is
    above. *)
Theorem getBaselineComparison_performance (st : AnalyticsEngine.Store)
    (itemId : Z) (row : AnalyticsEngine.BaselineRow) (a s v : Q) :
  AnalyticsEngine.latestBaseline (AnalyticsEngine.item_baselines st) itemId
  = Some row ->
  AnalyticsEngine.avg_daily_quantity row = Fin a ->
  AnalyticsEngine.std_dev_quantity row = Fin s ->
  exists c : AnalyticsEngine.BaselineComparison,
    AnalyticsEngine.getBaselineComparison st itemId (Fin v) = Some c
    /\ AnalyticsEngine.baselineAvg c = Fin a
    /\ (AnalyticsEngine.performance c = AnalyticsEngine.above
        <-> (AnalyticsEngine.deviationSigma c >? Fin (5 # 10))%num = true)
    /\ (AnalyticsEngine.performance c = AnalyticsEngine.below
        <-> (AnalyticsEngine.deviationSigma c <? Fin (- (5 # 10)))%num
            = true)
    /\ ((s <= 0)%Q ->
        AnalyticsEngine.deviationSigma c = n0
        /\ AnalyticsEngine.performance c = AnalyticsEngine.normal)
    /\ ((0 < s)%Q ->
        ((a + s <= v)%Q ->
         AnalyticsEngine.performance c = AnalyticsEngine.above)
        /\ ((v <= a - s)%Q ->
            AnalyticsEngine.performance c = AnalyticsEngine.below)
        /\ ((a <= v)%Q ->
            AnalyticsEngine.performance c <> AnalyticsEngine.below)
        /\ ((v <= a)%Q ->
            AnalyticsEngine.performance c <> AnalyticsEngine.above)).
Proof.
  intros Hrow Ha Hs.
  unfold AnalyticsEngine.getBaselineComparison. rewrite Hrow. cbv zeta.
  rewrite Ha, Hs. eexists. split; [reflexivity|].
  cbn [AnalyticsEngine.baselineAvg AnalyticsEngine.deviationSigma
         AnalyticsEngine.performance].
  split; [reflexivity|].
  change (Fin s >? n0)%num with (Qltb 0 s).
  destruct (Qltb 0 s) eqn:Hpos.
  - apply Qltb_lt in Hpos.
    assert (Hz : Qeq_bool s 0 = false).
    { apply Qeq_bool_false. intros E. rewrite E in Hpos.
      exact (Qlt_irrefl _ Hpos). }
    change (Fin v - Fin a)%num with (Fin (v + - a)).
    unfold num_div. rewrite Hz.
    set (d := ((v + - a) / s)%Q).
    change (Fin d >? Fin (5 # 10))%num with (Qltb (5 # 10) d).
    change (Fin d <? Fin (- (5 # 10)))%num with (Qltb d (- (5 # 10))).
    assert (Hd : (d * s == v - a)%Q).
    { subst d. field. intros E. rewrite E in Hpos.
      exact (Qlt_irrefl _ Hpos). }
    assert (Habove : ((5 # 10) < d <-> a + (1 # 2) * s < v)%Q).
    { rewrite <- (Qmult_lt_r _ _ s Hpos). rewrite Hd.
      split; intros H; lra. }
    assert (Hbelow : (d < - (5 # 10) <-> v < a - (1 # 2) * s)%Q).
    { rewrite <- (Qmult_lt_r _ _ s Hpos). rewrite Hd.
      split; intros H; lra. }
    destruct (Qltb (5 # 10) d) eqn:E1.
    + apply Qltb_lt in E1. apply Habove in E1.
      assert (E2 : Qltb d (- (5 # 10)) = false).
      { apply Qltb_ge. apply Qnot_lt_le. intros H. apply Hbelow in H. lra. }
      rewrite E2.
      split; [split; reflexivity|].
      split; [split; discriminate|].
      split; [intros H; exfalso; lra|]. intros _.
      split; [reflexivity|].
      split; [intros H; exfalso; lra|].
      split; [discriminate|]. intros H. exfalso. lra.
    + apply Qltb_ge in E1.
      assert (Hnab : ~ (a + (1 # 2) * s < v)%Q).
      { intros Hab. apply Habove in Hab. lra. }
      destruct (Qltb d (- (5 # 10))) eqn:E2.
      * apply Qltb_lt in E2. apply Hbelow in E2.
        split; [split; discriminate|].
        split; [split; reflexivity|].
        split; [intros H; exfalso; lra|]. intros _.
        split; [intros H; exfalso; lra|].
        split; [reflexivity|].
        split; [intros H; exfalso; lra|]. discriminate.
      * apply Qltb_ge in E2.
        assert (Hnbe : ~ (v < a - (1 # 2) * s)%Q).
        { intros Hbe. apply Hbelow in Hbe. lra. }
        split; [split; discriminate|].
        split; [split; discriminate|].
        split; [intros H; exfalso; lra|]. intros _.
        split; [intros H; exfalso; lra|].
        split; [intros H; exfalso; lra|].
        split; discriminate.
  - apply Qltb_ge in Hpos.
    change (n0 >? Fin (5 # 10))%num with false.
    change (n0 <? Fin (- (5 # 10)))%num with false.
    split; [split; discriminate|].
    split; [split; discriminate|].
    split; [intros _; split; reflexivity|].
    intros H. exfalso. lra.
Qed.

Lemma getBaselineComparison_performance_witness :
  exists c : AnalyticsEngine.BaselineComparison,
    AnalyticsEngine.getBaselineComparison
      {| AnalyticsEngine.item_baselines :=
           [{| AnalyticsEngine.row_id := 1;
               AnalyticsEngine.base_item_id := 1;
               AnalyticsEngine.base_restaurant_id := 1;
               AnalyticsEngine.baseline_period_start := 67;
               AnalyticsEngine.baseline_period_end := 97;
               AnalyticsEngine.avg_daily_quantity := Fin 10;
               AnalyticsEngine.avg_daily_revenue := Fin 1000;
               AnalyticsEngine.std_dev_quantity := Fin 2;
               AnalyticsEngine.price_elasticity := None;
               AnalyticsEngine.computed_at := Samples.day 97 |}];
         AnalyticsEngine.item_baselines_seq := 1 |} 1 (Fin 12) = Some c
    /\ AnalyticsEngine.performance c = AnalyticsEngine.above.
Proof.
  destruct (getBaselineComparison_performance
              {| AnalyticsEngine.item_baselines :=
                   [{| AnalyticsEngine.row_id := 1;
                       AnalyticsEngine.base_item_id := 1;
                       AnalyticsEngine.base_restaurant_id := 1;
                       AnalyticsEngine.baseline_period_start := 67;
                       AnalyticsEngine.baseline_period_end := 97;
                       AnalyticsEngine.avg_daily_quantity := Fin 10;
                       AnalyticsEngine.avg_daily_revenue := Fin 1000;
                       AnalyticsEngine.std_dev_quantity := Fin 2;
                       AnalyticsEngine.price_elasticity := None;
                       AnalyticsEngine.computed_at := Samples.day 97 |}];
                 AnalyticsEngine.item_baselines_seq := 1 |} 1 _ 10 2 12
              eq_refl eq_refl eq_refl) as [c [Hc [_ [_ [_ [_ Hpos]]]]]].
  exists c. split; [exact Hc|].
  apply (proj1 (Hpos eq_refl)). vm_compute. discriminate.
Defined.

(** ** Daily aggregates of the SQLite store *)

Lemma insert_key_length (k : Z) (ks : list Z) :
  (1 <= length (insert_key k ks) <= S (length ks))%nat.
Proof.
  induction ks as [|x ks IH]; cbn [insert_key length]; [lia|].
  destruct (k <? x)%Z; cbn [length]; [lia|].
  destruct (k =? x)%Z; cbn [length]; lia.
Qed.

Lemma group_keys_length (ks : list Z) :
  (length (group_keys ks) <= length ks)%nat
  /\ (ks <> [] -> 1 <= length (group_keys ks))%nat.
Proof.
  unfold group_keys. induction ks as [|k ks [IH _]]; cbn [fold_right length].
  - split; [lia|]. intros H. contradiction.
  - pose proof (insert_key_length k (fold_right insert_key [] ks)) as H.
    split; [lia|]. intros _. lia.
Qed.

(** X26: [computeDailyAggregates] returns [null] and stores nothing when
    the restaurant has no transaction on the day.  Otherwise the order
    count it returns is the number of transactions of the day, the number
    of distinct items is at most that count, and afterwards the table holds
    exactly one row for the day and the restaurant, with the returned
    figures; the rows of other days or restaurants are kept. *)
Theorem computeDailyAggregates_result (now : Z) (txs : list Transaction)
    (st : AnalyticsEngine.AggregateStore) (restaurantId date : Z) :
  let same := fun r => (AnalyticsEngine.agg_date r =? date)%Z
                       && (AnalyticsEngine.agg_restaurant_id r
                           =? restaurantId)%Z in
  match List.filter (fun r => (isoDate (timestamp r) =? date)%Z
                              && (restaurant_id r =? restaurantId)%Z) txs
  with
  | [] =>
      AnalyticsEngine.computeDailyAggregates now txs st restaurantId date
      = (None, st)
  | (_ :: _) as rows =>
      exists (agg : AnalyticsEngine.DailyAggregate)
             (st' : AnalyticsEngine.AggregateStore)
             (row : AnalyticsEngine.AggregateRow),
        AnalyticsEngine.computeDailyAggregates now txs st restaurantId date
        = (Some agg, st')
        /\ AnalyticsEngine.date agg = date
        /\ AnalyticsEngine.aggRestaurantId agg = restaurantId
        /\ AnalyticsEngine.totalOrders agg = of_nat (length rows)
        /\ (AnalyticsEngine.uniqueItemsSold agg
            <=? AnalyticsEngine.totalOrders agg)%num = true
        /\ List.filter same (AnalyticsEngine.daily_aggregates st') = [row]
        /\ AnalyticsEngine.total_revenue row
           = AnalyticsEngine.totalRevenue agg
        /\ AnalyticsEngine.total_orders row = AnalyticsEngine.totalOrders agg
        /\ AnalyticsEngine.avg_order_value row
           = AnalyticsEngine.avgOrderValue agg
        /\ AnalyticsEngine.unique_items_sold row
           = AnalyticsEngine.uniqueItemsSold agg
        /\ List.filter (fun r => negb (same r))
             (AnalyticsEngine.daily_aggregates st')
           = List.filter (fun r => negb (same r))
               (AnalyticsEngine.daily_aggregates st)
  end.
Proof.
  cbv zeta. unfold AnalyticsEngine.computeDailyAggregates. cbv zeta.
  set (rows := List.filter _ txs).
  set (same := fun r => (AnalyticsEngine.agg_date r =? date)%Z
                        && (AnalyticsEngine.agg_restaurant_id r
                            =? restaurantId)%Z).
  set (notSame := fun r => negb ((AnalyticsEngine.agg_date r =? date)%Z
                                 && (AnalyticsEngine.agg_restaurant_id r
                                     =? restaurantId)%Z)).
  destruct rows as [|r0 rows'] eqn:Erows; [reflexivity|].
  rewrite <- Erows.
  assert (Hlen : (0 < length rows)%nat) by (rewrite Erows; cbn; lia).
  rewrite (of_nat_nonzero _ Hlen).
  set (others := List.filter notSame (AnalyticsEngine.daily_aggregates st)).
  assert (Hsame : List.filter same others = []).
  { apply filter_nil_iff. intros x Hx. subst others.
    apply filter_In in Hx. destruct Hx as [_ Hx].
    apply negb_true_iff in Hx. exact Hx. }
  assert (Hothers : List.filter notSame others = others).
  { subst others. clear. induction (AnalyticsEngine.daily_aggregates st)
      as [|r l IH]; cbn [List.filter]; [reflexivity|].
    destruct (notSame r) eqn:E; cbn [List.filter]; [|exact IH].
    rewrite E, IH. reflexivity. }
  eexists _, _, _. split; [reflexivity|].
  cbn [AnalyticsEngine.totalOrders AnalyticsEngine.totalRevenue
         AnalyticsEngine.avgOrderValue AnalyticsEngine.uniqueItemsSold
         AnalyticsEngine.date AnalyticsEngine.aggRestaurantId
         AnalyticsEngine.daily_aggregates].
  split; [reflexivity|]. split; [reflexivity|]. split; [reflexivity|].
  destruct (group_keys_length (map item_id rows)) as [Hle _].
  split.
  { apply Qle_bool_iff.
    change (inject_Z (Z.of_nat (length (group_keys (map item_id rows))))
            <= inject_Z (Z.of_nat (length rows)))%Q.
    rewrite <- Zle_Qle. rewrite length_map in Hle. lia. }
  split.
  { rewrite List.filter_app, Hsame. cbn [List.filter app].
    unfold same at 1.
    cbn [AnalyticsEngine.agg_date AnalyticsEngine.agg_restaurant_id].
    rewrite !Z.eqb_refl. reflexivity. }
  cbn [AnalyticsEngine.total_revenue AnalyticsEngine.total_orders
         AnalyticsEngine.avg_order_value AnalyticsEngine.unique_items_sold].
  repeat (split; [reflexivity|]).
  match goal with
  | |- List.filter _ (_ ++ ?x) = _ =>
      change (List.filter notSame (others ++ x) = others)
  end.
  rewrite List.filter_app, Hothers. cbn [List.filter].
  unfold notSame at 1.
  cbn [AnalyticsEngine.agg_date AnalyticsEngine.agg_restaurant_id].
  rewrite !Z.eqb_refl. cbn [andb negb]. apply app_nil_r.
Qed.

(** ** Price elasticity of the Prisma engine *)

(** A number strictly between two finite bounds is finite. *)
Lemma between_finite (e : num) (lo hi : Q) :
  (e >? Fin lo)%num && (e <? Fin hi)%num = true ->
  exists x : Q, e = Fin x /\ (lo < x)%Q /\ (x < hi)%Q.
Proof.
  intros H. apply andb_true_iff in H. destruct H as [H1 H2].
  destruct e as [x| | |]; try discriminate H1; try discriminate H2.
  exists x. split; [reflexivity|].
  split; apply Qltb_lt; assumption.
Qed.

(** The running sum of the kept elasticities stays within 10 times their
    number. *)
Lemma elasticity_step_bound (acc : num * nat)
    (prev curr : ComputationEngine.CleanRow) :
  (exists s : Q, fst acc = Fin s
                 /\ (- (10) * inject_Z (Z.of_nat (snd acc)) <= s)%Q
                 /\ (s <= 10 * inject_Z (Z.of_nat (snd acc)))%Q
                 /\ ((0 < snd acc)%nat ->
                     (- (10) * inject_Z (Z.of_nat (snd acc)) < s)%Q
                     /\ (s < 10 * inject_Z (Z.of_nat (snd acc)))%Q)) ->
  exists s : Q,
    fst (ComputationEngine.elasticity_step acc prev curr) = Fin s
    /\ (- (10) * inject_Z (Z.of_nat
                             (snd (ComputationEngine.elasticity_step acc
                                     prev curr))) <= s)%Q
    /\ (s <= 10 * inject_Z (Z.of_nat
                              (snd (ComputationEngine.elasticity_step acc
                                      prev curr))))%Q
    /\ ((0 < snd (ComputationEngine.elasticity_step acc prev curr))%nat ->
        (- (10) * inject_Z (Z.of_nat
                              (snd (ComputationEngine.elasticity_step acc
                                      prev curr))) < s)%Q
        /\ (s < 10 * inject_Z (Z.of_nat
                                 (snd (ComputationEngine.elasticity_step acc
                                         prev curr))))%Q).
Proof.
  intros Hacc. unfold ComputationEngine.elasticity_step.
  destruct (_ || _); [exact Hacc|]. cbv zeta.
  destruct (num_abs _ >? Fin (2 # 100))%num; [|exact Hacc].
  match goal with
  | |- context [if ?c then _ else _] => destruct c eqn:Ec
  end; [|exact Hacc].
  apply between_finite in Ec. destruct Ec as [x [Ex [Hlo Hhi]]].
  rewrite Ex. destruct Hacc as [s [Es [H1 [H2 _]]]].
  rewrite Es. cbn [fst snd]. exists (s + x)%Q.
  split; [reflexivity|].
  rewrite Nat2Z.inj_succ. unfold Z.succ. rewrite inject_Z_plus.
  change (inject_Z 1) with 1%Q.
  set (n := inject_Z (Z.of_nat (snd acc))) in *.
  split; [lra|]. split; [lra|]. intros _. split; lra.
Qed.

Lemma elasticity_loop_bound (rest : list ComputationEngine.CleanRow) :
  forall (acc : num * nat) (prev : ComputationEngine.CleanRow),
    (exists s : Q, fst acc = Fin s
                   /\ (- (10) * inject_Z (Z.of_nat (snd acc)) <= s)%Q
                   /\ (s <= 10 * inject_Z (Z.of_nat (snd acc)))%Q
                   /\ ((0 < snd acc)%nat ->
                       (- (10) * inject_Z (Z.of_nat (snd acc)) < s)%Q
                       /\ (s < 10 * inject_Z (Z.of_nat (snd acc)))%Q)) ->
    exists s : Q,
      fst (ComputationEngine.elasticity_loop acc prev rest) = Fin s
      /\ ((0 < snd (ComputationEngine.elasticity_loop acc prev rest))%nat ->
          (- (10) * inject_Z (Z.of_nat
                                (snd (ComputationEngine.elasticity_loop acc
                                        prev rest))) < s)%Q
          /\ (s < 10 * inject_Z (Z.of_nat
                                   (snd (ComputationEngine.elasticity_loop
                                           acc prev rest))))%Q).
Proof.
  induction rest as [|curr rest IH]; intros acc prev Hacc;
    cbn [ComputationEngine.elasticity_loop].
  - destruct Hacc as [s [Es [_ [_ H]]]]. exists s. split; assumption.
  - apply IH. apply elasticity_step_bound. exact Hacc.
Qed.

(** X27: an estimated price elasticity, when there is one, is a finite
    number strictly between -10 and 10, whatever the daily figures are. *)
Theorem estimatePriceElasticity_bounds
    (data : list ComputationEngine.CleanRow) (e : num) :
  ComputationEngine.estimatePriceElasticity data = Some e ->
  exists q : Q, e = Fin q /\ (- (10) < q)%Q /\ (q < 10)%Q.
Proof.
  unfold ComputationEngine.estimatePriceElasticity.
  set (r := match data with
            | [] => (n0, O)
            | first :: rest =>
                ComputationEngine.elasticity_loop (n0, O) first rest
            end).
  assert (Hr : exists s : Q,
            fst r = Fin s
            /\ ((0 < snd r)%nat ->
                (- (10) * inject_Z (Z.of_nat (snd r)) < s)%Q
                /\ (s < 10 * inject_Z (Z.of_nat (snd r)))%Q)).
  { subst r. destruct data as [|first rest].
    - exists 0%Q. split; [reflexivity|]. cbn [snd]. intros H. lia.
    - apply elasticity_loop_bound. exists 0%Q. cbn [fst snd].
      split; [reflexivity|]. split; [discriminate|]. split; [discriminate|].
      intros H. lia. }
  destruct r as [sumElasticity count]. cbn [fst snd] in Hr.
  destruct Hr as [s [-> Hs]].
  destruct (0 <? count)%nat eqn:Ec; [|discriminate].
  apply Nat.ltb_lt in Ec. destruct (Hs Ec) as [Hlo Hhi].
  intros H. injection H as <-.
  assert (Hn : (0 < inject_Z (Z.of_nat count))%Q).
  { change 0%Q with (inject_Z 0). rewrite <- Zlt_Qlt. lia. }
  assert (Hz : Qeq_bool (inject_Z (Z.of_nat count)) 0 = false).
  { apply Qeq_bool_false. intros E. rewrite E in Hn.
    exact (Qlt_irrefl _ Hn). }
  exists (s / inject_Z (Z.of_nat count))%Q.
  split; [unfold of_nat, of_Z, num_div; rewrite Hz; reflexivity|].
  split.
  - apply Qlt_shift_div_l; [exact Hn|exact Hlo].
  - apply Qlt_shift_div_r; [exact Hn|exact Hhi].
Qed.

Lemma estimatePriceElasticity_bounds_witness :
  exists q : Q,
    ComputationEngine.estimatePriceElasticity
      [ {| ComputationEngine.qty := Fin 10;
           ComputationEngine.rev := Fin 1000;
           ComputationEngine.price := Fin 100 |};
        {| ComputationEngine.qty := Fin 8;
           ComputationEngine.rev := Fin 880;
           ComputationEngine.price := Fin 110 |} ] = Some (Fin q)
    /\ (q < 10)%Q.
Proof.
  destruct (estimatePriceElasticity_bounds
              [ {| ComputationEngine.qty := Fin 10;
                   ComputationEngine.rev := Fin 1000;
                   ComputationEngine.price := Fin 100 |};
                {| ComputationEngine.qty := Fin 8;
                   ComputationEngine.rev := Fin 880;
                   ComputationEngine.price := Fin 110 |} ] _ eq_refl)
    as [q [Eq [_ Hq]]].
  exists q. split; [rewrite <- Eq; reflexivity|exact Hq].
Defined.

(** ** Versions of the daily aggregates of the Prisma engine *)

(** [findFirstAggregate] returns a row of the period with the largest
    version, and nothing when the period has no row. *)
Lemma findFirstAggregate_max (rows : list ComputationEngine.TimeAggregate)
    (restaurantId : Z) (type : string) (periodStart : Z) :
  let sameKey := fun r =>
    (ComputationEngine.aggRestaurantId r =? restaurantId)%Z
    && String.eqb (ComputationEngine.periodType r) type
    && (ComputationEngine.aggPeriodStart r =? periodStart)%Z in
  match ComputationEngine.findFirstAggregate rows restaurantId type
          periodStart with
  | None => Forall (fun r => sameKey r = false) rows
  | Some b =>
      In b rows /\ sameKey b = true
      /\ Forall (fun r => sameKey r = true ->
                          (ComputationEngine.aggVersion r
                           <= ComputationEngine.aggVersion b)%Z) rows
  end.
Proof.
  intros sameKey. unfold ComputationEngine.findFirstAggregate.
  induction rows as [|r rows IH] using rev_ind; [constructor|].
  rewrite fold_left_app. cbn [fold_left].
  fold (sameKey r).
  destruct (fold_left _ rows None) as [b|].
  - destruct IH as [Hin [Hb Hrows]].
    destruct (sameKey r) eqn:Er.
    + destruct (ComputationEngine.aggVersion b
                <? ComputationEngine.aggVersion r)%Z eqn:Ev.
      * apply Z.ltb_lt in Ev.
        split; [apply in_or_app; right; left; reflexivity|].
        split; [exact Er|].
        apply Forall_app. split.
        -- eapply List.Forall_impl; [|exact Hrows].
           cbv beta. intros x Hx Hk. specialize (Hx Hk). lia.
        -- constructor; [|constructor]. intros _. lia.
      * apply Z.ltb_ge in Ev.
        split; [apply in_or_app; left; exact Hin|].
        split; [exact Hb|].
        apply Forall_app. split; [exact Hrows|].
        constructor; [|constructor]. intros _. exact Ev.
    + split; [apply in_or_app; left; exact Hin|].
      split; [exact Hb|]. apply Forall_app. split; [exact Hrows|].
      constructor; [|constructor]. intros H. rewrite Er in H. discriminate H.
  - destruct (sameKey r) eqn:Er.
    + split; [apply in_or_app; right; left; reflexivity|].
      split; [exact Er|]. apply Forall_app. split.
      * eapply List.Forall_impl; [|exact IH].
        cbv beta. intros x Hx Hk. rewrite Hx in Hk. discriminate Hk.
      * constructor; [|constructor]. intros _. lia.
    + apply Forall_app. split; [exact IH|].
      constructor; [|constructor]. exact Er.
Qed.

(** A positive count is above 0. *)
Lemma of_nat_positive (n : nat) : (0 < n)%nat -> (of_nat n >? n0)%num = true.
Proof.
  intros Hn. change (of_nat n >? n0)%num with (Qltb 0 (inject_Z (Z.of_nat n))).
  apply Qltb_lt. change 0%Q with (inject_Z 0). rewrite <- Zlt_Qlt. lia.
Qed.

(** X28: [computeDailyAggregate] leaves the table as it is when the
    restaurant has no order on the day.  Otherwise it appends one row for
    the day, whose version is larger than the version of every row the
    table held for that restaurant and day, and is 1 when there was none;
    the row counts the orders of the day, and its average order value is
    its total revenue divided by that count. *)
Theorem computeDailyAggregate_versions (allOrders : list Prisma.Order)
    (aggregates : list ComputationEngine.TimeAggregate)
    (restaurantId date : Z) :
  let sameKey := fun r =>
    (ComputationEngine.aggRestaurantId r =? restaurantId)%Z
    && String.eqb (ComputationEngine.periodType r) "day"
    && (ComputationEngine.aggPeriodStart r =? startOfDay date)%Z in
  match List.filter
          (fun o => (Prisma.restaurantId o =? restaurantId)%Z
                    && (startOfDay date <=? Prisma.timestamp o)%Z
                    && (Prisma.timestamp o <=? endOfDay date)%Z) allOrders
  with
  | [] =>
      ComputationEngine.computeDailyAggregate allOrders aggregates
        restaurantId date = aggregates
  | (_ :: _) as orders =>
      exists row : ComputationEngine.TimeAggregate,
        ComputationEngine.computeDailyAggregate allOrders aggregates
          restaurantId date = aggregates ++ [row]
        /\ sameKey row = true
        /\ Forall (fun r => sameKey r = true ->
                            (ComputationEngine.aggVersion r
                             < ComputationEngine.aggVersion row)%Z)
             aggregates
        /\ (Forall (fun r => sameKey r = false) aggregates ->
            ComputationEngine.aggVersion row = 1%Z)
        /\ ComputationEngine.totalOrders row = of_nat (length orders)
        /\ ComputationEngine.avgOrderValue row
           = (ComputationEngine.totalRevenue row
              / ComputationEngine.totalOrders row)%num
  end.
Proof.
  intros sameKey. unfold ComputationEngine.computeDailyAggregate. cbv zeta.
  set (orders := List.filter _ allOrders).
  destruct orders as [|o0 orders'] eqn:Eorders; [reflexivity|].
  rewrite <- Eorders.
  assert (Hlen : (0 < length orders)%nat) by (rewrite Eorders; cbn; lia).
  assert (Hguard : (length orders =? 0)%nat = false)
    by (apply Nat.eqb_neq; lia).
  rewrite Hguard.
  rewrite (of_nat_positive _ Hlen).
  eexists. split; [reflexivity|].
  cbn [ComputationEngine.aggRestaurantId ComputationEngine.periodType
         ComputationEngine.aggPeriodStart ComputationEngine.aggVersion
         ComputationEngine.totalOrders ComputationEngine.avgOrderValue
         ComputationEngine.totalRevenue].
  split.
  { subst sameKey. cbn [ComputationEngine.aggRestaurantId
                          ComputationEngine.periodType
                          ComputationEngine.aggPeriodStart].
    rewrite !Z.eqb_refl. reflexivity. }
  pose proof (findFirstAggregate_max aggregates restaurantId "day"
                (startOfDay date)) as Hmax.
  cbv zeta in Hmax. fold sameKey in Hmax.
  destruct (ComputationEngine.findFirstAggregate aggregates restaurantId
              "day" (startOfDay date)) as [b|].
  - destruct Hmax as [Hin [Hb Hrows]].
    assert (Hv : ((if (ComputationEngine.aggVersion b =? 0)%Z then 0
                   else ComputationEngine.aggVersion b) + 1
                  = ComputationEngine.aggVersion b + 1)%Z).
    { destruct (ComputationEngine.aggVersion b =? 0)%Z eqn:E;
        [apply Z.eqb_eq in E; lia|reflexivity]. }
    rewrite Hv. split; [|split].
    + eapply List.Forall_impl; [|exact Hrows].
      cbv beta. intros x Hx Hk. specialize (Hx Hk). lia.
    + intros Hnone. exfalso.
      rewrite List.Forall_forall in Hnone. rewrite (Hnone b Hin) in Hb.
      discriminate Hb.
    + split; reflexivity.
  - split; [|split].
    + eapply List.Forall_impl; [|exact Hmax].
      cbv beta. intros x Hx Hk. rewrite Hx in Hk. discriminate Hk.
    + intros _. reflexivity.
    + split; reflexivity.
Qed.

(** ** Confidence of the baselines of the Prisma engine *)






